(** * Session scripts: signing and submission pipeline

    A shallow embedding of the four scripts of the repository
    (send_data_transaction.js holds the basic and the Ethereum script,
    send_data_transaction_solana.js the Solana and the session lifecycle
    script) together with the part of the JavaScript runtime they use:
    values and objects, string conversion, JSON text, UTF-8, base64,
    exceptions, [process.exit], the console, the clock, the dag4 key store
    and the axios POST. *)

From Stdlib Require Import String Ascii List ZArith NArith Lia Bool.
From Stdlib.Strings Require Import Byte.
From Stdlib Require Import DecimalString DecimalZ.
Import ListNotations.

Open Scope string_scope.

(** ** Strings

    A JavaScript string is modelled by [string]; a character stands for
    the code point of the same number (U+0000 to U+00FF). *)

(** [s.substring(n)] with one argument: the characters from index [n] on,
    the empty string when [n] is past the end. *)
Fixpoint substring_from (n : nat) (s : string) : string :=
  match n, s with
  | O, _ => s
  | S _, EmptyString => EmptyString
  | S n', String _ s' => substring_from n' s'
  end.

(** [parts.join(sep)] *)
Fixpoint join (sep : string) (parts : list string) : string :=
  match parts with
  | [] => EmptyString
  | [p] => p
  | p :: rest => p ++ sep ++ join sep rest
  end.

(** [ToString] of an integral Number: its decimal numeral. Numbers of the
    model are integers (snapshot ordinals, counts). JavaScript holds an
    integer exactly and prints it in plain decimal when it lies between
    -2^53 and 2^53 ([safe_integer] below); past that it rounds, and from
    10^21 it prints an exponent, which this function does not follow. *)
Definition Number_toString (n : Z) : string :=
  NilZero.string_of_int (Z.to_int n).

(** ** Values *)

Unset Elimination Schemes.

Inductive JsVal : Type :=
| VUndefined
| VNull
| VBool (b : bool)
| VNum (n : Z)
| VStr (s : string)
| VArr (elems : list JsVal)
| VObj (props : list (string * JsVal)).

Set Elimination Schemes.

(** Induction that reaches the elements of arrays and the values of
    objects. *)
Section JsVal_induction.

Variable P : JsVal -> Prop.
Hypothesis Hundefined : P VUndefined.
Hypothesis Hnull : P VNull.
Hypothesis Hbool : forall b, P (VBool b).
Hypothesis Hnum : forall n, P (VNum n).
Hypothesis Hstr : forall s, P (VStr s).
Hypothesis Harr : forall l, Forall P l -> P (VArr l).
Hypothesis Hobj : forall o, Forall (fun kv => P (snd kv)) o -> P (VObj o).

Fixpoint JsVal_nested_ind (v : JsVal) : P v :=
  match v with
  | VUndefined => Hundefined
  | VNull => Hnull
  | VBool b => Hbool b
  | VNum n => Hnum n
  | VStr s => Hstr s
  | VArr l =>
      Harr l ((fix all (l : list JsVal) : Forall P l :=
                 match l with
                 | [] => Forall_nil P
                 | x :: l' => Forall_cons x (JsVal_nested_ind x) (all l')
                 end) l)
  | VObj o =>
      Hobj o ((fix all (o : list (string * JsVal)) : Forall (fun kv => P (snd kv)) o :=
                 match o with
                 | [] => Forall_nil _
                 | kv :: o' => Forall_cons kv (JsVal_nested_ind (snd kv)) (all o')
                 end) o)
  end.

End JsVal_induction.


(** Objects keep their properties in insertion order; a key occurs once. *)
Definition Props := list (string * JsVal).

Fixpoint lookup (k : string) (o : Props) : option JsVal :=
  match o with
  | [] => None
  | (k', v) :: o' => if String.eqb k k' then Some v else lookup k o'
  end.

(** [o[k] = v]: an existing property keeps its place, a new one goes last. *)
Fixpoint set_prop (k : string) (v : JsVal) (o : Props) : Props :=
  match o with
  | [] => [(k, v)]
  | (k', v') :: o' =>
      if String.eqb k k' then (k', v) :: o' else (k', v') :: set_prop k v o'
  end.

Definition keys (o : Props) : list string := map fst o.

(** [ToString] as a template literal applies it. *)
Fixpoint ToString (v : JsVal) : string :=
  match v with
  | VUndefined => "undefined"
  | VNull => "null"
  | VBool true => "true"
  | VBool false => "false"
  | VNum n => Number_toString n
  | VStr s => s
  | VArr l =>
      join "," (map (fun x => match x with
                              | VUndefined | VNull => EmptyString
                              | _ => ToString x
                              end) l)
  | VObj _ => "[object Object]"
  end.

(** ** JSON text *)

Definition hex_digit (n : N) : ascii :=
  match n with
  | 0 => "0" | 1 => "1" | 2 => "2" | 3 => "3" | 4 => "4" | 5 => "5"
  | 6 => "6" | 7 => "7" | 8 => "8" | 9 => "9" | 10 => "a" | 11 => "b"
  | 12 => "c" | 13 => "d" | 14 => "e" | _ => "f"
  end%N%char.

(** One character inside a JSON string literal, as [JSON.stringify] writes
    it: the quote and the backslash escaped, control characters by their
    short escape or as [\u00XX], everything else as it is. *)
Definition dquote : ascii := ascii_of_N 34.

Definition backslash : ascii := ascii_of_N 92.

Definition quote_char (c : ascii) : string :=
  let n := N_of_ascii c in
  if (n =? 34)%N then String backslash (String c EmptyString)
  else if (n =? 92)%N then String backslash (String c EmptyString)
  else if (n =? 8)%N then String backslash "b"
  else if (n =? 12)%N then String backslash "f"
  else if (n =? 10)%N then String backslash "n"
  else if (n =? 13)%N then String backslash "r"
  else if (n =? 9)%N then String backslash "t"
  else if (n <? 32)%N then
    String backslash "u00" ++ String (hex_digit (N.shiftr n 4)) (String (hex_digit (N.land n 15)) EmptyString)
  else String c EmptyString.

Fixpoint quote_chars (s : string) : string :=
  match s with
  | EmptyString => EmptyString
  | String c s' => quote_char c ++ quote_chars s'
  end.

Definition quote (s : string) : string :=
  String dquote (quote_chars s ++ String dquote EmptyString).

(** [JSON.stringify(v)]: [None] is the [undefined] it returns for
    [undefined]. A property whose value is [undefined] is left out of an
    object; an [undefined] array element is written as [null]. *)
Fixpoint JSON_stringify (v : JsVal) : option string :=
  match v with
  | VUndefined => None
  | VNull => Some "null"
  | VBool true => Some "true"
  | VBool false => Some "false"
  | VNum n => Some (Number_toString n)
  | VStr s => Some (quote s)
  | VArr l =>
      Some ("[" ++ join "," (map (fun x => match JSON_stringify x with
                                           | Some t => t
                                           | None => "null"
                                           end) l) ++ "]")
  | VObj o =>
      Some ("{" ++ join "," (flat_map (fun kv => match JSON_stringify (snd kv) with
                                                 | Some t => [quote (fst kv) ++ ":" ++ t]
                                                 | None => []
                                                 end) o) ++ "}")
  end.

(** ** UTF-8 and base64 *)

(** The UTF-8 bytes of a string: one byte below U+0080, two from there. *)
Definition utf8_char (c : ascii) : list byte :=
  let n := N_of_ascii c in
  if (n <? 128)%N then [byte_of_ascii c]
  else match Byte.of_N (N.lor 192 (N.shiftr n 6)), Byte.of_N (N.lor 128 (N.land n 63)) with
       | Some b1, Some b2 => [b1; b2]
       | _, _ => []
       end.

Fixpoint utf8 (s : string) : list byte :=
  match s with
  | EmptyString => []
  | String c s' => utf8_char c ++ utf8 s'
  end.

Definition base64_alphabet : string :=
  "ABCDEFGHIJKLMNOPQRSTUVWXYZabcdefghijklmnopqrstuvwxyz0123456789+/".

Definition base64_digit (n : N) : ascii :=
  match String.get (N.to_nat n) base64_alphabet with
  | Some c => c
  | None => "="%char
  end.

Fixpoint base64 (bs : list byte) : string :=
  match bs with
  | [] => EmptyString
  | [a] =>
      let x := Byte.to_N a in
      String (base64_digit (N.shiftr x 2))
        (String (base64_digit (N.shiftl (N.land x 3) 4)) "==")
  | [a; b] =>
      let x := Byte.to_N a in
      let y := Byte.to_N b in
      String (base64_digit (N.shiftr x 2))
        (String (base64_digit (N.lor (N.shiftl (N.land x 3) 4) (N.shiftr y 4)))
           (String (base64_digit (N.shiftl (N.land y 15) 2)) "="))
  | a :: b :: c :: rest =>
      let x := Byte.to_N a in
      let y := Byte.to_N b in
      let z := Byte.to_N c in
      String (base64_digit (N.shiftr x 2))
        (String (base64_digit (N.lor (N.shiftl (N.land x 3) 4) (N.shiftr y 4)))
           (String (base64_digit (N.lor (N.shiftl (N.land y 15) 2) (N.shiftr z 6)))
              (String (base64_digit (N.land z 63)) (base64 rest))))
  end.

(** ** Effects

    A script runs against a world it does not control: the clock, the dag4
    key store, the validator account and the endpoint behind axios. Each
    answers as a function of what has happened so far, so that a mocked
    endpoint may accept one request and refuse the next. *)

Inductive Exn : Type :=
| TypeError (message : string)
| KeyStoreError (message : string)
| AxiosError (message : string) (response : option JsVal).

(** [e.message] and [e.response] (of which the scripts read [.data]). *)
Definition exn_message (e : Exn) : string :=
  match e with
  | TypeError m => m
  | KeyStoreError m => m
  | AxiosError m _ => m
  end.

Definition exn_response (e : Exn) : option JsVal :=
  match e with
  | AxiosError _ r => r
  | _ => None
  end.

(** One argument of a console call. [LJson v] is [JSON.stringify(v)] and
    [LPretty v] is [JSON.stringify(v, null, 2)] spliced into the text. *)
Inductive LogArg : Type :=
| LText (s : string)
| LValue (v : JsVal)
| LJson (v : JsVal)
| LPretty (v : JsVal)
| LExn (e : Exn).

(** What the endpoint does with a POST: a 2xx answer with its parsed body,
    another status with its parsed body, or no answer at all. *)
Inductive Response : Type :=
| Status2xx (data : JsVal)
| StatusOther (status : Z) (data : JsVal)
| NoResponse (message : string).

(** What a run does to the outside, in the order it does it; a request is
    recorded with the answer it got. *)
Inductive Event : Type :=
| EConsoleLog (args : list LogArg)
| EConsoleError (args : list LogArg)
| ELogin (privateKey : string)
| EConnect (networkVersion l0Url : option string) (testnet : bool)
| EClock (reading : string)
| EDataSign (privateKey payload : string) (result : Exn + string)
| EPost (url : string) (body : JsVal) (answer : Response)
| ESleep (ms : Z).

Definition Trace := list Event.

Record Account : Type := { address : string; publicKey : string }.

Record World : Type := {
  Date_toISOString : Trace -> string;
  keyStore_dataSign : Trace -> string -> string -> Exn + string;
  createAccount : string -> Account;
  endpoint : Trace -> string -> JsVal -> Response
}.

Inductive Outcome (A : Type) : Type :=
| Normal (a : A)
| Throw (e : Exn)
| Exit (code : Z).

Arguments Normal {A} a.
Arguments Throw {A} e.
Arguments Exit {A} code.

Definition M (A : Type) : Type := World -> Trace -> Outcome A * Trace.

Definition ret {A} (a : A) : M A := fun _ t => (Normal a, t).

Definition bind {A B} (m : M A) (k : A -> M B) : M B :=
  fun w t =>
    match m w t with
    | (Normal a, t') => k a w t'
    | (Throw e, t') => (Throw e, t')
    | (Exit c, t') => (Exit c, t')
    end.

Definition throw {A} (e : Exn) : M A := fun _ t => (Throw e, t).

(** [process.exit(code)]: nothing of the script runs afterwards, no
    [catch] block either. *)
Definition process_exit {A} (code : Z) : M A := fun _ t => (Exit code, t).

(** [try { body } catch (e) { handler }] *)
Definition try_catch {A} (body : M A) (handler : Exn -> M A) : M A :=
  fun w t =>
    match body w t with
    | (Throw e, t') => handler e w t'
    | r => r
    end.

Definition emit (e : Event) : M unit := fun _ t => (Normal tt, (t ++ [e])%list).

Declare Scope js_scope.
Delimit Scope js_scope with js.

Notation "x <- m ;; k" := (bind m (fun x => k))
  (at level 61, m at next level, right associativity) : js_scope.
Notation "m ;; k" := (bind m (fun _ => k))
  (at level 61, right associativity) : js_scope.

Open Scope js_scope.

Definition console_log (args : list LogArg) : M unit := emit (EConsoleLog args).
Definition console_error (args : list LogArg) : M unit := emit (EConsoleError args).

(** [v.k]: reading a property of [undefined] or [null] throws; a missing
    property reads as [undefined]. *)
Definition get_prop (v : JsVal) (k : string) : M JsVal :=
  match v with
  | VUndefined => throw (TypeError "Cannot read properties of undefined")
  | VNull => throw (TypeError "Cannot read properties of null")
  | VObj o => ret (match lookup k o with Some x => x | None => VUndefined end)
  | _ => ret VUndefined
  end.

(** The elements of an array or the characters of a string as
    properties under their indices, from index [i] on. *)
Fixpoint indexed {A : Type} (f : A -> JsVal) (i : nat) (l : list A) : Props :=
  match l with
  | [] => []
  | x :: l' => (Number_toString (Z.of_nat i), f x) :: indexed f (S i) l'
  end.

(** [{ ...v }]: a new object with the own properties of [v]: those of an
    object, the elements of an array and the characters of a string under
    their indices, none for any other value. *)
Definition spread (v : JsVal) : Props :=
  match v with
  | VObj o => o
  | VArr l => indexed (fun x => x) 0 l
  | VStr s => indexed (fun c => VStr (String c EmptyString)) 0 (list_ascii_of_string s)
  | _ => []
  end.

(** [new Date().toISOString()] *)
Definition Date_now : M string :=
  fun w t =>
    let reading := Date_toISOString w t in
    (Normal reading, (t ++ [EClock reading])%list).

(** [await dag4.keyStore.dataSign(privateKey, payload)] *)
Definition dataSign (privateKey payload : string) : M string :=
  fun w t =>
    let result := keyStore_dataSign w t privateKey payload in
    (match result with
     | inr signature => Normal signature
     | inl e => Throw e
     end, (t ++ [EDataSign privateKey payload result])%list).

(** [Buffer.from(JSON.stringify(message)).toString('base64')];
    [Buffer.from(undefined)] throws. *)
Definition Buffer_base64_of_JSON (message : JsVal) : M string :=
  match JSON_stringify message with
  | Some text => ret (base64 (utf8 text))
  | None => throw (TypeError "The first argument must be of type string")
  end.

(** [await axios.post(url, body)]: resolves with the response on 2xx (of
    which the scripts read [.data]), rejects otherwise. *)
Definition axios_post (url : string) (body : JsVal) : M JsVal :=
  fun w t =>
    let answer := endpoint w t url body in
    (match answer with
     | Status2xx data => Normal data
     | StatusOther status data =>
         Throw (AxiosError ("Request failed with status code " ++ Number_toString status)
                  (Some data))
     | NoResponse message => Throw (AxiosError message None)
     end, (t ++ [EPost url body answer])%list).

(** [await new Promise(resolve => setTimeout(resolve, ms))] *)
Definition sleep (ms : Z) : M unit := emit (ESleep ms).

(** The value a proof generator returns, [{ id, signature }]. *)
Record ProofObj : Type := { id : string; signature : string }.

Definition ProofObj_value (p : ProofObj) : JsVal :=
  VObj [("id", VStr (id p)); ("signature", VStr (signature p))].

(** [message[tag][field] = v] on a message passed by reference: the
    result is the state of that same object after the assignment. Reading
    [message[tag]] off [undefined] or [null] throws, and so does writing a
    property of [undefined] or [null]; writing a property of a number, a
    string or a boolean is silently dropped (the scripts are not in strict
    mode). Arrays carry no named properties in this model. *)
Definition assign_member (message : JsVal) (tag field : string) (v : JsVal) : M JsVal :=
  inner <- get_prop message tag ;;
  match inner with
  | VUndefined => throw (TypeError "Cannot set properties of undefined")
  | VNull => throw (TypeError "Cannot set properties of null")
  | VObj o =>
      ret (match message with
           | VObj m => VObj (set_prop tag (VObj (set_prop field v o)) m)
           | _ => message
           end)
  | _ => ret message
  end.

(** ** send_data_transaction.js, first script *)

Module Basic.

Definition buildMessage (creator sessionId endSnapshotOrdinal : JsVal) : JsVal :=
  VObj [("CreateSession",
         VObj [("creator", creator);
               ("id", sessionId);
               ("endSnapshotOrdinal", endSnapshotOrdinal)])].

Definition generateProof (message : JsVal) (walletPrivateKey : string)
    (account : Account) : M ProofObj :=
  encodedMessage <- Buffer_base64_of_JSON message ;;
  signature <- dataSign walletPrivateKey encodedMessage ;;
  let publicKey := publicKey account in
  let uncompressedPublicKey :=
    if Nat.eqb (String.length publicKey) 128 then "04" ++ publicKey else publicKey in
  ret {| id := substring_from 2 uncompressedPublicKey; signature := signature |}.

End Basic.

(** ** send_data_transaction.js, second script (Ethereum) *)

Module Ethereum.

Definition buildCreateSessionMessage
    (accessProvider accessId accessObj endSnapshotOrdinal : JsVal) : JsVal :=
  VObj [("CreateSession",
         VObj [("accessProvider", accessProvider);
               ("accessId", accessId);
               ("accessObj", accessObj);
               ("endSnapshotOrdinal", endSnapshotOrdinal);
               ("hash", VStr EmptyString)])].

Definition serializeForEthereumSignature (message : JsVal) : M (list byte) :=
  inner <- get_prop message "CreateSession" ;;
  accessId <- get_prop inner "accessId" ;;
  accessProvider <- get_prop inner "accessProvider" ;;
  accessObj <- get_prop inner "accessObj" ;;
  endSnapshotOrdinal <- get_prop inner "endSnapshotOrdinal" ;;
  let dataToSign :=
    ToString accessId ++ ToString accessProvider ++ ToString accessObj
      ++ ToString endSnapshotOrdinal in
  ret (utf8 dataToSign).

Definition assignEthereumSignature (message signature : JsVal) : M JsVal :=
  assign_member message "CreateSession" "hash" signature.

Definition generateDag4Proof (message : JsVal) (walletPrivateKey : string)
    (account : Account) : M ProofObj :=
  serializedMessage <- Buffer_base64_of_JSON message ;;
  signature <- dataSign walletPrivateKey serializedMessage ;;
  let publicKey := publicKey account in
  let uncompressedPublicKey :=
    if Nat.eqb (String.length publicKey) 128 then "04" ++ publicKey else publicKey in
  ret {| id := substring_from 2 uncompressedPublicKey; signature := signature |}.

Definition sendTransaction (message : JsVal) (proof : ProofObj)
    (metagraphL1DataUrl : string) : M unit :=
  let body := VObj [("value", VObj (spread message));
                    ("proofs", VArr [ProofObj_value proof])] in
  try_catch
    (console_log [LText "Transaction body: "; LPretty body] ;;
     data <- axios_post (metagraphL1DataUrl ++ "/data") body ;;
     console_log [LText "Response: "; LJson data])
    (fun e =>
       match exn_response e with
       | Some data => console_log [LText "Error Response:"; LPretty data]
       | None => console_log [LText "Error sending transaction"; LText (exn_message e)]
       end).

End Ethereum.

(** ** send_data_transaction_solana.js, first script (Solana) *)

Module Solana.

Definition buildCreateSolSessionMessage
    (accessProvider solanaAddress accessObj endSnapshotOrdinal : JsVal) : JsVal :=
  VObj [("CreateSolSession",
         VObj [("accessProvider", accessProvider);
               ("solanaAddress", solanaAddress);
               ("accessObj", accessObj);
               ("endSnapshotOrdinal", endSnapshotOrdinal);
               ("solanaSignature", VStr EmptyString)])].

Definition serializeForSolanaSignature (message : JsVal) : M (list byte) :=
  inner <- get_prop message "CreateSolSession" ;;
  solanaAddress <- get_prop inner "solanaAddress" ;;
  accessProvider <- get_prop inner "accessProvider" ;;
  accessObj <- get_prop inner "accessObj" ;;
  endSnapshotOrdinal <- get_prop inner "endSnapshotOrdinal" ;;
  let dataToSign :=
    ToString solanaAddress ++ ToString accessProvider ++ ToString accessObj
      ++ ToString endSnapshotOrdinal in
  ret (utf8 dataToSign).

Definition assignSolanaSignature (message signature : JsVal) : M JsVal :=
  assign_member message "CreateSolSession" "solanaSignature" signature.

Definition generateDag4Proof (message : JsVal) (walletPrivateKey : string)
    (account : Account) : M ProofObj :=
  serializedMessage <- Buffer_base64_of_JSON message ;;
  signature <- dataSign walletPrivateKey serializedMessage ;;
  let publicKey := publicKey account in
  let uncompressedPublicKey :=
    if Nat.eqb (String.length publicKey) 128 then "04" ++ publicKey else publicKey in
  ret {| id := substring_from 2 uncompressedPublicKey; signature := signature |}.

Definition sendTransaction (message : JsVal) (proof : ProofObj)
    (metagraphL1DataUrl : string) : M unit :=
  let body := VObj [("value", VObj (spread message));
                    ("proofs", VArr [ProofObj_value proof])] in
  try_catch
    (console_log [LText "Transaction body: "; LPretty body] ;;
     data <- axios_post (metagraphL1DataUrl ++ "/data") body ;;
     console_log [LText "Response: "; LJson data])
    (fun e =>
       match exn_response e with
       | Some data => console_log [LText "Error Response:"; LPretty data]
       | None => console_log [LText "Error sending transaction"; LText (exn_message e)]
       end).

End Solana.

(** ** send_data_transaction_solana.js, second script (session lifecycle) *)

(** [process.env]: a variable that is not set reads as [undefined]. *)
Record Env : Type := {
  WALLET_PRIVATE_KEY : option string;
  METAGRAPH_L1_DATA_URL : option string;
  NETWORK_VERSION : option string;
  GLOBAL_L0_URL : option string;
  TESTNET : option string
}.

(** [!x] for an environment variable: unset or empty. *)
Definition env_falsy (x : option string) : bool :=
  match x with
  | None => true
  | Some s => String.eqb s EmptyString
  end.

Definition env_value (x : option string) : string :=
  match x with
  | Some s => s
  | None => "undefined"
  end.

(** [dag4.createAccount()], [account.loginPrivateKey(key)] and
    [account.connect({ networkVersion, l0Url, testnet })]. *)
Definition login_and_connect (env : Env) (key : string) : M Account :=
  fun w t =>
    (Normal (createAccount w key),
     (t ++ [ELogin key;
            EConnect (NETWORK_VERSION env) (GLOBAL_L0_URL env)
              (match TESTNET env with
               | Some s => String.eqb s "true"
               | None => false
               end)])%list).

Module Lifecycle.

Definition buildNotarizeSessionMessage
    (accessProvider accessId accessObj endSnapshotOrdinal : JsVal) : M JsVal :=
  startTime <- Date_now ;;
  ret (VObj [("NotarizeSession",
              VObj [("accessProvider", accessProvider);
                    ("accessId", accessId);
                    ("accessObj", accessObj);
                    ("endSnapshotOrdinal", endSnapshotOrdinal);
                    ("metadata",
                     VObj [("startTime", VStr startTime);
                           ("data",
                            VObj [("userId", VObj [("StringValue", VObj [("value", VStr "user123")])]);
                                  ("loginCount", VObj [("NumberValue", VObj [("value", VNum 42)])]);
                                  ("isActive", VObj [("BooleanValue", VObj [("value", VBool true)])])])])])]).

Definition buildExtendSessionMessage
    (sessionId accessProvider newEndSnapshotOrdinal : JsVal) : JsVal :=
  VObj [("ExtendSession",
         VObj [("id", sessionId);
               ("accessProvider", accessProvider);
               ("endSnapshotOrdinal", newEndSnapshotOrdinal)])].

Definition buildCloseSessionMessage (sessionId accessProvider : JsVal) : JsVal :=
  VObj [("CloseSession",
         VObj [("id", sessionId);
               ("accessProvider", accessProvider)])].

Definition generateDag4Proof (message : JsVal) (walletPrivateKey : string)
    (account : Account) : M ProofObj :=
  serializedMessage <- Buffer_base64_of_JSON message ;;
  signature <- dataSign walletPrivateKey serializedMessage ;;
  let publicKey := publicKey account in
  let uncompressedPublicKey :=
    if Nat.eqb (String.length publicKey) 128 then "04" ++ publicKey else publicKey in
  ret {| id := substring_from 2 uncompressedPublicKey; signature := signature |}.

Definition sendTransaction (message : JsVal) (proof : ProofObj)
    (metagraphL1DataUrl : string) : M JsVal :=
  let body := VObj [("value", VObj (spread message));
                    ("proofs", VArr [ProofObj_value proof])] in
  try_catch
    (console_log [LText "Transaction body: "; LPretty body] ;;
     data <- axios_post (metagraphL1DataUrl ++ "/data") body ;;
     console_log [LText "Response: "; LJson data] ;;
     ret data)
    (fun e =>
       match exn_response e with
       | Some data => console_error [LText "Error Response:"; LPretty data]
       | None => console_error [LText "Error sending transaction"; LText (exn_message e)]
       end ;;
       throw e).

Definition createSession (account : Account) (walletPrivateKey metagraphL1DataUrl : string)
    : M JsVal :=
  let accessProvider := VStr (address account) in
  let accessId := VStr (address account) in
  let accessObj := VStr "Owner11" in
  let endSnapshotOrdinal := VNum 12000 in
  message <- buildNotarizeSessionMessage accessProvider accessId accessObj endSnapshotOrdinal ;;
  console_log [LText "Creating session with message: "; LPretty message] ;;
  proof <- generateDag4Proof message walletPrivateKey account ;;
  sendTransaction message proof metagraphL1DataUrl.

Definition extendSession (sessionId : JsVal) (account : Account)
    (walletPrivateKey metagraphL1DataUrl : string) : M JsVal :=
  let newEndSnapshotOrdinal := VNum 24000 in
  let message :=
    buildExtendSessionMessage sessionId (VStr (address account)) newEndSnapshotOrdinal in
  console_log [LText "Extending session with message: "; LPretty message] ;;
  proof <- generateDag4Proof message walletPrivateKey account ;;
  sendTransaction message proof metagraphL1DataUrl.

Definition closeSession (sessionId : JsVal) (account : Account)
    (walletPrivateKey metagraphL1DataUrl : string) : M JsVal :=
  let message := buildCloseSessionMessage sessionId (VStr (address account)) in
  console_log [LText "Closing session with message: "; LPretty message] ;;
  proof <- generateDag4Proof message walletPrivateKey account ;;
  sendTransaction message proof metagraphL1DataUrl.

(** The body of [main]'s [try] block. *)
Definition session_operations (account : Account)
    (dag4PrivateKey metagraphL1DataUrl : string) : M unit :=
  console_log [LText "Step 1: Creating initial session..."] ;;
  createResult <- createSession account dag4PrivateKey metagraphL1DataUrl ;;
  console_log [LText "Create session result:"; LValue createResult] ;;
  sessionId <- get_prop createResult "hash" ;;
  console_log [LText "Session hash/id:"; LValue sessionId] ;;
  console_log [LText "Waiting 20 seconds before extending..."] ;;
  sleep 20000 ;;
  console_log [LText "Step 2: Extending the session..."] ;;
  extendResult <- extendSession sessionId account dag4PrivateKey metagraphL1DataUrl ;;
  console_log [LText "Extend session result:"; LValue extendResult] ;;
  console_log [LText "Waiting 20 seconds before closing..."] ;;
  sleep 60000 ;;
  console_log [LText "Step 3: Closing the session..."] ;;
  closeResult <- closeSession sessionId account dag4PrivateKey metagraphL1DataUrl ;;
  console_log [LText "Close session result:"; LValue closeResult].

Definition main (env : Env) : M unit :=
  let dag4PrivateKey := WALLET_PRIVATE_KEY env in
  let metagraphL1DataUrl := METAGRAPH_L1_DATA_URL env in
  (if env_falsy dag4PrivateKey || env_falsy metagraphL1DataUrl
   then console_error [LText "Missing required environment variables"] ;;
        process_exit 1
   else ret tt) ;;
  account <- login_and_connect env (env_value dag4PrivateKey) ;;
  try_catch
    (session_operations account (env_value dag4PrivateKey) (env_value metagraphL1DataUrl))
    (fun error =>
       console_error [LText "Error in session operations:"; LExn error] ;;
       process_exit 1).

(** [main().catch(console.error)] *)
Definition script (env : Env) : M unit :=
  try_catch (main env) (fun e => console_error [LExn e]).

End Lifecycle.

(** ** The rest of the scripts

    What the scripts have besides the functions above: the helpers and
    the flow of the first script, and the main flows of the Ethereum and
    the Solana script. The external-chain wallet a flow generates and the
    libraries that sign with it are given to the flow from outside. *)

(** [buf.toString('hex')], and [ethers.utils.hexlify(bytes)]. *)
Definition hex_of_byte (b : byte) : string :=
  let n := Byte.to_N b in
  String (hex_digit (N.shiftr n 4)) (String (hex_digit (N.land n 15)) EmptyString).

Fixpoint hex_of_bytes (bs : list byte) : string :=
  match bs with
  | [] => EmptyString
  | b :: rest => hex_of_byte b ++ hex_of_bytes rest
  end.

Definition hexlify (bs : list byte) : string := "0x" ++ hex_of_bytes bs.

(** [process.env.X] as a value: [undefined] when the variable is not set. *)
Definition env_js (x : option string) : JsVal :=
  match x with
  | Some s => VStr s
  | None => VUndefined
  end.

(** [process.env.TESTNET === 'true'] *)
Definition testnet_flag (env : Env) : bool :=
  match TESTNET env with
  | Some s => String.eqb s "true"
  | None => false
  end.

Module BasicScript.

(** The variables only the first script reads. *)
Record SessionEnv : Type := {
  CREATOR : option string;
  SESSION_ID : option string;
  END_SNAPSHOT_ORDINAL : option string
}.

Section Flow.

(** [parseInt(x, 10)] on an environment variable, set or not. *)
Variable parseInt : option string -> JsVal.

Definition buildCreateSessionMessage (senv : SessionEnv) : JsVal :=
  Basic.buildMessage (env_js (CREATOR senv)) (env_js (SESSION_ID senv))
    (parseInt (END_SNAPSHOT_ORDINAL senv)).



(** The message of the TypeError that [account.loginPrivateKey] throws
    when its argument is [undefined]. *)
Variable no_key_message : string.

(** [dag4.createAccount()], [account.loginPrivateKey(walletPrivateKey)]
    and [account.connect({ networkVersion, l0Url, testnet })]. The script
    does not test the key: with WALLET_PRIVATE_KEY not set it logs in with
    [undefined], which throws; a key that is set is taken to log in, as
    in the other scripts. *)
Definition loginPrivateKey_and_connect (env : Env) (walletPrivateKey : option string)
    (globalL0Url : option string) : M Account :=
  match walletPrivateKey with
  | Some key =>
      fun w t =>
        (Normal (createAccount w key),
         (t ++ [ELogin key;
                EConnect (NETWORK_VERSION env) globalL0Url (testnet_flag env)])%list)
  | None => throw (TypeError no_key_message)
  end.

(** Past the login the key is set, and [env_value] is that key. *)
Definition sendDataTransactionsUsingUrls (env : Env) (senv : SessionEnv)
    (globalL0Url metagraphL1DataUrl : option string) : M unit :=
  let walletPrivateKey := WALLET_PRIVATE_KEY env in
  account <- loginPrivateKey_and_connect env walletPrivateKey globalL0Url ;;
  let message := buildCreateSessionMessage senv in
  proof <- Basic.generateProof message (env_value walletPrivateKey) account ;;
  let body := VObj [("value", VObj (spread message));
                    ("proofs", VArr [ProofObj_value proof])] in
  try_catch
    (console_log [LText "Transaction body: "; LJson body] ;;
     data <- axios_post (env_value metagraphL1DataUrl ++ "/data") body ;;
     console_log [LText "Response: "; LJson data])
    (fun e => console_log [LText "Error sending transaction"; LText (exn_message e)]).

Definition sendDataTransaction (env : Env) (senv : SessionEnv) : M unit :=
  let globalL0Url := GLOBAL_L0_URL env in
  let metagraphL1DataUrl := METAGRAPH_L1_DATA_URL env in
  sendDataTransactionsUsingUrls env senv globalL0Url metagraphL1DataUrl.

End Flow.

End BasicScript.

Module EthereumScript.

(** What [ethers.Wallet.createRandom()] gives: an address, a private key
    and [wallet.signMessage], which signs or rejects. *)
Record Wallet : Type := {
  wallet_address : string;
  wallet_privateKey : string;
  wallet_signMessage : list byte -> Exn + string
}.

Definition getEthereumWallet (created : Wallet) : M Wallet :=
  let wallet := created in
  console_log [LText ("Generated Ethereum Wallet Address: " ++ wallet_address wallet)] ;;
  console_log [LText ("Ethereum Wallet Private Key: " ++ wallet_privateKey wallet)] ;;
  ret wallet.

Definition signWithEthereum (wallet : Wallet) (data : list byte) : M string :=
  match wallet_signMessage wallet data with
  | inr signature => ret signature
  | inl e => throw e
  end.

Definition main (created : Wallet) (env : Env) : M unit :=
  ethWallet <- getEthereumWallet created ;;
  let dag4PrivateKey := WALLET_PRIVATE_KEY env in
  (if env_falsy dag4PrivateKey
   then console_error [LText "WALLET_PRIVATE_KEY is not set in the environment variables."] ;;
        process_exit 1
   else ret tt) ;;
  account <- login_and_connect env (env_value dag4PrivateKey) ;;
  let accessProvider := VStr (address account) in
  let accessId := VStr (wallet_address ethWallet) in
  let accessObj := VStr "Owner1" in
  let endSnapshotOrdinal := VNum 750 in
  let createSessionMessage :=
    Ethereum.buildCreateSessionMessage accessProvider accessId accessObj endSnapshotOrdinal in
  console_log [LText "Initial CreateSession Message: "; LPretty createSessionMessage] ;;
  dataToSign <- Ethereum.serializeForEthereumSignature createSessionMessage ;;
  console_log [LText ("Data to Sign with Ethereum Wallet (hex): " ++ hexlify dataToSign)] ;;
  ethSignature <- signWithEthereum ethWallet dataToSign ;;
  console_log [LText ("Ethereum Signature: " ++ ethSignature)] ;;
  createSessionMessage <-
    Ethereum.assignEthereumSignature createSessionMessage (VStr ethSignature) ;;
  console_log [LText "CreateSession Message with Ethereum Signature: ";
               LPretty createSessionMessage] ;;
  dag4Proof <-
    Ethereum.generateDag4Proof createSessionMessage (env_value dag4PrivateKey) account ;;
  console_log [LText "DAG4 Proof: "; LPretty (ProofObj_value dag4Proof)] ;;
  let metagraphL1DataUrl := METAGRAPH_L1_DATA_URL env in
  (if env_falsy metagraphL1DataUrl
   then console_error [LText "METAGRAPH_L1_DATA_URL is not set in the environment variables."] ;;
        process_exit 1
   else ret tt) ;;
  Ethereum.sendTransaction createSessionMessage dag4Proof (env_value metagraphL1DataUrl).

End EthereumScript.

Module SolanaScript.

(** What [Keypair.generate()] gives: the address [publicKey.toBase58()]
    and the secret key. *)
Record Wallet : Type := {
  wallet_address : string;
  wallet_secretKey : list byte
}.

(** [bs58.encode] and [nacl.sign.detached], which signs or throws. *)
Record Libraries : Type := {
  bs58_encode : list byte -> string;
  nacl_sign_detached : list byte -> list byte -> Exn + list byte
}.

Section Flow.

Variable lib : Libraries.

Definition getSolanaWallet (generated : Wallet) : M Wallet :=
  let wallet := generated in
  console_log [LText ("Generated Solana Wallet Address: " ++ wallet_address wallet)] ;;
  console_log [LText ("Solana Wallet Private Key: "
                        ++ bs58_encode lib (wallet_secretKey wallet))] ;;
  ret wallet.

Definition signWithSolana (wallet : Wallet) (data : list byte) : M string :=
  match nacl_sign_detached lib data (wallet_secretKey wallet) with
  | inr signature => ret (bs58_encode lib signature)
  | inl e => throw e
  end.

Definition main (generated : Wallet) (env : Env) : M unit :=
  try_catch
    (solWallet <- getSolanaWallet generated ;;
     let dag4PrivateKey := WALLET_PRIVATE_KEY env in
     (if env_falsy dag4PrivateKey
      then console_error [LText "WALLET_PRIVATE_KEY is not set in the environment variables."] ;;
           process_exit 1
      else ret tt) ;;
     account <- login_and_connect env (env_value dag4PrivateKey) ;;
     let accessProvider := VStr (address account) in
     let solanaAddress := VStr "QWERTYUIOPASDFGHJKLZXCVBNMQWERTY" in
     let accessObj := VStr "Owner1" in
     let endSnapshotOrdinal := VNum 750 in
     let createSolSessionMessage :=
       Solana.buildCreateSolSessionMessage accessProvider solanaAddress accessObj
         endSnapshotOrdinal in
     console_log [LText "Initial CreateSolSession Message: ";
                  LPretty createSolSessionMessage] ;;
     dataToSign <- Solana.serializeForSolanaSignature createSolSessionMessage ;;
     console_log [LText ("Data to Sign with Solana Wallet (base58): "
                           ++ bs58_encode lib dataToSign)] ;;
     solSignature <- signWithSolana solWallet dataToSign ;;
     console_log [LText ("Solana Signature: " ++ solSignature)] ;;
     createSolSessionMessage <-
       Solana.assignSolanaSignature createSolSessionMessage (VStr solSignature) ;;
     console_log [LText "CreateSolSession Message with Solana Signature: ";
                  LPretty createSolSessionMessage] ;;
     dag4Proof <-
       Solana.generateDag4Proof createSolSessionMessage (env_value dag4PrivateKey) account ;;
     console_log [LText "DAG4 Proof: "; LPretty (ProofObj_value dag4Proof)] ;;
     let metagraphL1DataUrl := METAGRAPH_L1_DATA_URL env in
     (if env_falsy metagraphL1DataUrl
      then console_error [LText "METAGRAPH_L1_DATA_URL is not set in the environment variables."] ;;
           process_exit 1
      else ret tt) ;;
     Solana.sendTransaction createSolSessionMessage dag4Proof (env_value metagraphL1DataUrl))
    (fun error =>
       console_error [LText "Error in main execution:"; LExn error] ;;
       process_exit 1).

End Flow.

End SolanaScript.

(** ** Reading JSON text back

    What the receiving side does with a submitted body: [JSON.parse] on
    the compact text, as [JSON.stringify] and axios write it (no white
    space between tokens, integral numbers). A number with a leading zero
    is refused and a repeated key overwrites the earlier value, as in
    JavaScript. *)

Definition is_digit (c : ascii) : bool :=
  let n := N_of_ascii c in ((48 <=? n) && (n <=? 57))%N.

Fixpoint scan_digits (s : string) : string * string :=
  match s with
  | EmptyString => (EmptyString, EmptyString)
  | String c s' =>
      if is_digit c
      then let (ds, rest) := scan_digits s' in (String c ds, rest)
      else (EmptyString, s)
  end.

Definition parse_number (s : string) : option (Z * string) :=
  let (sign, s1) :=
    match s with
    | String c s' => if Ascii.eqb c "-" then ("-", s') else (EmptyString, s)
    | EmptyString => (EmptyString, s)
    end in
  let (ds, rest) := scan_digits s1 in
  match ds with
  | EmptyString => None
  | String c ds' =>
      if Ascii.eqb c "0" && negb (String.eqb ds' EmptyString) then None
      else
        match NilZero.int_of_string (sign ++ ds) with
        | Some i => Some (Z.of_int i, rest)
        | None => None
        end
  end.

Definition hex_value (c : ascii) : option N :=
  let n := N_of_ascii c in
  if ((48 <=? n) && (n <=? 57))%N then Some (n - 48)%N
  else if ((97 <=? n) && (n <=? 102))%N then Some (n - 87)%N
  else if ((65 <=? n) && (n <=? 70))%N then Some (n - 55)%N
  else None.

(** The code point of [\uXXXX], when it is one the model has. *)
Definition unicode_escape (a b c d : ascii) : option ascii :=
  match hex_value a, hex_value b, hex_value c, hex_value d with
  | Some x3, Some x2, Some x1, Some x0 =>
      let n := (x3 * 4096 + x2 * 256 + x1 * 16 + x0)%N in
      if (n <? 256)%N then Some (ascii_of_N n) else None
  | _, _, _, _ => None
  end.

Definition short_escape (c : ascii) : option ascii :=
  let n := N_of_ascii c in
  if (n =? 34)%N then Some c
  else if (n =? 92)%N then Some c
  else if (n =? 47)%N then Some c
  else if (n =? 98)%N then Some (ascii_of_N 8)
  else if (n =? 102)%N then Some (ascii_of_N 12)
  else if (n =? 110)%N then Some (ascii_of_N 10)
  else if (n =? 114)%N then Some (ascii_of_N 13)
  else if (n =? 116)%N then Some (ascii_of_N 9)
  else None.

(** The characters of a string literal after its opening quote, up to and
    including the closing one. *)
Fixpoint parse_string_body (s : string) : option (string * string) :=
  match s with
  | EmptyString => None
  | String c s' =>
      if Ascii.eqb c dquote then Some (EmptyString, s')
      else if Ascii.eqb c backslash then
        match s' with
        | String e s'' =>
            if Ascii.eqb e "u" then
              match s'' with
              | String a (String b (String x (String y s3))) =>
                  match unicode_escape a b x y, parse_string_body s3 with
                  | Some ch, Some (r, rest) => Some (String ch r, rest)
                  | _, _ => None
                  end
              | _ => None
              end
            else
              match short_escape e, parse_string_body s'' with
              | Some ch, Some (r, rest) => Some (String ch r, rest)
              | _, _ => None
              end
        | EmptyString => None
        end
      else if (N_of_ascii c <? 32)%N then None
      else
        match parse_string_body s' with
        | Some (r, rest) => Some (String c r, rest)
        | None => None
        end
  end.

Fixpoint strip_prefix (p s : string) : option string :=
  match p, s with
  | EmptyString, _ => Some s
  | String a p', String b s' => if Ascii.eqb a b then strip_prefix p' s' else None
  | String _ _, EmptyString => None
  end.

Definition object_of_members (members : list (string * JsVal)) : Props :=
  fold_left (fun o kv => set_prop (fst kv) (snd kv) o) members [].

Fixpoint parse_value (fuel : nat) (s : string) : option (JsVal * string) :=
  match fuel with
  | O => None
  | S fuel' =>
      match s with
      | EmptyString => None
      | String c rest =>
          if Ascii.eqb c "n" then
            option_map (fun r => (VNull, r)) (strip_prefix "ull" rest)
          else if Ascii.eqb c "t" then
            option_map (fun r => (VBool true, r)) (strip_prefix "rue" rest)
          else if Ascii.eqb c "f" then
            option_map (fun r => (VBool false, r)) (strip_prefix "alse" rest)
          else if Ascii.eqb c dquote then
            option_map (fun sr => (VStr (fst sr), snd sr)) (parse_string_body rest)
          else if Ascii.eqb c "[" then
            match rest with
            | String c' rest' =>
                if Ascii.eqb c' "]" then Some (VArr [], rest')
                else option_map (fun lr => (VArr (fst lr), snd lr)) (parse_elements fuel' rest)
            | EmptyString => None
            end
          else if Ascii.eqb c "{" then
            match rest with
            | String c' rest' =>
                if Ascii.eqb c' "}" then Some (VObj [], rest')
                else option_map (fun lr => (VObj (object_of_members (fst lr)), snd lr))
                       (parse_members fuel' rest)
            | EmptyString => None
            end
          else
            option_map (fun nr => (VNum (fst nr), snd nr)) (parse_number s)
      end
  end

with parse_elements (fuel : nat) (s : string) : option (list JsVal * string) :=
  match fuel with
  | O => None
  | S fuel' =>
      match parse_value fuel' s with
      | Some (v, String c rest) =>
          if Ascii.eqb c "]" then Some ([v], rest)
          else if Ascii.eqb c "," then
            option_map (fun lr => (v :: fst lr, snd lr)) (parse_elements fuel' rest)
          else None
      | _ => None
      end
  end

with parse_members (fuel : nat) (s : string) : option (list (string * JsVal) * string) :=
  match fuel with
  | O => None
  | S fuel' =>
      match s with
      | String q s1 =>
          if Ascii.eqb q dquote then
            match parse_string_body s1 with
            | Some (k, String colon s2) =>
                if Ascii.eqb colon ":" then
                  match parse_value fuel' s2 with
                  | Some (v, String c rest) =>
                      if Ascii.eqb c "}" then Some ([(k, v)], rest)
                      else if Ascii.eqb c "," then
                        option_map (fun lr => ((k, v) :: fst lr, snd lr))
                          (parse_members fuel' rest)
                      else None
                  | _ => None
                  end
                else None
            | _ => None
            end
          else None
      | EmptyString => None
      end
  end.

(** [JSON.parse(text)]; [None] is the [SyntaxError] it throws. *)
Definition JSON_parse (text : string) : option JsVal :=
  match parse_value (S (String.length text)) text with
  | Some (v, EmptyString) => Some v
  | _ => None
  end.

(** A value that is all JSON: no [undefined] inside, keys of an object
    distinct. *)
Fixpoint distinct (l : list string) : bool :=
  match l with
  | [] => true
  | k :: l' => negb (existsb (String.eqb k) l') && distinct l'
  end.

Fixpoint is_json (v : JsVal) : bool :=
  match v with
  | VUndefined => false
  | VArr l => forallb is_json l
  | VObj o => distinct (map fst o) && forallb (fun kv => is_json (snd kv)) o
  | _ => true
  end.


(** ** Reading a trace *)

Definition is_post (e : Event) : bool :=
  match e with
  | EPost _ _ _ => true
  | _ => false
  end.

Definition is_clock (e : Event) : bool :=
  match e with
  | EClock _ => true
  | _ => false
  end.

(** The requests of a run, in order. *)
Definition posts (t : Trace) : list Event := filter is_post t.

Definition is_2xx (r : Response) : bool :=
  match r with
  | Status2xx _ => true
  | _ => false
  end.

(** What [console.log(label, v)] and
    [console.log(label + JSON.stringify(v, null, 2))] printed first under a
    label, and the answer to the first request. *)
Fixpoint logged_value (label : string) (t : Trace) : option JsVal :=
  match t with
  | [] => None
  | EConsoleLog [LText l; LValue v] :: t' =>
      if String.eqb l label then Some v else logged_value label t'
  | _ :: t' => logged_value label t'
  end.

Fixpoint logged_pretty (label : string) (t : Trace) : option JsVal :=
  match t with
  | [] => None
  | EConsoleLog [LText l; LPretty v] :: t' =>
      if String.eqb l label then Some v else logged_pretty label t'
  | _ :: t' => logged_pretty label t'
  end.

Definition first_answer (t : Trace) : option Response :=
  match posts t with
  | EPost _ _ a :: _ => Some a
  | _ => None
  end.

(** A request that was refused or got no answer, or a signing that was
    rejected. *)
Definition is_failure (e : Event) : bool :=
  match e with
  | EPost _ _ a => negb (is_2xx a)
  | EDataSign _ _ (inl _) => true
  | _ => false
  end.

Definition is_console_error (e : Event) : bool :=
  match e with
  | EConsoleError _ => true
  | _ => false
  end.

(** Nothing but error output follows the first failure of a run. *)
Fixpoint halts_on_failure (t : Trace) : bool :=
  match t with
  | [] => true
  | e :: t' => if is_failure e then forallb is_console_error t' else halts_on_failure t'
  end.

(** ** Vocabulary of the statements *)

(** [o.k], [undefined] when there is no such property. *)
Definition field (k : string) (o : Props) : JsVal :=
  match lookup k o with
  | Some x => x
  | None => VUndefined
  end.

(** [buf.toString('utf8')], on the bytes [utf8] produces. *)
Fixpoint utf8_decode (bs : list byte) : string :=
  match bs with
  | [] => EmptyString
  | b :: rest =>
      let n := Byte.to_N b in
      if (n <? 128)%N then String (ascii_of_byte b) (utf8_decode rest)
      else
        match rest with
        | b2 :: rest' =>
            String (ascii_of_N (N.lor (N.shiftl (N.land n 3) 6) (N.land (Byte.to_N b2) 63)))
              (utf8_decode rest')
        | [] => EmptyString
        end
  end.

(** The fields of a create command that the external wallet signs. *)
Record SignedSubset : Type := {
  externalAddress : string;
  accessProvider : string;
  accessObj : string;
  endSnapshotOrdinal : Z
}.

Definition ethereum_command (f : SignedSubset) : JsVal :=
  Ethereum.buildCreateSessionMessage (VStr (accessProvider f)) (VStr (externalAddress f))
    (VStr (accessObj f)) (VNum (endSnapshotOrdinal f)).

Definition solana_command (f : SignedSubset) : JsVal :=
  Solana.buildCreateSolSessionMessage (VStr (accessProvider f)) (VStr (externalAddress f))
    (VStr (accessObj f)) (VNum (endSnapshotOrdinal f)).

(** The text the wallet is to sign, as the specification words it:
    address, provider, object, ordinal in decimal, nothing in between. *)
Definition signed_text (f : SignedSubset) : string :=
  externalAddress f ++ accessProvider f ++ accessObj f
    ++ Number_toString (endSnapshotOrdinal f).

(** Two subsets that differ in one field and agree on the three others. *)
Definition differ_in_exactly_one (f g : SignedSubset) : Prop :=
  (externalAddress f <> externalAddress g /\ accessProvider f = accessProvider g
   /\ accessObj f = accessObj g /\ endSnapshotOrdinal f = endSnapshotOrdinal g)
  \/ (externalAddress f = externalAddress g /\ accessProvider f <> accessProvider g
      /\ accessObj f = accessObj g /\ endSnapshotOrdinal f = endSnapshotOrdinal g)
  \/ (externalAddress f = externalAddress g /\ accessProvider f = accessProvider g
      /\ accessObj f <> accessObj g /\ endSnapshotOrdinal f = endSnapshotOrdinal g)
  \/ (externalAddress f = externalAddress g /\ accessProvider f = accessProvider g
      /\ accessObj f = accessObj g /\ endSnapshotOrdinal f <> endSnapshotOrdinal g).

(** What it is for [assign] to put a signature into field [fld] of the
    variant [tag]: on a message that carries the variant, it returns at
    once, having touched nothing outside; the returned message has the
    signature in that field, every other field of the variant and every
    other property of the message as before, in the same order; and a
    second signature put in after a first leaves the message that putting
    in the second alone would. *)
Definition embeds (tag fld : string) (assign : JsVal -> JsVal -> M JsVal) : Prop :=
  forall (w : World) (t : Trace) (m o : Props) (sig sig2 : JsVal),
    lookup tag m = Some (VObj o) ->
    exists m' o',
      assign (VObj m) sig w t = (Normal (VObj m'), t)
      /\ lookup tag m' = Some (VObj o')
      /\ lookup fld o' = Some sig
      /\ (forall k, k <> fld -> lookup k o' = lookup k o)
      /\ (forall x, lookup fld o = Some x -> keys o' = keys o)
      /\ (forall k, k <> tag -> lookup k m' = lookup k m)
      /\ keys m' = keys m
      /\ (m1 <- assign (VObj m) sig ;; assign m1 sig2) w t = assign (VObj m) sig2 w t.

(** What the [catch] block of a submitter prints for a failed request. *)
Definition failure_detail (a : Response) : list LogArg :=
  match a with
  | StatusOther _ data => [LText "Error Response:"; LPretty data]
  | NoResponse message => [LText "Error sending transaction"; LText message]
  | Status2xx _ => []
  end.

(** The body of a submission, as the specification words it: the command
    as value and one proof. *)
Definition envelope (command : JsVal) (proof : ProofObj) : JsVal :=
  VObj [("value", command); ("proofs", VArr [ProofObj_value proof])].

(** The JSON text of a value that is all JSON, and how much fuel reading
    it back takes. *)
Fixpoint json_text (v : JsVal) : string :=
  match v with
  | VUndefined => "null"
  | VNull => "null"
  | VBool true => "true"
  | VBool false => "false"
  | VNum n => Number_toString n
  | VStr s => quote s
  | VArr l => "[" ++ join "," (map json_text l) ++ "]"
  | VObj o => "{" ++ join "," (map (fun kv => quote (fst kv) ++ ":" ++ json_text (snd kv)) o) ++ "}"
  end.

Fixpoint weight (v : JsVal) : nat :=
  match v with
  | VArr l => S (list_sum (map (fun x => S (weight x)) l))
  | VObj o => S (list_sum (map (fun kv => S (weight (snd kv))) o))
  | _ => 1
  end.

Definition member_text (kv : string * JsVal) : string :=
  quote (fst kv) ++ ":" ++ json_text (snd kv).

Definition starts_nondigit (s : string) : Prop :=
  match s with
  | EmptyString => True
  | String c _ => is_digit c = false
  end.

(** Reading back the text of [x], whatever follows it. *)
Definition parses (x : JsVal) : Prop :=
  forall fuel rest,
    weight x <= fuel -> starts_nondigit rest ->
    parse_value fuel (json_text x ++ rest) = Some (x, rest).

(** What every run of the lifecycle script satisfies: it halts on the
    first failure and then exits with status 1, posts at most three
    requests, and after a create request answered 2xx keeps the [hash] of
    the answer as session id, or exits when reading it throws. *)
Definition run_facts (w : World) (env : Env) (run : Outcome unit * Trace) : Prop :=
  halts_on_failure (snd run) = true
  /\ (if existsb is_failure (snd run)
      then match fst run with Exit 1 => True | _ => False end else True)
  /\ Nat.leb (List.length (posts (snd run))) 3 = true
  /\ match first_answer (snd run) with
     | Some (Status2xx data) =>
         match fst (get_prop data "hash" w []) with
         | Normal sid =>
             logged_value "Session hash/id:" (snd run) = Some sid
             /\ logged_pretty "Extending session with message: " (snd run)
                = Some (Lifecycle.buildExtendSessionMessage sid
                          (VStr (address (createAccount w (env_value (WALLET_PRIVATE_KEY env)))))
                          (VNum 24000))
         | _ => match fst run with Exit 1 => True | _ => False end
                /\ List.length (posts (snd run)) = 1
         end
     | _ => True
     end.

(** ** Sample inputs *)

Definition key128 : string :=
  "ab6ab9f1eb8f7d3388f4f9d586f66e99fd54080df2c446f0e58668b09c08a16dd0015f7e6bc5aeaf483724089e9252cc13b50951a6b69412522765cff4d78030".

Definition key64 : string :=
  "2f5052c9fd15b19a18c584d01363568198613f0c34e84409ef7938709a159ec2".

Definition key130 : string := "04" ++ key128.

Definition sample_account (pk : string) : Account :=
  {| address := "DAG4validatorAddress"; publicKey := pk |}.

(** A world with a clock that ticks at every reading, a key store that
    signs whatever it is given, and an endpoint that answers its n-th
    request as [answers] says. *)
Definition sample_world (pk : string) (answers : nat -> Response) : World :=
  {| Date_toISOString := fun t =>
       "2025-01-01T00:00:0" ++ Number_toString (Z.of_nat (List.length (filter is_clock t))) ++ ".000Z";
     keyStore_dataSign := fun _ _ payload => inr ("signed:" ++ payload);
     createAccount := fun _ => sample_account pk;
     endpoint := fun t _ _ => answers (List.length (posts t)) |}.

Definition always (r : Response) : nat -> Response := fun _ => r.

Definition sample_env : Env :=
  {| WALLET_PRIVATE_KEY := Some "validator-private-key";
     METAGRAPH_L1_DATA_URL := Some "http://localhost:9400";
     NETWORK_VERSION := Some "2.0";
     GLOBAL_L0_URL := Some "http://localhost:9000";
     TESTNET := Some "true" |}.

Definition sample_create_message : JsVal :=
  Ethereum.buildCreateSessionMessage (VStr "DAG_ADDR") (VStr "0xETH") (VStr "Owner1") (VNum 750).

Definition sample_sol_message : JsVal :=
  Solana.buildCreateSolSessionMessage (VStr "DAG_ADDR")
    (VStr "QWERTYUIOPASDFGHJKLZXCVBNMQWERTY") (VStr "Owner1") (VNum 750).

Definition subset_ab_c : SignedSubset :=
  {| externalAddress := "ab"; accessProvider := "c"; accessObj := "Owner1";
     endSnapshotOrdinal := 750 |}.

Definition subset_a_bc : SignedSubset :=
  {| externalAddress := "a"; accessProvider := "bc"; accessObj := "Owner1";
     endSnapshotOrdinal := 750 |}.

Definition subset_a_bc_751 : SignedSubset :=
  {| externalAddress := "a"; accessProvider := "bc"; accessObj := "Owner1";
     endSnapshotOrdinal := 751 |}.

Definition sample_proof : ProofObj :=
  {| id := key128; signature := "3045022100validator" |}.

Definition sample_signed_command : Props :=
  [("CreateSession",
    VObj [("accessProvider", VStr "DAG_ADDR");
          ("accessId", VStr "0xETH");
          ("accessObj", VStr "Owner1");
          ("endSnapshotOrdinal", VNum 750);
          ("hash", VStr "0x1b2c")])].

Definition session_not_found : Response :=
  StatusOther 404 (VObj [("error", VStr "session not found")]).

(** The endpoint of scenario B: the create request is answered with a
    hash, the extend request is refused. *)
Definition scenario_B (n : nat) : Response :=
  match n with
  | O => Status2xx (VObj [("hash", VStr "abc123")])
  | _ => session_not_found
  end.

Definition scenario_B_world : World := sample_world key130 scenario_B.

Definition scenario_B_trace : Trace := snd (Lifecycle.main sample_env scenario_B_world []).

(** An endpoint that accepts everything and answers without a hash. *)
Definition no_hash_world : World :=
  sample_world key130 (always (Status2xx (VObj [("status", VStr "accepted")]))).

(** ** Reading the encodings back *)

(** The value of a base64 digit. *)
Definition base64_value (c : ascii) : option N :=
  let n := N_of_ascii c in
  if ((65 <=? n) && (n <=? 90))%N then Some (n - 65)%N
  else if ((97 <=? n) && (n <=? 122))%N then Some (n - 71)%N
  else if ((48 <=? n) && (n <=? 57))%N then Some (n + 4)%N
  else if (n =? 43)%N then Some 62%N
  else if (n =? 47)%N then Some 63%N
  else None.

Definition bytes_of (ns : list N) : option (list byte) :=
  fold_right (fun n acc =>
                match Byte.of_N n, acc with
                | Some b, Some bs => Some (b :: bs)
                | _, _ => None
                end) (Some []) ns.

(** [Buffer.from(text, 'base64')] on padded text; [None] where the text
    is not of that form. *)
Fixpoint base64_decode (s : string) : option (list byte) :=
  match s with
  | EmptyString => Some []
  | String c1 (String c2 (String c3 (String c4 rest))) =>
      match base64_value c1, base64_value c2 with
      | Some d1, Some d2 =>
          let b1 := N.lor (N.shiftl d1 2) (N.shiftr d2 4) in
          if Ascii.eqb c3 "=" then
            if Ascii.eqb c4 "=" && String.eqb rest EmptyString then bytes_of [b1] else None
          else
            match base64_value c3 with
            | Some d3 =>
                let b2 := N.lor (N.shiftl (N.land d2 15) 4) (N.shiftr d3 2) in
                if Ascii.eqb c4 "=" then
                  if String.eqb rest EmptyString then bytes_of [b1; b2] else None
                else
                  match base64_value c4, base64_decode rest with
                  | Some d4, Some bs =>
                      let b3 := N.lor (N.shiftl (N.land d3 3) 6) d4 in
                      option_map (fun front => (front ++ bs)%list) (bytes_of [b1; b2; b3])
                  | _, _ => None
                  end
            | None => None
            end
      | _, _ => None
      end
  | _ => None
  end.


(** What a verifier does with the payload a proof generator had signed:
    base64 to bytes, bytes to text, text to a value. *)
Definition decode_payload (payload : string) : option JsVal :=
  match base64_decode payload with
  | Some bs => JSON_parse (utf8_decode bs)
  | None => None
  end.

(** The payloads of the signings of a run, in order. *)
Definition signed_payloads (t : Trace) : list string :=
  flat_map (fun e => match e with
                     | EDataSign _ payload _ => [payload]
                     | _ => []
                     end) t.

(** The arithmetic of one base64 group, on two neighbouring bytes. *)
Definition sextets_ok (x y : N) : bool :=
  let d1 := N.shiftr x 2 in
  let d2 := N.lor (N.shiftl (N.land x 3) 4) (N.shiftr y 4) in
  let d3 := N.lor (N.shiftl (N.land x 15) 2) (N.shiftr y 6) in
  let d4 := N.land y 63 in
  (d1 <? 64)%N && (d2 <? 64)%N && (d3 <? 64)%N && (d4 <? 64)%N
  && (N.lor (N.shiftl d1 2) (N.shiftr d2 4) =? x)%N
  && (N.land d2 15 =? N.shiftr y 4)%N
  && (N.shiftr d3 2 =? N.land x 15)%N
  && (N.lor (N.shiftl (N.land d3 3) 6) d4 =? y)%N
  && (N.lor (N.shiftl (N.shiftr x 4) 4) (N.land x 15) =? x)%N.

Definition digit_ok (d : N) : bool :=
  if (d <? 64)%N
  then match base64_value (base64_digit d) with
       | Some d' => (d' =? d)%N
       | None => false
       end && negb (Ascii.eqb (base64_digit d) "=")
  else true.


(** ** More vocabulary *)

(** The payload of a message, [Buffer.from(JSON.stringify(m)).toString('base64')]. *)
Definition payload_of (m : JsVal) : string :=
  match JSON_stringify m with
  | Some text => base64 (utf8 text)
  | None => EmptyString
  end.

(** [body.value] of a request body. *)
Definition body_value (body : JsVal) : JsVal := field "value" (spread body).

(** The id every proof of a run carries, from the public key of the
    account. *)
Definition proof_id_of (account : Account) : string :=
  substring_from 2
    (if Nat.eqb (String.length (publicKey account)) 128
     then "04" ++ publicKey account else publicKey account).

(** The last signature the key store has given: key, payload, signature. *)
Fixpoint last_signature (acc : option (string * string * string)) (t : Trace)
    : option (string * string * string) :=
  match t with
  | [] => acc
  | EDataSign k p (inr s) :: t' => last_signature (Some (k, p, s)) t'
  | _ :: t' => last_signature acc t'
  end.

(** Every request of the trace goes to [url] and is the envelope of a
    value with one proof: the id [pid] and the signature the key store
    gave last, which it gave under [key] for the payload of that value. *)
Fixpoint submitted_as_signed (key url pid : string)
    (last : option (string * string * string)) (t : Trace) : Prop :=
  match t with
  | [] => True
  | EDataSign k p (inr s) :: t' => submitted_as_signed key url pid (Some (k, p, s)) t'
  | EPost u body _ :: t' =>
      match last with
      | Some (k, p, s) =>
          u = url /\ k = key /\ p = payload_of (body_value body)
          /\ body = envelope (body_value body) {| id := pid; signature := s |}
      | None => False
      end
      /\ submitted_as_signed key url pid last t'
  | _ :: t' => submitted_as_signed key url pid last t'
  end.

Definition is_normal {A : Type} (o : Outcome A) : bool :=
  match o with
  | Normal _ => true
  | _ => false
  end.

Definition answered_2xx (e : Event) : bool :=
  match e with
  | EPost _ _ a => is_2xx a
  | _ => false
  end.

(** The waits of a run, in order. *)
Definition sleeps (t : Trace) : list Z :=
  flat_map (fun e => match e with
                     | ESleep ms => [ms]
                     | _ => []
                     end) t.

(** No request follows another without a wait in between. *)
Fixpoint waits_between (waited : bool) (t : Trace) : bool :=
  match t with
  | [] => true
  | ESleep _ :: t' => waits_between true t'
  | EPost _ _ _ :: t' => waited && waits_between false t'
  | _ :: t' => waits_between waited t'
  end.

Fixpoint starts (l1 l2 : list JsVal) : Prop :=
  match l1, l2 with
  | [], _ => True
  | x :: l1', y :: l2' => x = y /\ starts l1' l2'
  | _ :: _, [] => False
  end.

(** What every run of the lifecycle script satisfies besides. *)
Definition lifecycle_facts (w : World) (env : Env) (run : Outcome unit * Trace) : Prop :=
  let key := env_value (WALLET_PRIVATE_KEY env) in
  let account := createAccount w key in
  submitted_as_signed key (env_value (METAGRAPH_L1_DATA_URL env) ++ "/data")
    (proof_id_of account) None (snd run)
  /\ is_normal (fst run)
     = Nat.eqb (List.length (posts (snd run))) 3 && forallb answered_2xx (posts (snd run))
  /\ waits_between true (snd run) = true
  /\ (sleeps (snd run) = [] \/ sleeps (snd run) = [20000%Z]
      \/ sleeps (snd run) = [20000%Z; 60000%Z])
  /\ match first_answer (snd run) with
     | Some (Status2xx data) =>
         match fst (get_prop data "hash" w []) with
         | Normal sid =>
             starts (map (fun e => match e with
                                   | EPost _ body _ => body_value body
                                   | _ => VUndefined
                                   end) (skipn 1 (posts (snd run))))
               [Lifecycle.buildExtendSessionMessage sid (VStr (address account)) (VNum 24000);
                Lifecycle.buildCloseSessionMessage sid (VStr (address account))]
         | _ => True
         end
     | _ => True
     end
  /\ (if env_falsy (WALLET_PRIVATE_KEY env) || env_falsy (METAGRAPH_L1_DATA_URL env)
      then run = (Exit 1, [EConsoleError [LText "Missing required environment variables"]])
      else match snd run with
           | ELogin k :: EConnect _ _ _ :: _ => k = key
           | _ => False
           end).

(** The error of the first signing the key store rejected, if any. *)
Fixpoint rejection (t : Trace) : option Exn :=
  match t with
  | [] => None
  | EDataSign _ _ (inl e) :: _ => Some e
  | _ :: t' => rejection t'
  end.

(** The create command of the Ethereum script once the wallet has signed. *)
Definition ethereum_finalized (account : Account) (wallet : EthereumScript.Wallet)
    (sig : string) : JsVal :=
  VObj [("CreateSession",
         VObj [("accessProvider", VStr (address account));
               ("accessId", VStr (EthereumScript.wallet_address wallet));
               ("accessObj", VStr "Owner1");
               ("endSnapshotOrdinal", VNum 750);
               ("hash", VStr sig)])].

Definition solana_finalized (account : Account) (sig : string) : JsVal :=
  VObj [("CreateSolSession",
         VObj [("accessProvider", VStr (address account));
               ("solanaAddress", VStr "QWERTYUIOPASDFGHJKLZXCVBNMQWERTY");
               ("accessObj", VStr "Owner1");
               ("endSnapshotOrdinal", VNum 750);
               ("solanaSignature", VStr sig)])].

(** What every run of the main flow of the Ethereum script satisfies. *)
Definition ethereum_facts (wallet : EthereumScript.Wallet) (env : Env) (w : World)
    (run : Outcome unit * Trace) : Prop :=
  let key := env_value (WALLET_PRIVATE_KEY env) in
  let url := env_value (METAGRAPH_L1_DATA_URL env) in
  let account := createAccount w key in
  let bytes :=
    utf8 (EthereumScript.wallet_address wallet ++ address account ++ "Owner1"
            ++ Number_toString 750) in
  firstn 2 (snd run)
  = [EConsoleLog [LText ("Generated Ethereum Wallet Address: "
                           ++ EthereumScript.wallet_address wallet)];
     EConsoleLog [LText ("Ethereum Wallet Private Key: "
                           ++ EthereumScript.wallet_privateKey wallet)]]
  /\ (if env_falsy (WALLET_PRIVATE_KEY env)
      then fst run = Exit 1
           /\ skipn 2 (snd run)
              = [EConsoleError
                   [LText "WALLET_PRIVATE_KEY is not set in the environment variables."]]
      else True)
  /\ (if env_falsy (METAGRAPH_L1_DATA_URL env)
      then posts (snd run) = [] /\ is_normal (fst run) = false
      else True)
  /\ submitted_as_signed key (url ++ "/data") (proof_id_of account) None (snd run)
  /\ is_normal (fst run) = Nat.eqb (List.length (posts (snd run))) 1
  /\ Nat.leb (List.length (posts (snd run))) 1 = true
  /\ match fst run with
     | Exit c => c = 1%Z
                 /\ env_falsy (WALLET_PRIVATE_KEY env) || env_falsy (METAGRAPH_L1_DATA_URL env)
                    = true
     | _ => True
     end
  /\ match EthereumScript.wallet_signMessage wallet bytes with
     | inr sig =>
         match posts (snd run) with
         | EPost _ body _ :: _ => body_value body = ethereum_finalized account wallet sig
         | _ => True
         end
         /\ (if env_falsy (WALLET_PRIVATE_KEY env) then signed_payloads (snd run) = []
             else signed_payloads (snd run)
                  = [payload_of (ethereum_finalized account wallet sig)])
     | inl e =>
         if env_falsy (WALLET_PRIVATE_KEY env) then True
         else fst run = Throw e /\ signed_payloads (snd run) = []
     end
  /\ match rejection (snd run) with
     | Some e => fst run = Throw e /\ posts (snd run) = []
     | None => True
     end.

(** What every run of the main flow of the Solana script satisfies. *)
Definition solana_facts (lib : SolanaScript.Libraries) (wallet : SolanaScript.Wallet)
    (env : Env) (w : World) (run : Outcome unit * Trace) : Prop :=
  let key := env_value (WALLET_PRIVATE_KEY env) in
  let url := env_value (METAGRAPH_L1_DATA_URL env) in
  let account := createAccount w key in
  let bytes :=
    utf8 ("QWERTYUIOPASDFGHJKLZXCVBNMQWERTY" ++ address account ++ "Owner1"
            ++ Number_toString 750) in
  firstn 2 (snd run)
  = [EConsoleLog [LText ("Generated Solana Wallet Address: "
                           ++ SolanaScript.wallet_address wallet)];
     EConsoleLog [LText ("Solana Wallet Private Key: "
                           ++ SolanaScript.bs58_encode lib
                                (SolanaScript.wallet_secretKey wallet))]]
  /\ (if env_falsy (WALLET_PRIVATE_KEY env)
      then fst run = Exit 1 /\ skipn 2 (snd run)
              = [EConsoleError
                   [LText "WALLET_PRIVATE_KEY is not set in the environment variables."]]
      else True)
  /\ (if env_falsy (METAGRAPH_L1_DATA_URL env)
      then posts (snd run) = [] /\ fst run = Exit 1
      else True)
  /\ submitted_as_signed key (url ++ "/data") (proof_id_of account) None (snd run)
  /\ is_normal (fst run) = Nat.eqb (List.length (posts (snd run))) 1
  /\ Nat.leb (List.length (posts (snd run))) 1 = true
  /\ match fst run with
     | Normal _ => True
     | Throw _ => False
     | Exit c => c = 1%Z
     end
  /\ (if existsb is_failure (snd run) && negb (existsb is_post (snd run))
      then fst run = Exit 1 else True)
  /\ match SolanaScript.nacl_sign_detached lib bytes (SolanaScript.wallet_secretKey wallet) with
     | inr sig =>
         match posts (snd run) with
         | EPost _ body _ :: _ =>
             body_value body = solana_finalized account (SolanaScript.bs58_encode lib sig)
         | _ => True
         end
         /\ (if env_falsy (WALLET_PRIVATE_KEY env) then signed_payloads (snd run) = []
             else signed_payloads (snd run)
                  = [payload_of (solana_finalized account (SolanaScript.bs58_encode lib sig))])
     | inl e =>
         fst run = Exit 1 /\ signed_payloads (snd run) = [] /\ posts (snd run) = []
         /\ (if env_falsy (WALLET_PRIVATE_KEY env) then True
             else last (snd run) (ESleep 0)
                  = EConsoleError [LText "Error in main execution:"; LExn e])
     end
  /\ match rejection (snd run) with
     | Some e =>
         fst run = Exit 1 /\ posts (snd run) = []
         /\ last (snd run) (ESleep 0)
            = EConsoleError [LText "Error in main execution:"; LExn e]
     | None => True
     end.

(** What every run of the flow of the first script satisfies. *)
Definition basic_facts (parseInt : option string -> JsVal) (no_key_message : string)
    (env : Env) (senv : BasicScript.SessionEnv) (w : World)
    (run : Outcome unit * Trace) : Prop :=
  let key := env_value (WALLET_PRIVATE_KEY env) in
  let url := env_value (METAGRAPH_L1_DATA_URL env) in
  let account := createAccount w key in
  submitted_as_signed key (url ++ "/data") (proof_id_of account) None (snd run)
  /\ is_normal (fst run) = Nat.eqb (List.length (posts (snd run))) 1
  /\ Nat.leb (List.length (posts (snd run))) 1 = true
  /\ match fst run with
     | Normal _ => True
     | Throw e =>
         match WALLET_PRIVATE_KEY env with
         | Some _ =>
             match last (snd run) (ESleep 0) with
             | EDataSign _ _ (inl e') => e' = e
             | _ => False
             end
         | None => True
         end
     | Exit _ => False
     end
  /\ match WALLET_PRIVATE_KEY env with
     | Some _ => True
     | None => run = (Throw (TypeError no_key_message), [])
     end
  /\ match posts (snd run) with
     | EPost _ body a :: _ =>
         body_value body = BasicScript.buildCreateSessionMessage parseInt senv
         /\ match a with
            | Status2xx data =>
                last (snd run) (ESleep 0) = EConsoleLog [LText "Response: "; LJson data]
            | StatusOther status _ =>
                last (snd run) (ESleep 0)
                = EConsoleLog [LText "Error sending transaction";
                               LText ("Request failed with status code "
                                        ++ Number_toString status)]
            | NoResponse message =>
                last (snd run) (ESleep 0)
                = EConsoleLog [LText "Error sending transaction"; LText message]
            end
     | _ => True
     end
  /\ match rejection (snd run) with
     | Some e => fst run = Throw e /\ posts (snd run) = []
     | None => True
     end.

(** ** More sample inputs *)

Definition sample_eth_wallet : EthereumScript.Wallet :=
  {| EthereumScript.wallet_address := "0xETH";
     EthereumScript.wallet_privateKey := "0xprivate";
     EthereumScript.wallet_signMessage := fun bytes => inr ("0xsigned" ++ hex_of_bytes bytes) |}.

Definition refusing_eth_wallet : EthereumScript.Wallet :=
  {| EthereumScript.wallet_address := "0xETH";
     EthereumScript.wallet_privateKey := "0xprivate";
     EthereumScript.wallet_signMessage := fun _ => inl (TypeError "invalid private key") |}.

(** Signing needs a secret key of 64 bytes, as tweetnacl checks; base58 is
    stood in for by hexadecimal. *)
Definition sample_sol_lib : SolanaScript.Libraries :=
  {| SolanaScript.bs58_encode := hex_of_bytes;
     SolanaScript.nacl_sign_detached := fun data key =>
       if Nat.eqb (List.length key) 64 then inr data
       else inl (TypeError "bad secret key size") |}.

Definition sample_sol_wallet : SolanaScript.Wallet :=
  {| SolanaScript.wallet_address := "So1anaAddress";
     SolanaScript.wallet_secretKey := repeat Byte.x01 64 |}.

Definition malformed_sol_wallet : SolanaScript.Wallet :=
  {| SolanaScript.wallet_address := "So1anaAddress";
     SolanaScript.wallet_secretKey := [Byte.x01] |}.

Definition env_without_url : Env :=
  {| WALLET_PRIVATE_KEY := Some "validator-private-key";
     METAGRAPH_L1_DATA_URL := None;
     NETWORK_VERSION := Some "2.0";
     GLOBAL_L0_URL := Some "http://localhost:9000";
     TESTNET := Some "true" |}.

Definition env_without_key : Env :=
  {| WALLET_PRIVATE_KEY := Some EmptyString;
     METAGRAPH_L1_DATA_URL := Some "http://localhost:9400";
     NETWORK_VERSION := None;
     GLOBAL_L0_URL := None;
     TESTNET := None |}.

Definition sample_session_env : BasicScript.SessionEnv :=
  {| BasicScript.CREATOR := Some "DAG_CREATOR";
     BasicScript.SESSION_ID := None;
     BasicScript.END_SNAPSHOT_ORDINAL := Some "750" |}.

Definition sample_parseInt (x : option string) : JsVal :=
  match x with
  | Some _ => VNum 750
  | None => VNull
  end.

(** A key store that rejects every request. *)
Definition rejecting_world : World :=
  {| Date_toISOString := fun _ => "2025-01-01T00:00:00.000Z";
     keyStore_dataSign := fun _ _ _ => inl (KeyStoreError "account not authenticated");
     createAccount := fun _ => sample_account key130;
     endpoint := fun _ _ _ => Status2xx VNull |}.

(** An endpoint that refuses every request. *)
Definition refusing_world : World := sample_world key130 (always session_not_found).

Definition ethereum_sample_trace : Trace :=
  snd (EthereumScript.main sample_eth_wallet sample_env refusing_world []).

Definition solana_sample_trace : Trace :=
  snd (SolanaScript.main sample_sol_lib sample_sol_wallet sample_env refusing_world []).

(** A message for the TypeError of a login without a key. *)
Definition sample_no_key_message : string := "private key is undefined".

Definition basic_sample_trace : Trace :=
  snd (BasicScript.sendDataTransaction sample_parseInt sample_no_key_message sample_env
         sample_session_env refusing_world []).


(** ** Safe integers and what JSON text keeps *)

(** The integers a Number holds exactly, which JavaScript prints in plain
    decimal: [Number.isSafeInteger]. *)
Definition safe_integer (n : Z) : bool :=
  (- 2 ^ 53 <? n)%Z && (n <? 2 ^ 53)%Z.

(** The keys of every object inside a value are distinct, as the keys of
    a JavaScript object are. *)
Fixpoint well_keyed (v : JsVal) : bool :=
  match v with
  | VArr l => forallb well_keyed l
  | VObj o => distinct (map fst o) && forallb (fun kv => well_keyed (snd kv)) o
  | _ => true
  end.

(** What JSON text keeps of a value: a property whose value is
    [undefined] is left out, an [undefined] array element becomes [null],
    everything else stays. *)
Fixpoint json_image (v : JsVal) : JsVal :=
  match v with
  | VArr l =>
      VArr (map (fun x => match x with
                          | VUndefined => VNull
                          | _ => json_image x
                          end) l)
  | VObj o =>
      VObj (flat_map (fun kv => match snd kv with
                                | VUndefined => []
                                | _ => [(fst kv, json_image (snd kv))]
                                end) o)
  | _ => v
  end.

(** * Properties *)

(** ** The runtime on small inputs *)

Example base64_Man : base64 (utf8 "Man") = "TWFu".
Proof. reflexivity. Qed.

Example base64_padded : base64 (utf8 "light w") = "bGlnaHQgdw==".
Proof. reflexivity. Qed.

Example stringify_drops_undefined :
  JSON_stringify (VObj [("a", VNum 750); ("b", VUndefined); ("c", VArr [VStr "x"; VUndefined])])
  = Some ("{" ++ quote "a" ++ ":750," ++ quote "c" ++ ":[" ++ quote "x" ++ ",null]}").
Proof. reflexivity. Qed.

Example parse_nested :
  JSON_parse ("{" ++ quote "a" ++ ":[-3,true,null,{}]," ++ quote "a" ++ ":0}")
  = Some (VObj [("a", VNum 0)]).
Proof. reflexivity. Qed.

Example parse_refuses_leading_zero : JSON_parse "[01]" = None.
Proof. reflexivity. Qed.

Example parse_refuses_trailing_comma : JSON_parse "[1,]" = None.
Proof. reflexivity. Qed.

Example scenario_A_signed_bytes :
  Ethereum.serializeForEthereumSignature sample_create_message
    (sample_world key130 (always (Status2xx VNull))) []
  = (Normal (utf8 "0xETHDAG_ADDROwner1750"), []).
Proof. reflexivity. Qed.

Example key128_kept :
  String.length key128 = 128
  /\ option_map id
       (match fst (Basic.generateProof sample_create_message "k" (sample_account key128)
                     (sample_world key128 (always (Status2xx VNull))) []) with
        | Normal p => Some p
        | _ => None
        end)
     = Some key128.
Proof. split; vm_compute; reflexivity. Qed.

Example key130_prefix_removed :
  option_map id
    (match fst (Basic.generateProof sample_create_message "k" (sample_account key130)
                  (sample_world key130 (always (Status2xx VNull))) []) with
     | Normal p => Some p
     | _ => None
     end)
  = Some key128.
Proof. vm_compute. reflexivity. Qed.

(** ** Strings and objects *)

Lemma append_assoc (a b c : string) : (a ++ b) ++ c = a ++ (b ++ c).
Proof. induction a as [|x a IH]; simpl; [reflexivity | now rewrite IH]. Qed.

Lemma append_empty_r (a : string) : a ++ EmptyString = a.
Proof. induction a as [|x a IH]; simpl; [reflexivity | now rewrite IH]. Qed.

Lemma length_append (a b : string) :
  String.length (a ++ b) = String.length a + String.length b.
Proof. induction a as [|x a IH]; simpl; [reflexivity | now rewrite IH]. Qed.

Lemma append_cancel_l (a x y : string) : a ++ x = a ++ y -> x = y.
Proof.
  induction a as [|c a IH]; simpl; intro H; [exact H | ].
  injection H as H. now apply IH.
Qed.

Lemma append_cancel_r (b x y : string) : x ++ b = y ++ b -> x = y.
Proof.
  revert y. induction x as [|c x IH]; intros [|d y] H; simpl in H.
  - reflexivity.
  - apply (f_equal String.length) in H. simpl in H. rewrite length_append in H. lia.
  - apply (f_equal String.length) in H. simpl in H. rewrite length_append in H. lia.
  - injection H as -> H. f_equal. now apply IH.
Qed.

Lemma lookup_set_prop_same (k : string) (v : JsVal) (o : Props) :
  lookup k (set_prop k v o) = Some v.
Proof.
  induction o as [|[k' v'] o IH]; simpl.
  - now rewrite String.eqb_refl.
  - destruct (String.eqb k k') eqn:E; simpl; rewrite E; [reflexivity | exact IH].
Qed.

Lemma lookup_set_prop_other (k k0 : string) (v : JsVal) (o : Props) :
  k0 <> k -> lookup k0 (set_prop k v o) = lookup k0 o.
Proof.
  intro Hne. induction o as [|[k' v'] o IH]; simpl.
  - apply String.eqb_neq in Hne. now rewrite Hne.
  - destruct (String.eqb k k') eqn:E; simpl.
    + apply String.eqb_eq in E. subst k'.
      apply String.eqb_neq in Hne. now rewrite Hne.
    + now rewrite IH.
Qed.

Lemma keys_set_prop_present (k : string) (v x : JsVal) (o : Props) :
  lookup k o = Some x -> keys (set_prop k v o) = keys o.
Proof.
  unfold keys. induction o as [|[k' v'] o IH]; simpl; [discriminate | ].
  destruct (String.eqb k k') eqn:E; simpl; intro H; [reflexivity | ].
  now rewrite IH.
Qed.

Lemma set_prop_set_prop (k : string) (v1 v2 : JsVal) (o : Props) :
  set_prop k v2 (set_prop k v1 o) = set_prop k v2 o.
Proof.
  induction o as [|[k' v'] o IH]; simpl.
  - now rewrite String.eqb_refl.
  - destruct (String.eqb k k') eqn:E; simpl; rewrite E; [reflexivity | now rewrite IH].
Qed.

(** ** The proof generators *)

Section ProofGenerators.

Variables (w : World) (t : Trace).
Variables (message : JsVal) (walletPrivateKey : string) (account : Account).

(** What each generator does, step by step: it fails on a message that has
    no JSON text, otherwise asks the key store once and, when that signs,
    returns the normalised key with the signature. *)
Lemma generateProof_run :
  Basic.generateProof message walletPrivateKey account w t =
  match JSON_stringify message with
  | None => (Throw (TypeError "The first argument must be of type string"), t)
  | Some text =>
      let payload := base64 (utf8 text) in
      let result := keyStore_dataSign w t walletPrivateKey payload in
      (match result with
       | inr s =>
           Normal {| id := substring_from 2
                             (if Nat.eqb (String.length (publicKey account)) 128
                              then "04" ++ publicKey account else publicKey account);
                     signature := s |}
       | inl e => Throw e
       end, (t ++ [EDataSign walletPrivateKey payload result])%list)
  end.
Proof.
  unfold Basic.generateProof, Buffer_base64_of_JSON, bind, dataSign, ret, throw.
  destruct (JSON_stringify message) as [text|]; [ | reflexivity].
  destruct (keyStore_dataSign w t walletPrivateKey (base64 (utf8 text))); reflexivity.
Qed.

Lemma generators_agree :
  Ethereum.generateDag4Proof message walletPrivateKey account w t
    = Basic.generateProof message walletPrivateKey account w t
  /\ Solana.generateDag4Proof message walletPrivateKey account w t
     = Basic.generateProof message walletPrivateKey account w t
  /\ Lifecycle.generateDag4Proof message walletPrivateKey account w t
     = Basic.generateProof message walletPrivateKey account w t.
Proof. repeat split. Qed.

End ProofGenerators.

(** ** Public-key normalisation *)

Lemma generateProof_id (w : World) (t : Trace) (message : JsVal) (key : string)
    (account : Account) (p : ProofObj) (t' : Trace) :
  Basic.generateProof message key account w t = (Normal p, t') ->
  id p = if Nat.eqb (String.length (publicKey account)) 128
         then publicKey account
         else substring_from 2 (publicKey account).
Proof.
  rewrite generateProof_run.
  destruct (JSON_stringify message) as [text|]; [ | discriminate].
  cbv zeta.
  destruct (keyStore_dataSign w t key (base64 (utf8 text))); [discriminate | ].
  intros [= <- _]. simpl.
  destruct (Nat.eqb (String.length (publicKey account)) 128); reflexivity.
Qed.

(** C1 (as the code has it): a proof built from a public key of exactly
    128 characters has that key unchanged as its id; built from a key of
    any other length, its id is the key without its first two characters
    (no 04 is put in front). This holds for [generateProof] and for
    [generateDag4Proof] of the lifecycle script. *)
Theorem proof_id_normalisation (w : World) (t : Trace) (message : JsVal) (key : string)
    (account : Account) (p : ProofObj) (t' : Trace) :
  Basic.generateProof message key account w t = (Normal p, t')
  \/ Lifecycle.generateDag4Proof message key account w t = (Normal p, t') ->
  (String.length (publicKey account) = 128 -> id p = publicKey account)
  /\ (String.length (publicKey account) <> 128 ->
      id p = substring_from 2 (publicKey account)).
Proof.
  intros H.
  assert (Hp : Basic.generateProof message key account w t = (Normal p, t')).
  { destruct H as [H | H]; [exact H | ].
    now rewrite <- (proj2 (proj2 (generators_agree w t message key account))). }
  apply generateProof_id in Hp. split; intro L.
  - now rewrite L in Hp.
  - apply Nat.eqb_neq in L. now rewrite L in Hp.
Qed.

Lemma proof_id_normalisation_witness :
  exists p t',
    Basic.generateProof sample_create_message "k" (sample_account key64)
      (sample_world key64 (always (Status2xx VNull))) [] = (Normal p, t')
    /\ id p = substring_from 2 key64.
Proof.
  eexists; eexists. split; [cbv; reflexivity | ].
  eapply (proof_id_normalisation (sample_world key64 (always (Status2xx VNull))) []
            sample_create_message "k" (sample_account key64)).
  - left. cbv. reflexivity.
  - vm_compute. discriminate.
Defined.

(** A 64-character key: the id is not the key with 04 put in front and
    the first byte taken off again (which would be the key itself), it is
    the key short of its first two characters. *)
Lemma proof_id_64_counterexample :
  String.length key64 = 64
  /\ exists p t',
       Basic.generateProof sample_create_message "k" (sample_account key64)
         (sample_world key64 (always (Status2xx VNull))) [] = (Normal p, t')
       /\ id p <> substring_from 2 ("04" ++ key64).
Proof.
  split; [reflexivity | ].
  eexists; eexists. split; [cbv; reflexivity | ].
  vm_compute. discriminate.
Qed.

(** ** The four proof generators *)

(** C10: the four proof generators compute the same function: on equal
    message, private key and account, under key stores that give the same
    answer, they end the same way, with equal proofs when they return. *)
Theorem proof_generators_agree (message : JsVal) (key : string) (account : Account)
    (w1 w2 : World) (t1 t2 : Trace) :
  (forall payload,
      keyStore_dataSign w1 t1 key payload = keyStore_dataSign w2 t2 key payload) ->
  fst (Ethereum.generateDag4Proof message key account w2 t2)
    = fst (Basic.generateProof message key account w1 t1)
  /\ fst (Solana.generateDag4Proof message key account w2 t2)
     = fst (Basic.generateProof message key account w1 t1)
  /\ fst (Lifecycle.generateDag4Proof message key account w2 t2)
     = fst (Basic.generateProof message key account w1 t1).
Proof.
  intro H.
  destruct (generators_agree w2 t2 message key account) as (-> & -> & ->).
  assert (E : fst (Basic.generateProof message key account w2 t2)
              = fst (Basic.generateProof message key account w1 t1)).
  { rewrite !generateProof_run.
    destruct (JSON_stringify message) as [text|]; [ | reflexivity].
    cbv zeta. simpl. now rewrite H. }
  now rewrite E.
Qed.

Lemma proof_generators_agree_witness :
  fst (Lifecycle.generateDag4Proof sample_create_message "k" (sample_account key130)
         (sample_world key130 (always (Status2xx VNull))) [ESleep 1])
  = fst (Basic.generateProof sample_create_message "k" (sample_account key130)
           (sample_world key128 (always (NoResponse "down"))) []).
Proof.
  apply (proof_generators_agree sample_create_message "k" (sample_account key130)
           (sample_world key128 (always (NoResponse "down")))
           (sample_world key130 (always (Status2xx VNull))) [] [ESleep 1]).
  intro payload. reflexivity.
Defined.

(** ** The external-signature serializers *)

Lemma utf8_decode_char (c : ascii) (rest : list byte) :
  utf8_decode (utf8_char c ++ rest)%list = String c (utf8_decode rest).
Proof. destruct c as [[] [] [] [] [] [] [] []]; reflexivity. Qed.

Lemma utf8_decode_utf8 (s : string) : utf8_decode (utf8 s) = s.
Proof.
  induction s as [|c s IH]; [reflexivity | ].
  simpl utf8. now rewrite utf8_decode_char, IH.
Qed.

Lemma utf8_inj (s1 s2 : string) : utf8 s1 = utf8 s2 -> s1 = s2.
Proof.
  intro H. rewrite <- (utf8_decode_utf8 s1), <- (utf8_decode_utf8 s2). now rewrite H.
Qed.

Lemma to_int_proper (n : Z) : Z.to_int n <> Decimal.Pos Decimal.Nil /\ Z.to_int n <> Decimal.Neg Decimal.Nil.
Proof.
  destruct n as [|p|p]; simpl; split; try discriminate;
    intros [= H]; now apply (DecimalPos.Unsigned.to_uint_nonnil p).
Qed.

Lemma Number_toString_inj (n1 n2 : Z) :
  Number_toString n1 = Number_toString n2 -> n1 = n2.
Proof.
  unfold Number_toString. intro H.
  apply DecimalZ.to_int_inj.
  destruct (to_int_proper n1) as [A1 B1], (to_int_proper n2) as [A2 B2].
  pose proof (NilZero.isi _ A1 B1) as E1.
  pose proof (NilZero.isi _ A2 B2) as E2.
  rewrite H in E1. rewrite E1 in E2. now injection E2.
Qed.



Lemma ethereum_command_bytes (w : World) (t : Trace) (f : SignedSubset) :
  Ethereum.serializeForEthereumSignature (ethereum_command f) w t
  = (Normal (utf8 (signed_text f)), t).
Proof. reflexivity. Qed.

Lemma solana_command_bytes (w : World) (t : Trace) (f : SignedSubset) :
  Solana.serializeForSolanaSignature (solana_command f) w t
  = (Normal (utf8 (signed_text f)), t).
Proof. reflexivity. Qed.

Lemma signed_text_single_field (f g : SignedSubset) :
  differ_in_exactly_one f g -> signed_text f <> signed_text g.
Proof.
  unfold differ_in_exactly_one, signed_text.
  intros [(Hd & Hb & Hc & Hn) | [(Ha & Hd & Hc & Hn) | [(Ha & Hb & Hd & Hn) | (Ha & Hb & Hc & Hd)]]] E;
    apply Hd.
  - rewrite Hb, Hc, Hn in E. now apply append_cancel_r in E.
  - rewrite Ha, Hc, Hn in E. apply append_cancel_l in E.
    rewrite <- !append_assoc in E. apply append_cancel_r in E.
    now apply append_cancel_r in E.
  - rewrite Ha, Hb, Hn in E. do 2 apply append_cancel_l in E.
    now apply append_cancel_r in E.
  - rewrite Ha, Hb, Hc in E. do 3 apply append_cancel_l in E.
    now apply Number_toString_inj.
Qed.

(** C4 (as the code has it): the serializers are deterministic: whatever
    the world and the moment, the same command gives the same bytes and
    nothing happens. Two commands of one variant whose signed subsets
    differ in exactly one field give different bytes. *)
Theorem serializers_deterministic_single_field (f g : SignedSubset)
    (w w' : World) (t t' : Trace) :
  differ_in_exactly_one f g ->
  (Ethereum.serializeForEthereumSignature (ethereum_command f) w t
     = (Normal (utf8 (signed_text f)), t)
   /\ fst (Ethereum.serializeForEthereumSignature (ethereum_command f) w t)
      = fst (Ethereum.serializeForEthereumSignature (ethereum_command f) w' t')
   /\ fst (Ethereum.serializeForEthereumSignature (ethereum_command f) w t)
      <> fst (Ethereum.serializeForEthereumSignature (ethereum_command g) w' t'))
  /\ (Solana.serializeForSolanaSignature (solana_command f) w t
       = (Normal (utf8 (signed_text f)), t)
      /\ fst (Solana.serializeForSolanaSignature (solana_command f) w t)
         = fst (Solana.serializeForSolanaSignature (solana_command f) w' t')
      /\ fst (Solana.serializeForSolanaSignature (solana_command f) w t)
         <> fst (Solana.serializeForSolanaSignature (solana_command g) w' t')).
Proof.
  intro D. apply signed_text_single_field in D.
  rewrite !ethereum_command_bytes, !solana_command_bytes. simpl fst.
  repeat split; intros [= E]; apply D; now apply utf8_inj.
Qed.

Lemma serializers_deterministic_single_field_witness :
  fst (Ethereum.serializeForEthereumSignature (ethereum_command subset_a_bc)
         (sample_world key130 (always (Status2xx VNull))) [])
  <> fst (Ethereum.serializeForEthereumSignature (ethereum_command subset_a_bc_751)
            (sample_world key128 (always (NoResponse "down"))) [ESleep 1]).
Proof.
  apply (serializers_deterministic_single_field subset_a_bc subset_a_bc_751
           (sample_world key130 (always (Status2xx VNull)))
           (sample_world key128 (always (NoResponse "down"))) [] [ESleep 1]).
  right; right; right. repeat split. discriminate.
Defined.

(** Differing in a signed field is not enough: with nothing between the
    fields, address ab with provider c and address a with provider bc
    serialize to the same bytes. *)
Lemma serializer_collision_counterexample :
  externalAddress subset_ab_c <> externalAddress subset_a_bc
  /\ accessProvider subset_ab_c <> accessProvider subset_a_bc
  /\ Ethereum.serializeForEthereumSignature (ethereum_command subset_ab_c)
       (sample_world key130 (always (Status2xx VNull))) []
     = Ethereum.serializeForEthereumSignature (ethereum_command subset_a_bc)
         (sample_world key130 (always (Status2xx VNull))) []
  /\ Solana.serializeForSolanaSignature (solana_command subset_ab_c)
       (sample_world key130 (always (Status2xx VNull))) []
     = Solana.serializeForSolanaSignature (solana_command subset_a_bc)
         (sample_world key130 (always (Status2xx VNull))) [].
Proof. repeat split; discriminate. Qed.

(** ** The signature embedders *)

Lemma assign_member_run (w : World) (t : Trace) (m o : Props) (tag fld : string) (v : JsVal) :
  lookup tag m = Some (VObj o) ->
  assign_member (VObj m) tag fld v w t
  = (Normal (VObj (set_prop tag (VObj (set_prop fld v o)) m)), t).
Proof.
  intro H. unfold assign_member, bind, get_prop, ret. now rewrite H.
Qed.

Lemma assign_member_embeds (tag fld : string) :
  embeds tag fld (fun message sig => assign_member message tag fld sig).
Proof.
  intros w t m o sig sig2 H.
  exists (set_prop tag (VObj (set_prop fld sig o)) m), (set_prop fld sig o).
  split; [now apply assign_member_run | ].
  split; [apply lookup_set_prop_same | ].
  split; [apply lookup_set_prop_same | ].
  split; [intros k Hk; now apply lookup_set_prop_other | ].
  split; [intros x Hx; now apply keys_set_prop_present with x | ].
  split; [intros k Hk; now apply lookup_set_prop_other | ].
  split; [now apply keys_set_prop_present with (VObj o) | ].
  unfold bind. rewrite (assign_member_run w t m o tag fld sig H).
  rewrite (assign_member_run w t _ (set_prop fld sig o) tag fld sig2
             (lookup_set_prop_same tag _ m)).
  rewrite (assign_member_run w t m o tag fld sig2 H).
  now rewrite !set_prop_set_prop.
Qed.

(** C6: each signature embedder returns the command it was given with
    the signature in the signature field and every other field as it
    was; a second call with another signature leaves that second one
    only. *)
Theorem signature_embedders :
  embeds "CreateSession" "hash" Ethereum.assignEthereumSignature
  /\ embeds "CreateSolSession" "solanaSignature" Solana.assignSolanaSignature.
Proof. split; apply assign_member_embeds. Qed.

Lemma signature_embedders_witness :
  (m1 <- Ethereum.assignEthereumSignature sample_create_message (VStr "0xfirst") ;;
   Ethereum.assignEthereumSignature m1 (VStr "0xsecond"))
    (sample_world key130 (always (Status2xx VNull))) []
  = (Normal (VObj [("CreateSession",
                    VObj [("accessProvider", VStr "DAG_ADDR");
                          ("accessId", VStr "0xETH");
                          ("accessObj", VStr "Owner1");
                          ("endSnapshotOrdinal", VNum 750);
                          ("hash", VStr "0xsecond")])]), []).
Proof.
  destruct (proj1 signature_embedders (sample_world key130 (always (Status2xx VNull))) []
              [("CreateSession",
                VObj [("accessProvider", VStr "DAG_ADDR");
                      ("accessId", VStr "0xETH");
                      ("accessObj", VStr "Owner1");
                      ("endSnapshotOrdinal", VNum 750);
                      ("hash", VStr EmptyString)])]
              _ (VStr "0xfirst") (VStr "0xsecond") eq_refl)
    as (m' & o' & _ & _ & _ & _ & _ & _ & _ & E).
  exact E.
Defined.

(** ** The payload builders *)

Lemma buildNotarizeSessionMessage_run (w : World) (t : Trace)
    (accessProvider accessId accessObj endSnapshotOrdinal : JsVal) :
  Lifecycle.buildNotarizeSessionMessage accessProvider accessId accessObj endSnapshotOrdinal w t
  = (Normal
       (VObj [("NotarizeSession",
               VObj [("accessProvider", accessProvider);
                     ("accessId", accessId);
                     ("accessObj", accessObj);
                     ("endSnapshotOrdinal", endSnapshotOrdinal);
                     ("metadata",
                      VObj [("startTime", VStr (Date_toISOString w t));
                            ("data",
                             VObj [("userId", VObj [("StringValue", VObj [("value", VStr "user123")])]);
                                   ("loginCount", VObj [("NumberValue", VObj [("value", VNum 42)])]);
                                   ("isActive", VObj [("BooleanValue", VObj [("value", VBool true)])])])])])]),
     (t ++ [EClock (Date_toISOString w t)])%list).
Proof. reflexivity. Qed.

(** C5 (as the code has it): the two create builders are functions of
    their parameters alone and start the signature field (hash,
    solanaSignature) as the empty string. The notarize builder has no
    signature field and is not a function of its parameters alone: it
    reads the clock once, for metadata.startTime, does nothing else to the
    outside, and returns equal commands for equal parameters when the
    clock reads the same. *)
Theorem builders_signature_field_and_clock
    (accessProvider address accessObj endSnapshotOrdinal : JsVal) :
  (exists o,
      Ethereum.buildCreateSessionMessage accessProvider address accessObj endSnapshotOrdinal
        = VObj [("CreateSession", VObj o)]
      /\ lookup "hash" o = Some (VStr EmptyString))
  /\ (exists o,
        Solana.buildCreateSolSessionMessage accessProvider address accessObj endSnapshotOrdinal
          = VObj [("CreateSolSession", VObj o)]
        /\ lookup "solanaSignature" o = Some (VStr EmptyString))
  /\ (forall w t,
        exists o,
          Lifecycle.buildNotarizeSessionMessage accessProvider address accessObj
            endSnapshotOrdinal w t
          = (Normal (VObj [("NotarizeSession", VObj o)]),
             (t ++ [EClock (Date_toISOString w t)])%list)
          /\ lookup "hash" o = None
          /\ field "startTime" (spread (field "metadata" o)) = VStr (Date_toISOString w t))
  /\ (forall w1 t1 w2 t2,
        Date_toISOString w1 t1 = Date_toISOString w2 t2 ->
        fst (Lifecycle.buildNotarizeSessionMessage accessProvider address accessObj
               endSnapshotOrdinal w1 t1)
        = fst (Lifecycle.buildNotarizeSessionMessage accessProvider address accessObj
                 endSnapshotOrdinal w2 t2)).
Proof.
  split; [eexists; split; reflexivity | ].
  split; [eexists; split; reflexivity | ].
  split.
  - intros w t. eexists. split; [apply buildNotarizeSessionMessage_run | ].
    split; reflexivity.
  - intros w1 t1 w2 t2 H. rewrite !buildNotarizeSessionMessage_run. simpl. now rewrite H.
Qed.

Lemma builders_signature_field_and_clock_witness :
  fst (Lifecycle.buildNotarizeSessionMessage (VStr "DAG_ADDR") (VStr "DAG_ADDR") (VStr "Owner11")
         (VNum 12000) (sample_world key130 (always (Status2xx VNull))) [])
  = fst (Lifecycle.buildNotarizeSessionMessage (VStr "DAG_ADDR") (VStr "DAG_ADDR")
           (VStr "Owner11") (VNum 12000)
           (sample_world key128 (always (NoResponse "down"))) [ESleep 20000]).
Proof.
  apply (proj2 (proj2 (proj2 (builders_signature_field_and_clock (VStr "DAG_ADDR")
                                (VStr "DAG_ADDR") (VStr "Owner11") (VNum 12000))))).
  reflexivity.
Defined.

(** Two calls of the notarize builder with the same arguments, one after
    the other: the clock is read twice and the two commands differ. *)
Lemma notarize_builder_not_pure_counterexample :
  exists m1 m2 r1 r2,
    (m1 <- Lifecycle.buildNotarizeSessionMessage (VStr "DAG_ADDR") (VStr "DAG_ADDR")
             (VStr "Owner11") (VNum 12000) ;;
     m2 <- Lifecycle.buildNotarizeSessionMessage (VStr "DAG_ADDR") (VStr "DAG_ADDR")
             (VStr "Owner11") (VNum 12000) ;;
     ret (m1, m2)) (sample_world key130 (always (Status2xx VNull))) []
    = (Normal (m1, m2), [EClock r1; EClock r2])
    /\ m1 <> m2.
Proof.
  do 4 eexists. split; [cbv; reflexivity | ].
  discriminate.
Qed.

(** ** JSON text read back *)

Lemma scan_digits_nondigit (rest : string) :
  starts_nondigit rest -> scan_digits rest = (EmptyString, rest).
Proof. destruct rest as [|c r]; simpl; [reflexivity | now intros ->]. Qed.

Lemma scan_digits_uint (d : Decimal.uint) (rest : string) :
  starts_nondigit rest ->
  scan_digits (NilEmpty.string_of_uint d ++ rest) = (NilEmpty.string_of_uint d, rest).
Proof.
  intro H. induction d; simpl; try (rewrite IHd; reflexivity).
  now apply scan_digits_nondigit.
Qed.

Lemma string_of_uint_nonnil (d : Decimal.uint) :
  d <> Decimal.Nil ->
  NilZero.string_of_uint d = NilEmpty.string_of_uint d
  /\ exists c s, NilEmpty.string_of_uint d = String c s /\ is_digit c = true.
Proof.
  destruct d; intro H; try (now destruct H); (split; [reflexivity | ]);
    simpl; eexists; eexists; split; reflexivity.
Qed.

(** A numeral without a leading zero, or the numeral 0. *)
Lemma leading_zero_check (d : Decimal.uint) (c : ascii) (s : string) :
  d = Decimal.D0 Decimal.Nil \/ (forall d', d <> Decimal.D0 d') ->
  NilEmpty.string_of_uint d = String c s ->
  Ascii.eqb c "0" && negb (String.eqb s EmptyString) = false.
Proof.
  intros [-> | H] E.
  - simpl in E. injection E as <- <-. reflexivity.
  - destruct d; simpl in E; try discriminate E; injection E as <- _;
      try reflexivity.
    now destruct (H d).
Qed.

Lemma to_uint_no_leading_zero (p : positive) (d' : Decimal.uint) :
  Pos.to_uint p <> Decimal.D0 d'.
Proof.
  pose proof (DecimalPos.Unsigned.to_of (Pos.to_uint p)) as H.
  rewrite DecimalPos.Unsigned.of_to in H. simpl in H.
  unfold Decimal.unorm in H. intro F.
  destruct (Decimal.nzhead (Pos.to_uint p)) eqn:E; try congruence.
  - now apply (DecimalPos.Unsigned.to_uint_nonzero p).
  - now apply (DecimalFacts.nzhead_nonzero (Pos.to_uint p) u).
Qed.

Lemma parse_number_uint (neg : bool) (d : Decimal.uint) (rest : string) :
  d <> Decimal.Nil ->
  d = Decimal.D0 Decimal.Nil \/ (forall d', d <> Decimal.D0 d') ->
  starts_nondigit rest ->
  parse_number (NilZero.string_of_int (if neg then Decimal.Neg d else Decimal.Pos d) ++ rest)
  = Some (Z.of_int (if neg then Decimal.Neg d else Decimal.Pos d), rest).
Proof.
  intros Hd Hz Hr.
  destruct (string_of_uint_nonnil d Hd) as [E (c & s & Es & Hc)].
  pose proof (scan_digits_uint d rest Hr) as Hscan.
  pose proof (leading_zero_check d c s Hz Es) as Hlz.
  destruct neg; unfold parse_number; simpl NilZero.string_of_int; rewrite E.
  - simpl. rewrite Hscan. rewrite Es at 1. cbv iota beta. rewrite Hlz.
    rewrite <- E, NilZero.usu by assumption.
    reflexivity.
  - rewrite Es at 1. simpl.
    assert (Hm : Ascii.eqb c "-" = false).
    { destruct c as [[] [] [] [] [] [] [] []]; try discriminate Hc; reflexivity. }
    rewrite Hm, Hscan.
    assert (HI : NilZero.int_of_string (NilEmpty.string_of_uint d) = Some (Decimal.Pos d)).
    { rewrite <- E. apply (NilZero.isi (Decimal.Pos d)); [congruence | discriminate]. }
    simpl append. rewrite HI. rewrite Es at 1. cbv iota beta. now rewrite Hlz.
Qed.

Lemma Number_toString_head (n : Z) :
  exists c s, Number_toString n = String c s /\ (is_digit c = true \/ c = "-"%char).
Proof.
  unfold Number_toString. destruct n as [|p|p]; simpl.
  - eexists; eexists; split; [reflexivity | now left].
  - destruct (string_of_uint_nonnil _ (DecimalPos.Unsigned.to_uint_nonnil p))
      as [E (c & s & Es & Hc)].
    rewrite E, Es. eexists; eexists; split; [reflexivity | now left].
  - eexists; eexists; split; [reflexivity | now right].
Qed.

Lemma parse_number_roundtrip (n : Z) (rest : string) :
  starts_nondigit rest ->
  parse_number (Number_toString n ++ rest) = Some (n, rest).
Proof.
  intro Hr. unfold Number_toString.
  rewrite <- (DecimalZ.of_to n) at 2.
  destruct n as [|p|p].
  - apply (parse_number_uint false (Decimal.D0 Decimal.Nil) rest);
      [discriminate | now left | exact Hr].
  - apply (parse_number_uint false (Pos.to_uint p) rest);
      [apply DecimalPos.Unsigned.to_uint_nonnil
      | right; apply to_uint_no_leading_zero | exact Hr].
  - apply (parse_number_uint true (Pos.to_uint p) rest);
      [apply DecimalPos.Unsigned.to_uint_nonnil
      | right; apply to_uint_no_leading_zero | exact Hr].
Qed.

Lemma parse_value_number (fuel : nat) (n : Z) (rest : string) :
  starts_nondigit rest ->
  parse_value (S fuel) (Number_toString n ++ rest) = Some (VNum n, rest).
Proof.
  intro Hr.
  pose proof (parse_number_roundtrip n rest Hr) as P.
  destruct (Number_toString_head n) as (c & s & E & Hc).
  rewrite E in *. simpl append in *. simpl parse_value.
  assert (D : Ascii.eqb c "n" = false /\ Ascii.eqb c "t" = false /\ Ascii.eqb c "f" = false
              /\ Ascii.eqb c dquote = false /\ Ascii.eqb c "[" = false
              /\ Ascii.eqb c "{" = false).
  { destruct Hc as [Hc | ->]; [ | repeat split].
    destruct c as [[] [] [] [] [] [] [] []]; try discriminate Hc; repeat split. }
  destruct D as (-> & -> & -> & -> & -> & ->).
  now rewrite P.
Qed.

Lemma parse_string_body_roundtrip (s rest : string) :
  parse_string_body (quote_chars s ++ String dquote rest) = Some (s, rest).
Proof.
  induction s as [|c s IH]; [reflexivity | ].
  simpl quote_chars. rewrite append_assoc.
  destruct c as [[] [] [] [] [] [] [] []]; simpl; rewrite IH; reflexivity.
Qed.

Lemma parse_value_string (fuel : nat) (s rest : string) :
  parse_value (S fuel) (quote s ++ rest) = Some (VStr s, rest).
Proof.
  unfold quote. simpl. rewrite append_assoc. simpl.
  now rewrite parse_string_body_roundtrip.
Qed.

Lemma stringify_json_text (v : JsVal) :
  is_json v = true -> JSON_stringify v = Some (json_text v).
Proof.
  induction v as [ | | [|] | n | s | l IH | o IH] using JsVal_nested_ind;
    cbn [JSON_stringify json_text is_json]; intro H;
    try reflexivity; try discriminate.
  - assert (E : map (fun x => match JSON_stringify x with
                              | Some t => t
                              | None => "null"
                              end) l = map json_text l).
    { induction IH as [|x l Hx _ IHl]; [reflexivity | ].
      simpl in H. apply andb_prop in H as [H1 H2].
      simpl. rewrite (Hx H1). f_equal. now apply IHl. }
    now rewrite E.
  - apply andb_prop in H as [_ H].
    assert (E : flat_map (fun kv => match JSON_stringify (snd kv) with
                                    | Some t => [quote (fst kv) ++ ":" ++ t]
                                    | None => []
                                    end) o
                = map (fun kv => quote (fst kv) ++ ":" ++ json_text (snd kv)) o).
    { induction IH as [|[k x] o Hx _ IHo]; [reflexivity | ].
      simpl in H. apply andb_prop in H as [H1 H2].
      simpl. simpl in Hx. rewrite (Hx H1). simpl. f_equal. now apply IHo. }
    now rewrite E.
Qed.

Lemma json_text_head (v : JsVal) :
  exists c s, json_text v = String c s
              /\ Ascii.eqb c "]" = false /\ Ascii.eqb c "}" = false.
Proof.
  destruct v as [ | | [|] | n | s | l | o]; simpl;
    try (eexists; eexists; repeat split; reflexivity).
  destruct (Number_toString_head n) as (c & s & E & Hc).
  exists c, s. split; [exact E | ].
  destruct Hc as [Hc | ->]; [ | split; reflexivity].
  destruct c as [[] [] [] [] [] [] [] []]; try discriminate Hc; split; reflexivity.
Qed.

Lemma parse_elements_roundtrip (l : list JsVal) :
  Forall parses l -> l <> [] ->
  forall fuel rest,
    list_sum (map (fun x => S (weight x)) l) <= fuel ->
    parse_elements fuel (join "," (map json_text l) ++ String "]" rest) = Some (l, rest).
Proof.
  induction 1 as [|x l Hx Hl IH]; intros Hne fuel rest Hf; [contradiction | ].
  destruct fuel as [|fuel]; [simpl in Hf; lia | ].
  simpl in Hf.
  destruct l as [|y l'].
  - simpl. rewrite Hx; [reflexivity | simpl in Hf; lia | reflexivity].
  - change (join "," (map json_text (x :: y :: l')))
      with (json_text x ++ "," ++ join "," (map json_text (y :: l'))).
    rewrite !append_assoc.
    cbn [parse_elements].
    rewrite Hx; [ | lia | reflexivity].
    cbn [append Ascii.eqb Bool.eqb].
    rewrite IH; [reflexivity | discriminate | lia].
Qed.

Lemma parse_members_step (fuel : nat) (k : string) (x : JsVal) (c : ascii) (rest : string) :
  parses x -> weight x <= fuel -> is_digit c = false ->
  parse_members (S fuel) (member_text (k, x) ++ String c rest)
  = if Ascii.eqb c "}" then Some ([(k, x)], rest)
    else if Ascii.eqb c "," then
      option_map (fun lr => ((k, x) :: fst lr, snd lr)) (parse_members fuel rest)
    else None.
Proof.
  intros Hx Hf Hc.
  unfold member_text, quote. cbn [fst snd].
  rewrite !append_assoc. cbn [append parse_members].
  rewrite !append_assoc. cbn [append].
  change (Ascii.eqb dquote dquote) with true. cbv iota.
  rewrite parse_string_body_roundtrip.
  cbn [Ascii.eqb Bool.eqb]. cbv iota.
  rewrite Hx; [reflexivity | exact Hf | exact Hc].
Qed.

Lemma parse_members_roundtrip (o : list (string * JsVal)) :
  Forall (fun kv => parses (snd kv)) o -> o <> [] ->
  forall fuel rest,
    list_sum (map (fun kv => S (weight (snd kv))) o) <= fuel ->
    parse_members fuel (join "," (map member_text o) ++ String "}" rest) = Some (o, rest).
Proof.
  induction 1 as [|[k x] o Hx Ho IH]; intros Hne fuel rest Hf; [contradiction | ].
  destruct fuel as [|fuel]; [simpl in Hf; lia | ].
  simpl in Hf, Hx.
  destruct o as [|y o'].
  - cbn [map join]. rewrite parse_members_step; [reflexivity | exact Hx | simpl in Hf; lia | reflexivity].
  - change (join "," (map member_text ((k, x) :: y :: o')))
      with (member_text (k, x) ++ "," ++ join "," (map member_text (y :: o'))).
    rewrite !append_assoc. cbn [append].
    rewrite parse_members_step; [ | exact Hx | lia | reflexivity].
    cbn [Ascii.eqb Bool.eqb]. cbv iota.
    rewrite IH; [reflexivity | discriminate | lia].
Qed.

Lemma distinct_NoDup (l : list string) : distinct l = true -> NoDup l.
Proof.
  induction l as [|k l IH]; simpl; intro H; [constructor | ].
  apply andb_prop in H as [H1 H2]. constructor; [ | now apply IH].
  intro Hin. apply negb_true_iff in H1.
  assert (existsb (String.eqb k) l = true) as E
      by (apply existsb_exists; exists k; split; [exact Hin | apply String.eqb_refl]).
  congruence.
Qed.

Lemma set_prop_fresh (k : string) (v : JsVal) (o : Props) :
  ~ In k (map fst o) -> set_prop k v o = (o ++ [(k, v)])%list.
Proof.
  induction o as [|[k' v'] o IH]; simpl; intro H; [reflexivity | ].
  destruct (String.eqb k k') eqn:E.
  - apply String.eqb_eq in E. subst. exfalso. apply H. now left.
  - f_equal. apply IH. intro Hin. apply H. now right.
Qed.

Lemma object_of_members_acc (l acc : list (string * JsVal)) :
  NoDup (map fst (acc ++ l)%list) ->
  fold_left (fun o kv => set_prop (fst kv) (snd kv) o) l acc = (acc ++ l)%list.
Proof.
  revert acc. induction l as [|[k v] l IH]; intros acc H; simpl.
  - now rewrite app_nil_r.
  - rewrite set_prop_fresh.
    + rewrite IH; rewrite <- app_assoc; [reflexivity | exact H].
    + rewrite map_app in H. simpl in H. apply NoDup_remove_2 in H.
      intro Hin. apply H. apply in_or_app. now left.
Qed.

Lemma object_of_members_distinct (l : list (string * JsVal)) :
  distinct (map fst l) = true -> object_of_members l = l.
Proof.
  intro H. unfold object_of_members.
  now rewrite object_of_members_acc; [ | apply distinct_NoDup].
Qed.

Lemma parse_value_roundtrip (v : JsVal) : is_json v = true -> parses v.
Proof.
  induction v as [ | | [|] | n | s | l IH | o IH] using JsVal_nested_ind;
    intros H fuel rest Hf Hr; try discriminate H;
    (destruct fuel as [|fuel]; [simpl in Hf; lia | ]).
  - reflexivity.
  - reflexivity.
  - reflexivity.
  - now apply parse_value_number.
  - apply parse_value_string.
  - cbn [is_json] in H. cbn [weight] in Hf.
    destruct l as [|x l].
    + reflexivity.
    + assert (Hall : Forall parses (x :: l)).
      { clear Hf. induction IH as [|y l' Hy _ IHl]; [constructor | ].
        simpl in H. apply andb_prop in H as [H1 H2].
        constructor; [now apply Hy | now apply IHl]. }
      pose proof (parse_elements_roundtrip (x :: l) Hall ltac:(discriminate) fuel rest
                    ltac:(lia)) as P.
      cbn [json_text]. rewrite !append_assoc.
      destruct (json_text_head x) as (c & s & E & Hc1 & _).
      change (join "," (map json_text (x :: l)))
        with (match map json_text l with
              | [] => json_text x
              | _ :: _ => json_text x ++ "," ++ join "," (map json_text l)
              end) in *.
      assert (E2 : exists s', (match map json_text l with
              | [] => json_text x
              | _ :: _ => json_text x ++ "," ++ join "," (map json_text l)
              end) ++ String "]" rest = String c s').
      { destruct (map json_text l); rewrite E; simpl; eexists; reflexivity. }
      destruct E2 as [s' E2].
      change ("]" ++ rest) with (String "]" rest).
      rewrite E2 in *. cbn [append parse_value Ascii.eqb Bool.eqb]. cbv iota.
      rewrite Hc1. rewrite P. reflexivity.
  - cbn [is_json] in H. cbn [weight] in Hf.
    apply andb_prop in H as [Hd H].
    destruct o as [|[k x] o].
    + reflexivity.
    + assert (Hall : Forall (fun kv => parses (snd kv)) ((k, x) :: o)).
      { clear Hf Hd. induction IH as [|y l' Hy _ IHl]; [constructor | ].
        simpl in H. apply andb_prop in H as [H1 H2].
        constructor; [now apply Hy | now apply IHl]. }
      pose proof (parse_members_roundtrip ((k, x) :: o) Hall ltac:(discriminate) fuel rest
                    ltac:(lia)) as P.
      cbn [json_text]. fold member_text. rewrite !append_assoc.
      change ("}" ++ rest) with (String "}" rest).
      assert (E2 : exists s', join "," (map member_text ((k, x) :: o)) ++ String "}" rest
                              = String dquote s').
      { change (join "," (map member_text ((k, x) :: o)))
        with (match map member_text o with
              | [] => member_text (k, x)
              | _ :: _ => member_text (k, x) ++ "," ++ join "," (map member_text o)
              end).
        destruct (map member_text o); unfold member_text at 1, quote; simpl;
          eexists; reflexivity. }
      destruct E2 as [s' E2]. rewrite E2 in *.
      cbn [append parse_value Ascii.eqb Bool.eqb]. cbv iota.
      change (Ascii.eqb dquote "}") with false. cbv iota.
      rewrite P. cbn [option_map fst snd].
      now rewrite object_of_members_distinct.
Qed.

Lemma join_length_bound {A : Type} (f : A -> string) (g : A -> nat) (l : list A) :
  Forall (fun a => g a <= String.length (f a)) l ->
  list_sum (map (fun a => S (g a)) l) <= S (String.length (join "," (map f l))).
Proof.
  induction 1 as [|x l Hx _ IH]; [simpl; lia | ].
  destruct l as [|y l'].
  - simpl. lia.
  - change (join "," (map f (x :: y :: l')))
      with (f x ++ "," ++ join "," (map f (y :: l'))).
    rewrite !length_append. change (String.length ",") with 1.
    change (list_sum (map (fun a => S (g a)) (x :: y :: l')))
      with (S (g x) + list_sum (map (fun a => S (g a)) (y :: l'))).
    remember (list_sum (map (fun a => S (g a)) (y :: l'))) as total.
    remember (String.length (join "," (map f (y :: l')))) as len.
    lia.
Qed.

Lemma weight_le_length (v : JsVal) : weight v <= String.length (json_text v).
Proof.
  induction v as [ | | [|] | n | s | l IH | o IH] using JsVal_nested_ind;
    cbn [weight json_text]; try (simpl; lia).
  - destruct (Number_toString_head n) as (c & s & -> & _). simpl. lia.
  - rewrite !length_append. simpl String.length.
    pose proof (join_length_bound json_text weight l IH). lia.
  - change (map (fun kv => quote (fst kv) ++ ":" ++ json_text (snd kv)) o)
      with (map member_text o).
    rewrite !length_append.
    change (String.length "{") with 1. change (String.length "}") with 1.
    assert (H : Forall (fun kv => weight (snd kv) <= String.length (member_text kv)) o).
    { induction IH as [|kv o' Hkv _ IHo]; constructor; [ | exact IHo].
      unfold member_text. rewrite !length_append. lia. }
    pose proof (join_length_bound member_text (fun kv => weight (snd kv)) o H) as B.
    remember (list_sum (map (fun kv => S (weight (snd kv))) o)) as total.
    remember (String.length (join "," (map member_text o))) as len.
    lia.
Qed.

(** Writing a value that is all JSON and reading the text back gives the
    value. *)
Lemma JSON_roundtrip (v : JsVal) :
  is_json v = true ->
  exists text, JSON_stringify v = Some text /\ JSON_parse text = Some v.
Proof.
  intro H. exists (json_text v). split; [now apply stringify_json_text | ].
  unfold JSON_parse.
  rewrite <- (append_empty_r (json_text v)) at 2.
  rewrite (parse_value_roundtrip v H); [reflexivity | | exact I].
  pose proof (weight_le_length v). lia.
Qed.

(** ** The submitters *)

(** C2 (as the code has it): when the POST is refused or gets no answer,
    no submitter posts again. The submitter of the lifecycle script
    prints the detail (the body of the refusal, or the message of the
    transport error) and rethrows the error to its caller, which carries
    that same detail. The submitters of the two one-shot scripts print
    the detail and return normally. *)
Theorem submission_failure (w : World) (t : Trace) (message : JsVal) (proof : ProofObj)
    (url : string) :
  let body := VObj [("value", VObj (spread message)); ("proofs", VArr [ProofObj_value proof])] in
  let sent := (t ++ [EConsoleLog [LText "Transaction body: "; LPretty body]])%list in
  let answer := endpoint w sent (url ++ "/data") body in
  is_2xx answer = false ->
  (exists e,
      Lifecycle.sendTransaction message proof url w t
      = (Throw e, (sent ++ [EPost (url ++ "/data") body answer;
                            EConsoleError (failure_detail answer)])%list)
      /\ match answer with
         | StatusOther _ data => exn_response e = Some data
         | NoResponse m => exn_response e = None /\ exn_message e = m
         | Status2xx _ => False
         end)
  /\ Ethereum.sendTransaction message proof url w t
     = (Normal tt, (sent ++ [EPost (url ++ "/data") body answer;
                             EConsoleLog (failure_detail answer)])%list)
  /\ Solana.sendTransaction message proof url w t
     = (Normal tt, (sent ++ [EPost (url ++ "/data") body answer;
                             EConsoleLog (failure_detail answer)])%list).
Proof.
  intros body sent answer H.
  unfold Lifecycle.sendTransaction, Ethereum.sendTransaction, Solana.sendTransaction,
    try_catch, bind, console_log, console_error, emit, axios_post, ret, throw.
  fold body. fold sent. fold answer.
  destruct answer as [data | status data | m]; [discriminate | | ]; simpl;
    rewrite <- !app_assoc; (split; [eexists; split; [reflexivity | ] | split; reflexivity]).
  - reflexivity.
  - split; reflexivity.
Qed.

Lemma submission_failure_witness :
  exists e,
    fst (Lifecycle.sendTransaction (VObj sample_signed_command) sample_proof
           "http://localhost:9400" (sample_world key130 (always session_not_found)) [])
    = Throw e
    /\ exn_response e = Some (VObj [("error", VStr "session not found")]).
Proof.
  destruct (submission_failure (sample_world key130 (always session_not_found)) []
              (VObj sample_signed_command) sample_proof "http://localhost:9400" eq_refl)
    as ((e & He & Hr) & _).
  exists e. split; [now rewrite He | exact Hr].
Defined.

(** A refused submission in the Ethereum and in the Solana script: the
    submitter returns normally. *)
Lemma submission_swallowed_counterexample :
  is_2xx session_not_found = false
  /\ fst (Ethereum.sendTransaction (VObj sample_signed_command) sample_proof
            "http://localhost:9400" (sample_world key130 (always session_not_found)) [])
     = Normal tt
  /\ fst (Solana.sendTransaction sample_sol_message sample_proof
            "http://localhost:9400" (sample_world key130 (always (NoResponse "ECONNREFUSED"))) [])
     = Normal tt.
Proof. repeat split. Qed.

Lemma posts_app (t1 t2 : Trace) : posts (t1 ++ t2)%list = (posts t1 ++ posts t2)%list.
Proof. apply filter_app. Qed.

(** The commands the builders make from strings and integers are all
    JSON, with a signature put in as well. *)
Lemma built_commands_are_json (a b c d : string) (n : Z) :
  is_json (ethereum_command {| externalAddress := a; accessProvider := b;
                               accessObj := c; endSnapshotOrdinal := n |}) = true
  /\ is_json (solana_command {| externalAddress := a; accessProvider := b;
                                accessObj := c; endSnapshotOrdinal := n |}) = true
  /\ is_json (VObj [("CreateSession",
                     VObj (set_prop "hash" (VStr d)
                             [("accessProvider", VStr b); ("accessId", VStr a);
                              ("accessObj", VStr c); ("endSnapshotOrdinal", VNum n);
                              ("hash", VStr EmptyString)]))]) = true
  /\ is_json (Lifecycle.buildExtendSessionMessage (VStr a) (VStr b) (VNum n)) = true
  /\ is_json (Lifecycle.buildCloseSessionMessage (VStr a) (VStr b)) = true
  /\ (forall w t,
        match fst (Lifecycle.buildNotarizeSessionMessage (VStr a) (VStr b) (VStr c) (VNum n) w t) with
        | Normal m => is_json m = true
        | _ => False
        end).
Proof. repeat split. Qed.

(** C8: for a create command whose ordinal is a safe integer, the
    serializer returns the UTF-8 bytes of address, provider, object and
    ordinal put end to end, the ordinal as the decimal numeral that
    reads back as it, and the same bytes once a signature has been put
    in the signature field: that field is not part of them. The bytes
    decode to that text, so nothing else is in them. *)
Theorem serializer_bytes (w : World) (t : Trace) (f : SignedSubset) (sig : JsVal) :
  safe_integer (endSnapshotOrdinal f) = true ->
  Ethereum.serializeForEthereumSignature (ethereum_command f) w t
    = (Normal (utf8 (signed_text f)), t)
  /\ (m <- Ethereum.assignEthereumSignature (ethereum_command f) sig ;;
      Ethereum.serializeForEthereumSignature m) w t
     = (Normal (utf8 (signed_text f)), t)
  /\ Solana.serializeForSolanaSignature (solana_command f) w t
     = (Normal (utf8 (signed_text f)), t)
  /\ (m <- Solana.assignSolanaSignature (solana_command f) sig ;;
      Solana.serializeForSolanaSignature m) w t
     = (Normal (utf8 (signed_text f)), t)
  /\ utf8_decode (utf8 (signed_text f)) = signed_text f
  /\ exists numeral,
       signed_text f = externalAddress f ++ accessProvider f ++ accessObj f ++ numeral
       /\ JSON_parse numeral = Some (VNum (endSnapshotOrdinal f)).
Proof.
  intros _. repeat split.
  - apply utf8_decode_utf8.
  - destruct (JSON_roundtrip (VNum (endSnapshotOrdinal f)) eq_refl) as (text & Hs & Hp).
    injection Hs as <-. now exists (Number_toString (endSnapshotOrdinal f)).
Qed.

Lemma serializer_bytes_witness :
  Ethereum.serializeForEthereumSignature (ethereum_command subset_ab_c)
    (sample_world key130 (always session_not_found)) []
  = (Normal (utf8 "abcOwner1750"), [])
  /\ JSON_parse "750" = Some (VNum 750).
Proof.
  destruct (serializer_bytes (sample_world key130 (always session_not_found)) []
              subset_ab_c (VStr "0x1b2c") eq_refl) as (H & _ & _ & _ & _ & numeral & Hn & Hp).
  split; [exact H | ].
  apply append_cancel_l in Hn. do 2 apply append_cancel_l in Hn.
  rewrite <- Hn in Hp. exact Hp.
Defined.

Lemma stringify_json_image (v : JsVal) :
  JSON_stringify (json_image v) = JSON_stringify v.
Proof.
  induction v as [ | | [|] | n | s | l IH | o IH] using JsVal_nested_ind;
    try reflexivity.
  - cbn [json_image JSON_stringify]. rewrite map_map.
    assert (E : map (fun x => match JSON_stringify match x with
                                                  | VUndefined => VNull
                                                  | _ => json_image x
                                                  end with
                              | Some t => t
                              | None => "null"
                              end) l
                = map (fun x => match JSON_stringify x with
                                | Some t => t
                                | None => "null"
                                end) l).
    { induction IH as [|x l Hx Hl IHl]; [reflexivity | ].
      cbn [map]. rewrite IHl. f_equal.
      destruct x; try reflexivity; now rewrite Hx. }
    now rewrite E.
  - cbn [json_image JSON_stringify].
    assert (E : flat_map (fun kv => match JSON_stringify (snd kv) with
                                    | Some t => [quote (fst kv) ++ ":" ++ t]
                                    | None => []
                                    end)
                  (flat_map (fun kv => match snd kv with
                                       | VUndefined => []
                                       | _ => [(fst kv, json_image (snd kv))]
                                       end) o)
                = flat_map (fun kv => match JSON_stringify (snd kv) with
                                      | Some t => [quote (fst kv) ++ ":" ++ t]
                                      | None => []
                                      end) o).
    { induction IH as [|[k x] o Hx Ho IHo]; [reflexivity | ].
      cbn [flat_map fst snd] in *. rewrite flat_map_app, IHo. f_equal.
      destruct x; try reflexivity; cbn [flat_map fst snd]; rewrite Hx, app_nil_r;
        reflexivity. }
    now rewrite E.
Qed.

Lemma json_image_keys_sub (p : string -> bool) (o : Props) :
  existsb p (map fst (flat_map (fun kv => match snd kv with
                                          | VUndefined => []
                                          | _ => [(fst kv, json_image (snd kv))]
                                          end) o)) = true ->
  existsb p (map fst o) = true.
Proof.
  induction o as [|[k x] o IH]; [trivial | ].
  cbn [flat_map fst snd map existsb]. rewrite map_app, existsb_app.
  intro H. apply orb_true_iff in H as [H | H].
  - destruct x; cbn in H; try discriminate H; rewrite orb_false_r in H; now rewrite H.
  - rewrite (IH H). apply orb_true_r.
Qed.

Lemma json_image_distinct (o : Props) :
  distinct (map fst o) = true ->
  distinct (map fst (flat_map (fun kv => match snd kv with
                                         | VUndefined => []
                                         | _ => [(fst kv, json_image (snd kv))]
                                         end) o)) = true.
Proof.
  induction o as [|[k x] o IH]; [trivial | ].
  cbn [flat_map fst snd map distinct]. intro H. apply andb_true_iff in H as [Hk Ho].
  specialize (IH Ho).
  assert (K : negb (existsb (String.eqb k)
                      (map fst (flat_map (fun kv => match snd kv with
                                                    | VUndefined => []
                                                    | _ => [(fst kv, json_image (snd kv))]
                                                    end) o))) = true).
  { apply negb_true_iff. apply not_true_iff_false. intro E.
    apply json_image_keys_sub in E. rewrite E in Hk. discriminate Hk. }
  destruct x; cbn [app map fst distinct]; rewrite ?K, ?IH; reflexivity.
Qed.

Lemma json_image_is_json (v : JsVal) :
  well_keyed v = true -> v = VUndefined \/ is_json (json_image v) = true.
Proof.
  induction v as [ | | [|] | n | s | l IH | o IH] using JsVal_nested_ind;
    intro H; try (now right); [now left | | ]; right.
  - cbn [json_image is_json well_keyed] in *.
    induction IH as [|x l Hx Hl IHl]; [reflexivity | ].
    cbn [map forallb] in *. apply andb_true_iff in H as [H1 H2].
    rewrite (IHl H2), andb_true_r.
    destruct (Hx H1) as [-> | E]; [reflexivity | ]. destruct x; try exact E; reflexivity.
  - cbn [json_image is_json well_keyed] in *. apply andb_true_iff in H as [Hd H].
    rewrite (json_image_distinct o Hd). cbn [andb]. clear Hd.
    induction IH as [|[k x] o Hx Ho IHo]; [reflexivity | ].
    cbn [flat_map forallb fst snd] in *. apply andb_true_iff in H as [H1 H2].
    rewrite forallb_app, (IHo H2), andb_true_r.
    destruct (Hx H1) as [-> | E]; [reflexivity | ].
    destruct x; try reflexivity; cbn [forallb snd]; rewrite E; reflexivity.
Qed.

Lemma json_image_id (v : JsVal) : is_json v = true -> json_image v = v.
Proof.
  induction v as [ | | [|] | n | s | l IH | o IH] using JsVal_nested_ind;
    intro H; try reflexivity.
  - cbn [json_image is_json] in *. f_equal.
    induction IH as [|x l Hx Hl IHl]; [reflexivity | ].
    cbn [map forallb] in *. apply andb_true_iff in H as [H1 H2].
    rewrite (IHl H2). f_equal. destruct x; try discriminate H1; now apply Hx.
  - cbn [json_image is_json] in *. f_equal. apply andb_true_iff in H as [_ H].
    induction IH as [|[k x] o Hx Ho IHo]; [reflexivity | ].
    cbn [flat_map forallb fst snd] in *. apply andb_true_iff in H as [H1 H2].
    rewrite (IHo H2).
    destruct x; try discriminate H1; cbn [app]; rewrite (Hx H1); reflexivity.
Qed.

Lemma is_json_well_keyed (v : JsVal) : is_json v = true -> well_keyed v = true.
Proof.
  induction v as [ | | [|] | n | s | l IH | o IH] using JsVal_nested_ind;
    intro H; try reflexivity.
  - cbn [is_json well_keyed] in *.
    induction IH as [|x l Hx Hl IHl]; [reflexivity | ].
    cbn [forallb] in *. apply andb_true_iff in H as [H1 H2].
    now rewrite (Hx H1), (IHl H2).
  - cbn [is_json well_keyed] in *. apply andb_true_iff in H as [Hd H]. rewrite Hd.
    cbn [andb]. clear Hd. induction IH as [|[k x] o Hx Ho IHo]; [reflexivity | ].
    cbn [forallb snd] in *. apply andb_true_iff in H as [H1 H2].
    now rewrite (Hx H1), (IHo H2).
Qed.

Lemma lookup_json_image (k : string) (o : Props) :
  distinct (map fst o) = true ->
  lookup k (flat_map (fun kv => match snd kv with
                                | VUndefined => []
                                | _ => [(fst kv, json_image (snd kv))]
                                end) o)
  = match lookup k o with
    | Some VUndefined | None => None
    | Some x => Some (json_image x)
    end.
Proof.
  induction o as [|[k' x] o IH]; [reflexivity | ].
  cbn [map fst distinct]. intro H. apply andb_true_iff in H as [Hk Ho].
  cbn [flat_map fst snd lookup]. destruct (String.eqb k k') eqn:E.
  - apply String.eqb_eq in E. subst k'.
    assert (N : lookup k (flat_map (fun kv => match snd kv with
                                              | VUndefined => []
                                              | _ => [(fst kv, json_image (snd kv))]
                                              end) o) = None).
    { rewrite (IH Ho). destruct (lookup k o) eqn:L; [ | reflexivity].
      exfalso. apply negb_true_iff in Hk.
      assert (existsb (String.eqb k) (map fst o) = true); [ | congruence].
      clear - L. induction o as [|[k2 y] o IH]; [discriminate L | ].
      cbn [lookup map fst existsb] in *. destruct (String.eqb k k2); [reflexivity | ].
      now apply IH. }
    destruct x; cbn [app lookup]; rewrite ?String.eqb_refl; try reflexivity. exact N.
  - destruct x; cbn [app lookup]; rewrite ?E; now apply IH.
Qed.

(** Writing any value but [undefined] and reading the text back gives
    what JSON keeps of it. *)
Lemma JSON_image_roundtrip (v : JsVal) :
  well_keyed v = true -> v <> VUndefined ->
  exists text, JSON_stringify v = Some text /\ JSON_parse text = Some (json_image v).
Proof.
  intros H N. destruct (json_image_is_json v H) as [E | E]; [contradiction | ].
  destruct (JSON_roundtrip _ E) as (text & Hs & Hp).
  exists text. rewrite <- stringify_json_image. now split.
Qed.

Lemma lookup_Some_In (k : string) (o : Props) (v : JsVal) :
  lookup k o = Some v -> In (k, v) o.
Proof.
  induction o as [|[k' x] o IH]; [discriminate | ].
  cbn [lookup]. destruct (String.eqb k k') eqn:E.
  - apply String.eqb_eq in E. subst k'. intros [= ->]. now left.
  - intro H. right. now apply IH.
Qed.

(** C9: for a command and a proof, each submitter posts once, to
    <url>/data, the body with the command as value and the one proof in
    proofs. For a command that is all JSON the text of that body reads
    back as that body, variant tag and fields included. For any command,
    one with an undefined field too (as the id of an extend or close
    command can be), the text reads back as the body without the
    properties that were undefined: the variant tag is there and every
    field reads as it was supplied. *)
Theorem submitted_envelope_roundtrip (w : World) (t : Trace) (command : Props)
    (proof : ProofObj) (url : string) :
  (exists a, posts (snd (Ethereum.sendTransaction (VObj command) proof url w t))
             = (posts t ++ [EPost (url ++ "/data") (envelope (VObj command) proof) a])%list)
  /\ (exists a, posts (snd (Solana.sendTransaction (VObj command) proof url w t))
                = (posts t ++ [EPost (url ++ "/data") (envelope (VObj command) proof) a])%list)
  /\ (exists a, posts (snd (Lifecycle.sendTransaction (VObj command) proof url w t))
                = (posts t ++ [EPost (url ++ "/data") (envelope (VObj command) proof) a])%list)
  /\ (is_json (VObj command) = true ->
      exists text,
        JSON_stringify (envelope (VObj command) proof) = Some text
        /\ JSON_parse text = Some (envelope (VObj command) proof))
  /\ (well_keyed (VObj command) = true ->
      exists text,
        JSON_stringify (envelope (VObj command) proof) = Some text
        /\ JSON_parse text = Some (envelope (json_image (VObj command)) proof)
        /\ forall tag fields,
             lookup tag command = Some (VObj fields) ->
             exists fields',
               lookup tag (spread (json_image (VObj command))) = Some (VObj fields')
               /\ forall k,
                    field k fields = VUndefined \/ is_json (field k fields) = true ->
                    field k fields' = field k fields).
Proof.
  split; [ | split; [ | split; [ | split]]].
  - unfold Ethereum.sendTransaction, try_catch, bind, console_log, emit, axios_post, ret, spread.
    match goal with |- context [endpoint ?w ?t ?u ?b] => exists (endpoint w t u b);
      destruct (endpoint w t u b) end; simpl; rewrite !posts_app; simpl;
      now rewrite !app_nil_r.
  - unfold Solana.sendTransaction, try_catch, bind, console_log, emit, axios_post, ret, spread.
    match goal with |- context [endpoint ?w ?t ?u ?b] => exists (endpoint w t u b);
      destruct (endpoint w t u b) end; simpl; rewrite !posts_app; simpl;
      now rewrite !app_nil_r.
  - unfold Lifecycle.sendTransaction, try_catch, bind, console_log, console_error, emit,
      axios_post, ret, throw, spread.
    match goal with |- context [endpoint ?w ?t ?u ?b] => exists (endpoint w t u b);
      destruct (endpoint w t u b) end; simpl; rewrite !posts_app; simpl;
      now rewrite !app_nil_r.
  - intro H. apply JSON_roundtrip.
    unfold envelope. cbn [is_json map fst snd distinct existsb negb andb forallb String.eqb
                          Ascii.eqb Bool.eqb orb ProofObj_value] in *.
    now rewrite H.
  - intro H.
    assert (Hw : well_keyed (envelope (VObj command) proof) = true).
    { unfold envelope.
      cbn [well_keyed map fst snd distinct existsb negb andb forallb String.eqb
             Ascii.eqb Bool.eqb orb ProofObj_value] in *.
      now rewrite H. }
    destruct (JSON_image_roundtrip _ Hw ltac:(discriminate)) as (text & Hs & Hp).
    exists text. split; [exact Hs | ]. split; [exact Hp | ].
    intros tag fields L.
    cbn [well_keyed] in H. apply andb_true_iff in H as [Hd Hv].
    cbn [json_image spread]. rewrite (lookup_json_image tag command Hd), L.
    cbn [json_image]. eexists. split; [reflexivity | ].
    assert (Hf : distinct (map fst fields) = true).
    { apply lookup_Some_In in L.
      pose proof (proj1 (forallb_forall _ _) Hv _ L) as K.
      cbn [snd well_keyed] in K. now apply andb_true_iff in K as [K _]. }
    intros k Hk. unfold field in *. rewrite (lookup_json_image k fields Hf).
    destruct (lookup k fields) as [x | ]; [ | reflexivity].
    destruct Hk as [-> | Hk]; [reflexivity | ].
    destruct x; try reflexivity; try discriminate Hk; now rewrite (json_image_id _ Hk).
Qed.

Lemma submitted_envelope_roundtrip_witness :
  (exists text,
      JSON_stringify (envelope (VObj sample_signed_command) sample_proof) = Some text
      /\ JSON_parse text = Some (envelope (VObj sample_signed_command) sample_proof))
  /\ (exists text,
         JSON_stringify
           (envelope (Lifecycle.buildExtendSessionMessage VUndefined
                        (VStr "DAG4validatorAddress") (VNum 24000)) sample_proof) = Some text
         /\ JSON_parse text
            = Some (envelope
                      (VObj [("ExtendSession",
                              VObj [("accessProvider", VStr "DAG4validatorAddress");
                                    ("endSnapshotOrdinal", VNum 24000)])])
                      sample_proof)).
Proof.
  split.
  - apply (proj1 (proj2 (proj2 (proj2
             (submitted_envelope_roundtrip (sample_world key130 (always session_not_found)) []
                sample_signed_command sample_proof "http://localhost:9400")))) eq_refl).
  - destruct (proj2 (proj2 (proj2 (proj2
               (submitted_envelope_roundtrip (sample_world key130 (always session_not_found)) []
                  (spread (Lifecycle.buildExtendSessionMessage VUndefined
                             (VStr "DAG4validatorAddress") (VNum 24000)))
                  sample_proof "http://localhost:9400")))) eq_refl)
      as (text & Hs & Hp & _).
    exists text. split; [exact Hs | exact Hp].
Defined.

(** ** The session lifecycle *)

Lemma get_prop_cases (d : JsVal) (k : string) :
  (exists v, forall w t, get_prop d k w t = (Normal v, t))
  \/ (exists e, forall w t, get_prop d k w t = (Throw e, t)).
Proof.
  destruct d; simpl; try (left; eexists; reflexivity); right; eexists; reflexivity.
Qed.

Ltac unfold_run :=
  cbv beta iota zeta delta
    [bind ret throw try_catch emit console_log console_error sleep process_exit
     exn_response exn_message
     login_and_connect Date_now dataSign axios_post Buffer_base64_of_JSON spread
     Lifecycle.main Lifecycle.session_operations Lifecycle.createSession
     Lifecycle.extendSession Lifecycle.closeSession Lifecycle.sendTransaction
     Lifecycle.generateDag4Proof Lifecycle.buildNotarizeSessionMessage
     Lifecycle.buildExtendSessionMessage Lifecycle.buildCloseSessionMessage
     fst snd app].

Ltac answer :=
  match goal with
  | |- context [match JSON_stringify ?m with _ => _ end] =>
      let T := fresh "text" in destruct (JSON_stringify m) as [T|]
  | |- context [match keyStore_dataSign ?w ?t ?k ?p with _ => _ end] =>
      let R := fresh "signed" in
      destruct (keyStore_dataSign w t k p) as [R|R]
  | |- context [match endpoint ?w ?t ?u ?b with _ => _ end] =>
      let A := fresh "answer" in
      destruct (endpoint w t u b) as [A|? A|A]
  | |- context [get_prop ?d ?k ?w ?t] =>
      let sid := fresh "sid" in
      let H := fresh "H" in
      destruct (get_prop_cases d k) as [[sid H] | [sid H]];
      rewrite !H
  | |- context [Date_toISOString ?w ?t] =>
      let R := fresh "reading" in generalize (Date_toISOString w t); intro R
  end; unfold_run.

Lemma main_run_facts w env : run_facts w env (Lifecycle.main env w []).
Proof.
  unfold Lifecycle.main.
  destruct (env_falsy (WALLET_PRIVATE_KEY env) || env_falsy (METAGRAPH_L1_DATA_URL env)) eqn:E.
  - repeat split.
  - set (key := env_value (WALLET_PRIVATE_KEY env)).
    set (url := env_value (METAGRAPH_L1_DATA_URL env)).
    set (account := createAccount w key).
    unfold_run. repeat answer.
    all: (cbv beta iota zeta delta [run_facts first_answer posts filter is_post fst snd];
          repeat match goal with
                 | H : forall w t, get_prop _ _ w t = _ |- _ => rewrite ?H; clear H
                 end;
          repeat split).
Qed.

Lemma halts_on_failure_spec (t pre post : Trace) (e : Event) :
  halts_on_failure t = true -> t = (pre ++ e :: post)%list -> is_failure e = true ->
  forallb is_console_error post = true.
Proof.
  intros H -> He. induction pre as [|x pre IH]; simpl in H.
  - now rewrite He in H.
  - destruct (is_failure x); [ | now apply IH].
    rewrite forallb_app in H. apply andb_prop in H as [_ H]. simpl in H.
    destruct e; try discriminate He; discriminate H.
Qed.

Lemma existsb_failure_middle (pre post : Trace) (e : Event) :
  is_failure e = true -> existsb is_failure (pre ++ e :: post)%list = true.
Proof.
  intro He. rewrite existsb_app. simpl. rewrite He. now rewrite orb_true_r.
Qed.

(** C7: in every run of the lifecycle script, once a signing or a POST
    has failed, all that follows is error output (no later command is
    logged, signed or posted, nothing is sent to make up for the
    earlier steps) and the process exits with status 1. *)
Theorem failure_halts_sequence (w : World) (env : Env) (pre post : Trace) (e : Event) :
  snd (Lifecycle.main env w []) = (pre ++ e :: post)%list ->
  is_failure e = true ->
  forallb is_console_error post = true /\ fst (Lifecycle.main env w []) = Exit 1.
Proof.
  intros Ht He.
  destruct (main_run_facts w env) as (H1 & H2 & _).
  split; [now apply (halts_on_failure_spec _ pre post e H1 Ht) | ].
  rewrite Ht, (existsb_failure_middle pre post e He) in H2.
  destruct (fst (Lifecycle.main env w [])) as [[] | x | c]; try contradiction.
  destruct c as [|[ | | ]|]; try contradiction. reflexivity.
Qed.

Lemma failure_halts_sequence_witness :
  forallb is_console_error (skipn 18 scenario_B_trace) = true
  /\ fst (Lifecycle.main sample_env scenario_B_world []) = Exit 1.
Proof.
  apply (failure_halts_sequence scenario_B_world sample_env
           (firstn 17 scenario_B_trace) (skipn 18 scenario_B_trace)
           (nth 17 scenario_B_trace (ESleep 0))).
  - vm_compute. reflexivity.
  - vm_compute. reflexivity.
Defined.

(** Scenario B: the extend request is refused; two requests were posted
    and no close command was ever built. *)
Example scenario_B_stops_before_close :
  List.length (posts scenario_B_trace) = 2
  /\ logged_pretty "Extending session with message: " scenario_B_trace
     = Some (Lifecycle.buildExtendSessionMessage (VStr "abc123")
               (VStr "DAG4validatorAddress") (VNum 24000))
  /\ logged_pretty "Closing session with message: " scenario_B_trace = None.
Proof. vm_compute. repeat split. Qed.

(** C3 (as the code has it): when the create request is answered 2xx,
    the session id the run keeps (prints, and puts into the extend
    command) is whatever reading [hash] off the answer gives, [undefined]
    when there is none; only when that reading throws (the answer is
    null or undefined) does the run stop, with status 1 and no further
    request. *)
Theorem session_id_from_create_response (w : World) (env : Env) (data : JsVal) :
  first_answer (snd (Lifecycle.main env w [])) = Some (Status2xx data) ->
  (forall sid,
      fst (get_prop data "hash" w []) = Normal sid ->
      logged_value "Session hash/id:" (snd (Lifecycle.main env w [])) = Some sid
      /\ logged_pretty "Extending session with message: " (snd (Lifecycle.main env w []))
         = Some (Lifecycle.buildExtendSessionMessage sid
                   (VStr (address (createAccount w (env_value (WALLET_PRIVATE_KEY env)))))
                   (VNum 24000)))
  /\ (forall e,
        fst (get_prop data "hash" w []) = Throw e ->
        fst (Lifecycle.main env w []) = Exit 1
        /\ List.length (posts (snd (Lifecycle.main env w []))) = 1).
Proof.
  intro Hp.
  destruct (main_run_facts w env) as (_ & _ & _ & H).
  rewrite Hp in H.
  split.
  - intros sid Hs. now rewrite Hs in H.
  - intros e He. rewrite He in H. destruct H as [H1 H2]. split; [ | exact H2].
    destruct (fst (Lifecycle.main env w [])) as [[] | x | c]; try contradiction.
    destruct c as [|[ | | ]|]; try contradiction. reflexivity.
Qed.

Lemma session_id_from_create_response_witness :
  logged_value "Session hash/id:" scenario_B_trace = Some (VStr "abc123").
Proof.
  apply (session_id_from_create_response scenario_B_world sample_env
           (VObj [("hash", VStr "abc123")])).
  - vm_compute. reflexivity.
  - reflexivity.
Defined.

(** A create request answered 2xx without a hash: the run does not fail,
    it keeps [undefined] as session id and posts the extend and the close
    command. *)
Lemma missing_hash_counterexample :
  first_answer (snd (Lifecycle.main sample_env no_hash_world []))
  = Some (Status2xx (VObj [("status", VStr "accepted")]))
  /\ fst (Lifecycle.main sample_env no_hash_world []) = Normal tt
  /\ logged_value "Session hash/id:" (snd (Lifecycle.main sample_env no_hash_world []))
     = Some VUndefined
  /\ List.length (posts (snd (Lifecycle.main sample_env no_hash_world []))) = 3.
Proof. vm_compute. repeat split. Qed.

(** * Further properties *)

(** ** The encodings read back *)

Lemma below_256_listed (n : N) : (n < 256)%N -> In n (map N.of_nat (seq 0 256)).
Proof.
  intro H. rewrite <- (N2Nat.id n). apply in_map. apply in_seq. lia.
Qed.

Lemma forall_below_256 (f : N -> bool) :
  forallb f (map N.of_nat (seq 0 256)) = true ->
  forall n, (n < 256)%N -> f n = true.
Proof.
  intros H n Hn. rewrite forallb_forall in H. apply H. now apply below_256_listed.
Qed.

Lemma forall_pairs_below_256 (f : N -> N -> bool) :
  forallb (fun x => forallb (f x) (map N.of_nat (seq 0 256))) (map N.of_nat (seq 0 256)) = true ->
  forall x y, (x < 256)%N -> (y < 256)%N -> f x y = true.
Proof.
  intros H x y Hx Hy.
  apply (forall_below_256 (f x)); [ | exact Hy].
  apply (forall_below_256 (fun x => forallb (f x) (map N.of_nat (seq 0 256))) H x Hx).
Qed.

Lemma byte_below_256 (b : byte) : (Byte.to_N b < 256)%N.
Proof. pose proof (Byte.to_N_bounded b). lia. Qed.

Lemma sextets (x y : N) :
  (x < 256)%N -> (y < 256)%N -> sextets_ok x y = true.
Proof. apply forall_pairs_below_256. vm_compute. reflexivity. Qed.

Lemma digit_value (d : N) :
  (d < 64)%N ->
  base64_value (base64_digit d) = Some d /\ Ascii.eqb (base64_digit d) "=" = false.
Proof.
  intro H.
  assert (K : digit_ok d = true) by (apply forall_below_256; [vm_compute; reflexivity | lia]).
  unfold digit_ok in K. apply N.ltb_lt in H. rewrite H in K.
  apply andb_prop in K as [K1 K2].
  destruct (base64_value (base64_digit d)) as [d'|]; [ | discriminate].
  apply N.eqb_eq in K1. subst d'. split; [reflexivity | now apply negb_true_iff].
Qed.

Lemma list_ind3 {A : Type} (P : list A -> Prop) :
  P [] -> (forall a, P [a]) -> (forall a b, P [a; b]) ->
  (forall a b c l, P l -> P (a :: b :: c :: l)) ->
  forall l, P l.
Proof.
  intros H0 H1 H2 H3.
  fix IH 1. intros [|a [|b [|c l]]]; [exact H0 | apply H1 | apply H2 | ].
  apply H3. apply IH.
Qed.

Ltac sextet_facts x y :=
  let H := fresh "S" in
  pose proof (sextets x y ltac:(apply byte_below_256 || reflexivity)
                ltac:(apply byte_below_256 || reflexivity)) as H;
  unfold sextets_ok in H; cbv zeta in H;
  repeat (apply andb_prop in H; let K := fresh "S" in destruct H as [H K]);
  repeat match goal with
         | K : (_ <? _)%N = true |- _ => apply N.ltb_lt in K
         | K : (_ =? _)%N = true |- _ => apply N.eqb_eq in K
         end.

Lemma base64_decode_base64 (bs : list byte) : base64_decode (base64 bs) = Some bs.
Proof.
  induction bs as [ | a | a b | a b c l IH] using list_ind3.
  - reflexivity.
  - sextet_facts (Byte.to_N a) 0%N.
    cbn [base64 base64_decode].
    match goal with
    | H : (N.shiftr (Byte.to_N a) 2 < 64)%N |- _ => destruct (digit_value _ H) as [-> _]
    end.
    rewrite N.shiftr_0_l, N.lor_0_r in *.
    match goal with
    | H : (N.shiftl (N.land (Byte.to_N a) 3) 4 < 64)%N |- _ =>
        destruct (digit_value _ H) as [-> _]
    end.
    cbn [Ascii.eqb Bool.eqb andb String.eqb bytes_of fold_right].
    match goal with H : N.lor _ _ = Byte.to_N a |- _ => rewrite H end.
    now rewrite Byte.of_to_N.
  - sextet_facts (Byte.to_N a) (Byte.to_N b). sextet_facts (Byte.to_N b) 0%N.
    cbn [base64 base64_decode].
    rewrite N.shiftr_0_l, N.lor_0_r in *.
    repeat match goal with
           | H : (?d < 64)%N |- context [base64_value (base64_digit ?d)] =>
               let E1 := fresh in let E2 := fresh in
               destruct (digit_value d H) as [E1 E2]; rewrite ?E1, ?E2; clear E1 E2
           end.
    cbn [Ascii.eqb Bool.eqb andb String.eqb bytes_of fold_right].
    repeat match goal with
           | H : _ = _ |- _ => rewrite H
           end.
    now rewrite !Byte.of_to_N.
  - sextet_facts (Byte.to_N a) (Byte.to_N b). sextet_facts (Byte.to_N b) (Byte.to_N c).
    cbn [base64 base64_decode]. rewrite IH.
    repeat match goal with
           | H : (?d < 64)%N |- context [base64_value (base64_digit ?d)] =>
               let E1 := fresh in let E2 := fresh in
               destruct (digit_value d H) as [E1 E2]; rewrite ?E1, ?E2; clear E1 E2
           end.
    cbn [bytes_of fold_right option_map].
    repeat match goal with
           | H : _ = _ |- _ => rewrite H
           end.
    now rewrite !Byte.of_to_N.
Qed.




(** X1: the payload a proof generator hands to the key store for a
    message that is all JSON can be read back: base64 to bytes, bytes to
    text, text to a value gives the message. So the validator signature is
    over the whole message, and two different messages are never signed
    under one payload. The generator asks the key store once. *)
Theorem signed_payload_reads_back (w : World) (t : Trace) (message : JsVal)
    (key : string) (account : Account) :
  is_json message = true ->
  exists payload,
    decode_payload payload = Some message
    /\ snd (Basic.generateProof message key account w t)
       = (t ++ [EDataSign key payload (keyStore_dataSign w t key payload)])%list
    /\ snd (Ethereum.generateDag4Proof message key account w t)
       = (t ++ [EDataSign key payload (keyStore_dataSign w t key payload)])%list
    /\ snd (Solana.generateDag4Proof message key account w t)
       = (t ++ [EDataSign key payload (keyStore_dataSign w t key payload)])%list
    /\ snd (Lifecycle.generateDag4Proof message key account w t)
       = (t ++ [EDataSign key payload (keyStore_dataSign w t key payload)])%list.
Proof.
  intro H. destruct (JSON_roundtrip message H) as (text & Hs & Hp).
  exists (base64 (utf8 text)). split.
  - unfold decode_payload. now rewrite base64_decode_base64, utf8_decode_utf8.
  - destruct (generators_agree w t message key account) as (-> & -> & ->).
    rewrite generateProof_run, Hs. repeat split.
Qed.

Lemma signed_payload_reads_back_witness :
  exists payload,
    decode_payload payload = Some (VObj sample_signed_command)
    /\ snd (Basic.generateProof (VObj sample_signed_command) "k" (sample_account key130)
              (sample_world key130 (always (Status2xx VNull))) [])
       = [EDataSign "k" payload (inr ("signed:" ++ payload))].
Proof.
  destruct (signed_payload_reads_back (sample_world key130 (always (Status2xx VNull))) []
              (VObj sample_signed_command) "k" (sample_account key130) eq_refl)
    as (payload & Hd & Hb & _).
  exists payload. split; [exact Hd | exact Hb].
Defined.





(** ** Serializers and embedders at the edges *)

Lemma append_inj_length (a1 a2 r1 r2 : string) :
  String.length a1 = String.length a2 -> a1 ++ r1 = a2 ++ r2 -> a1 = a2 /\ r1 = r2.
Proof.
  revert a2. induction a1 as [|c a1 IH]; intros [|d a2] L E; simpl in *; try discriminate L.
  - now split.
  - injection E as -> E. injection L as L. destruct (IH a2 L E) as [-> ->]. now split.
Qed.

Lemma signed_text_inj_fixed_lengths (f g : SignedSubset) :
  String.length (externalAddress f) = String.length (externalAddress g) ->
  String.length (accessProvider f) = String.length (accessProvider g) ->
  String.length (accessObj f) = String.length (accessObj g) ->
  signed_text f = signed_text g -> f = g.
Proof.
  destruct f as [a1 p1 o1 n1], g as [a2 p2 o2 n2]. unfold signed_text. simpl.
  intros La Lp Lo E.
  apply (append_inj_length _ _ _ _ La) in E as [-> E].
  apply (append_inj_length _ _ _ _ Lp) in E as [-> E].
  apply (append_inj_length _ _ _ _ Lo) in E as [-> E].
  apply Number_toString_inj in E. now subst.
Qed.

(** X4: when the address, the provider and the object of two create
    commands have the same lengths (as addresses of one chain have), the
    bytes to sign tell the commands apart: equal bytes, equal signed
    fields. *)
Theorem serializers_injective_on_fixed_lengths (f g : SignedSubset)
    (w w' : World) (t t' : Trace) :
  String.length (externalAddress f) = String.length (externalAddress g) ->
  String.length (accessProvider f) = String.length (accessProvider g) ->
  String.length (accessObj f) = String.length (accessObj g) ->
  (fst (Ethereum.serializeForEthereumSignature (ethereum_command f) w t)
   = fst (Ethereum.serializeForEthereumSignature (ethereum_command g) w' t') -> f = g)
  /\ (fst (Solana.serializeForSolanaSignature (solana_command f) w t)
      = fst (Solana.serializeForSolanaSignature (solana_command g) w' t') -> f = g).
Proof.
  intros La Lp Lo.
  rewrite !ethereum_command_bytes, !solana_command_bytes. simpl fst.
  split; intros [= E]; apply utf8_inj in E;
    now apply signed_text_inj_fixed_lengths.
Qed.

Lemma serializers_injective_on_fixed_lengths_witness :
  fst (Ethereum.serializeForEthereumSignature (ethereum_command subset_a_bc)
         (sample_world key130 (always (Status2xx VNull))) [])
  = fst (Ethereum.serializeForEthereumSignature (ethereum_command subset_a_bc)
           (sample_world key128 (always (NoResponse "down"))) [ESleep 1])
  /\ subset_a_bc = subset_a_bc.
Proof.
  split; [reflexivity | ].
  apply (proj1 (serializers_injective_on_fixed_lengths subset_a_bc subset_a_bc
                  (sample_world key130 (always (Status2xx VNull)))
                  (sample_world key128 (always (NoResponse "down"))) [] [ESleep 1]
                  eq_refl eq_refl eq_refl)).
  reflexivity.
Defined.

(** With the object and the ordinal of different lengths the bytes do
    not tell: Owner1 with 750 and Owner17 with 50. *)
Example object_ordinal_collision :
  Ethereum.serializeForEthereumSignature
    (Ethereum.buildCreateSessionMessage (VStr "DAG") (VStr "0xETH") (VStr "Owner1") (VNum 750))
    (sample_world key130 (always (Status2xx VNull))) []
  = Ethereum.serializeForEthereumSignature
      (Ethereum.buildCreateSessionMessage (VStr "DAG") (VStr "0xETH") (VStr "Owner17") (VNum 50))
      (sample_world key130 (always (Status2xx VNull))) [].
Proof. reflexivity. Qed.

Lemma lookup_None_not_In (k : string) (o : Props) :
  lookup k o = None -> ~ In k (map fst o).
Proof.
  induction o as [|[k' v] o IH]; simpl; intro H; [intros [] | intros [E | E]].
  - subst k'. now rewrite String.eqb_refl in H.
  - destruct (String.eqb k k'); [discriminate | now apply IH].
Qed.

(** X5: a serializer or an embedder given a message that does not carry
    its variant (a command of the other script, an extend or a close
    command, an empty object) throws a TypeError and has done nothing. *)
Theorem wrong_variant_throws (w : World) (t : Trace) (m : Props) (sig : JsVal) :
  (lookup "CreateSession" m = None ->
   (exists msg, Ethereum.serializeForEthereumSignature (VObj m) w t = (Throw (TypeError msg), t))
   /\ (exists msg, Ethereum.assignEthereumSignature (VObj m) sig w t
                   = (Throw (TypeError msg), t)))
  /\ (lookup "CreateSolSession" m = None ->
      (exists msg, Solana.serializeForSolanaSignature (VObj m) w t = (Throw (TypeError msg), t))
      /\ (exists msg, Solana.assignSolanaSignature (VObj m) sig w t
                      = (Throw (TypeError msg), t))).
Proof.
  split; intro H; split; eexists;
    unfold Ethereum.serializeForEthereumSignature, Ethereum.assignEthereumSignature,
      Solana.serializeForSolanaSignature, Solana.assignSolanaSignature,
      assign_member, bind, get_prop, ret, throw;
    rewrite H; reflexivity.
Qed.

Lemma wrong_variant_throws_witness :
  (exists msg,
      Ethereum.serializeForEthereumSignature sample_sol_message
        (sample_world key130 (always (Status2xx VNull))) [] = (Throw (TypeError msg), []))
  /\ (exists msg,
         Solana.assignSolanaSignature sample_create_message (VStr "sig")
           (sample_world key130 (always (Status2xx VNull))) [] = (Throw (TypeError msg), [])).
Proof.
  split.
  - apply (proj1 (wrong_variant_throws (sample_world key130 (always (Status2xx VNull))) []
                    [("CreateSolSession",
                      VObj [("accessProvider", VStr "DAG_ADDR");
                            ("solanaAddress", VStr "QWERTYUIOPASDFGHJKLZXCVBNMQWERTY");
                            ("accessObj", VStr "Owner1");
                            ("endSnapshotOrdinal", VNum 750);
                            ("solanaSignature", VStr EmptyString)])]
                    (VStr "sig"))).
    reflexivity.
  - apply (proj2 (wrong_variant_throws (sample_world key130 (always (Status2xx VNull))) []
                    [("CreateSession",
                      VObj [("accessProvider", VStr "DAG_ADDR");
                            ("accessId", VStr "0xETH");
                            ("accessObj", VStr "Owner1");
                            ("endSnapshotOrdinal", VNum 750);
                            ("hash", VStr EmptyString)])]
                    (VStr "sig"))).
    reflexivity.
Defined.





(** X7: an embedder given a command whose variant has no signature field
    yet adds the field as the last one and keeps the others as they are,
    in their order. *)
Theorem embedder_adds_missing_field (w : World) (t : Trace) (m o : Props) (sig : JsVal) :
  (lookup "CreateSession" m = Some (VObj o) -> lookup "hash" o = None ->
   Ethereum.assignEthereumSignature (VObj m) sig w t
   = (Normal (VObj (set_prop "CreateSession" (VObj (o ++ [("hash", sig)])%list) m)), t))
  /\ (lookup "CreateSolSession" m = Some (VObj o) -> lookup "solanaSignature" o = None ->
      Solana.assignSolanaSignature (VObj m) sig w t
      = (Normal (VObj (set_prop "CreateSolSession"
                         (VObj (o ++ [("solanaSignature", sig)])%list) m)), t)).
Proof.
  split; intros H K;
    unfold Ethereum.assignEthereumSignature, Solana.assignSolanaSignature;
    rewrite (assign_member_run w t m o _ _ sig H);
    now rewrite (set_prop_fresh _ sig o (lookup_None_not_In _ o K)).
Qed.

Lemma embedder_adds_missing_field_witness :
  Ethereum.assignEthereumSignature
    (VObj [("CreateSession", VObj [("accessId", VStr "0xETH")])]) (VStr "0xsig")
    (sample_world key130 (always (Status2xx VNull))) []
  = (Normal (VObj [("CreateSession", VObj [("accessId", VStr "0xETH"); ("hash", VStr "0xsig")])]),
     []).
Proof.
  apply (proj1 (embedder_adds_missing_field (sample_world key130 (always (Status2xx VNull))) []
                  [("CreateSession", VObj [("accessId", VStr "0xETH")])]
                  [("accessId", VStr "0xETH")] (VStr "0xsig")));
    reflexivity.
Defined.

(** ** The flows *)

(** A proof generator on a message that is an object. *)
Lemma generate_object_run (w : World) (t : Trace) (o : Props) (key : string)
    (account : Account) :
  Lifecycle.generateDag4Proof (VObj o) key account w t
  = (match keyStore_dataSign w t key (payload_of (VObj o)) with
     | inr s => Normal {| id := proof_id_of account; signature := s |}
     | inl e => Throw e
     end,
     (t ++ [EDataSign key (payload_of (VObj o))
              (keyStore_dataSign w t key (payload_of (VObj o)))])%list).
Proof.
  rewrite (proj2 (proj2 (generators_agree w t (VObj o) key account))).
  rewrite generateProof_run. reflexivity.
Qed.

Ltac unfold_flow :=
  cbv beta iota zeta delta
    [bind ret throw try_catch emit console_log console_error sleep process_exit
     exn_response exn_message
     login_and_connect Date_now axios_post spread
     Lifecycle.main Lifecycle.session_operations Lifecycle.createSession
     Lifecycle.extendSession Lifecycle.closeSession Lifecycle.sendTransaction
     Lifecycle.buildNotarizeSessionMessage
     Lifecycle.buildExtendSessionMessage Lifecycle.buildCloseSessionMessage
     EthereumScript.main EthereumScript.getEthereumWallet EthereumScript.signWithEthereum
     SolanaScript.main SolanaScript.getSolanaWallet SolanaScript.signWithSolana
     Ethereum.sendTransaction Solana.sendTransaction
     BasicScript.sendDataTransaction BasicScript.sendDataTransactionsUsingUrls
     BasicScript.loginPrivateKey_and_connect
     BasicScript.buildCreateSessionMessage Basic.buildMessage
     fst snd app].

Ltac flow_step :=
  match goal with
  | |- context [Lifecycle.generateDag4Proof (VObj ?o) ?k ?a ?w ?t] =>
      rewrite (generate_object_run w t o k a)
  | |- context [match keyStore_dataSign ?w ?t ?k ?p with _ => _ end] =>
      let R := fresh "signed" in
      destruct (keyStore_dataSign w t k p) as [R|R]
  | |- context [match endpoint ?w ?t ?u ?b with _ => _ end] =>
      let A := fresh "answer" in
      destruct (endpoint w t u b) as [A|? A|A]
  | |- context [get_prop ?d ?k ?w ?t] =>
      let sid := fresh "sid" in
      let H := fresh "H" in
      destruct (get_prop_cases d k) as [[sid H] | [sid H]];
      rewrite !H
  | |- context [Date_toISOString ?w ?t] =>
      let R := fresh "reading" in generalize (Date_toISOString w t); intro R
  end; unfold_flow.

Lemma main_lifecycle_facts (w : World) (env : Env) :
  lifecycle_facts w env (Lifecycle.main env w []).
Proof.
  unfold Lifecycle.main.
  destruct (env_falsy (WALLET_PRIVATE_KEY env) || env_falsy (METAGRAPH_L1_DATA_URL env)) eqn:E.
  - unfold lifecycle_facts. rewrite E. repeat split; auto.
  - unfold_flow. repeat flow_step.
    all: (cbv beta iota zeta delta [lifecycle_facts first_answer posts filter is_post fst snd];
          rewrite ?E;
          repeat match goal with
                 | H : forall w t, get_prop _ _ w t = _ |- _ => rewrite ?H; clear H
                 end;
          repeat split; auto).
Qed.


Lemma generate_object_run_basic (w : World) (t : Trace) (o : Props) (key : string)
    (account : Account) :
  Basic.generateProof (VObj o) key account w t
  = (match keyStore_dataSign w t key (payload_of (VObj o)) with
     | inr s => Normal {| id := proof_id_of account; signature := s |}
     | inl e => Throw e
     end,
     (t ++ [EDataSign key (payload_of (VObj o))
              (keyStore_dataSign w t key (payload_of (VObj o)))])%list).
Proof. rewrite generateProof_run. reflexivity. Qed.

Lemma generate_object_run_ethereum (w : World) (t : Trace) (o : Props) (key : string)
    (account : Account) :
  Ethereum.generateDag4Proof (VObj o) key account w t
  = (match keyStore_dataSign w t key (payload_of (VObj o)) with
     | inr s => Normal {| id := proof_id_of account; signature := s |}
     | inl e => Throw e
     end,
     (t ++ [EDataSign key (payload_of (VObj o))
              (keyStore_dataSign w t key (payload_of (VObj o)))])%list).
Proof. apply generate_object_run_basic. Qed.

Lemma generate_object_run_solana (w : World) (t : Trace) (o : Props) (key : string)
    (account : Account) :
  Solana.generateDag4Proof (VObj o) key account w t
  = (match keyStore_dataSign w t key (payload_of (VObj o)) with
     | inr s => Normal {| id := proof_id_of account; signature := s |}
     | inl e => Throw e
     end,
     (t ++ [EDataSign key (payload_of (VObj o))
              (keyStore_dataSign w t key (payload_of (VObj o)))])%list).
Proof. apply generate_object_run_basic. Qed.

Lemma ethereum_serialize_built (w : World) (t : Trace) (ap aid ao : string) (n : Z) :
  Ethereum.serializeForEthereumSignature
    (Ethereum.buildCreateSessionMessage (VStr ap) (VStr aid) (VStr ao) (VNum n)) w t
  = (Normal (utf8 (aid ++ ap ++ ao ++ Number_toString n)), t).
Proof. reflexivity. Qed.

Lemma ethereum_assign_built (w : World) (t : Trace) (ap aid ao n sig : JsVal) :
  Ethereum.assignEthereumSignature (Ethereum.buildCreateSessionMessage ap aid ao n) sig w t
  = (Normal (VObj [("CreateSession",
                    VObj [("accessProvider", ap); ("accessId", aid); ("accessObj", ao);
                          ("endSnapshotOrdinal", n); ("hash", sig)])]), t).
Proof. reflexivity. Qed.

Lemma solana_serialize_built (w : World) (t : Trace) (ap sa ao : string) (n : Z) :
  Solana.serializeForSolanaSignature
    (Solana.buildCreateSolSessionMessage (VStr ap) (VStr sa) (VStr ao) (VNum n)) w t
  = (Normal (utf8 (sa ++ ap ++ ao ++ Number_toString n)), t).
Proof. reflexivity. Qed.

Lemma solana_assign_built (w : World) (t : Trace) (ap sa ao n sig : JsVal) :
  Solana.assignSolanaSignature (Solana.buildCreateSolSessionMessage ap sa ao n) sig w t
  = (Normal (VObj [("CreateSolSession",
                    VObj [("accessProvider", ap); ("solanaAddress", sa); ("accessObj", ao);
                          ("endSnapshotOrdinal", n); ("solanaSignature", sig)])]), t).
Proof. reflexivity. Qed.

Ltac oneshot_step :=
  match goal with
  | H : env_falsy ?x = _ |- context [env_falsy ?x] => rewrite H
  | H : EthereumScript.wallet_signMessage ?x ?b = _
    |- context [EthereumScript.wallet_signMessage ?x ?b] => rewrite H
  | H : SolanaScript.nacl_sign_detached ?l ?b ?k = _
    |- context [SolanaScript.nacl_sign_detached ?l ?b ?k] => rewrite H
  | |- context [Ethereum.serializeForEthereumSignature
                  (Ethereum.buildCreateSessionMessage (VStr ?ap) (VStr ?aid) (VStr ?ao)
                     (VNum ?n)) ?w ?t] =>
      rewrite (ethereum_serialize_built w t ap aid ao n)
  | |- context [Ethereum.assignEthereumSignature
                  (Ethereum.buildCreateSessionMessage ?ap ?aid ?ao ?n) ?sig ?w ?t] =>
      rewrite (ethereum_assign_built w t ap aid ao n sig)
  | |- context [Solana.serializeForSolanaSignature
                  (Solana.buildCreateSolSessionMessage (VStr ?ap) (VStr ?aid) (VStr ?ao)
                     (VNum ?n)) ?w ?t] =>
      rewrite (solana_serialize_built w t ap aid ao n)
  | |- context [Solana.assignSolanaSignature
                  (Solana.buildCreateSolSessionMessage ?ap ?aid ?ao ?n) ?sig ?w ?t] =>
      rewrite (solana_assign_built w t ap aid ao n sig)
  | |- context [Ethereum.generateDag4Proof (VObj ?o) ?k ?a ?w ?t] =>
      rewrite (generate_object_run_ethereum w t o k a)
  | |- context [Solana.generateDag4Proof (VObj ?o) ?k ?a ?w ?t] =>
      rewrite (generate_object_run_solana w t o k a)
  | |- context [Basic.generateProof (VObj ?o) ?k ?a ?w ?t] =>
      rewrite (generate_object_run_basic w t o k a)
  | |- context [match keyStore_dataSign ?w ?t ?k ?p with _ => _ end] =>
      let R := fresh "signed" in
      destruct (keyStore_dataSign w t k p) as [R|R]
  | |- context [match endpoint ?w ?t ?u ?b with _ => _ end] =>
      let A := fresh "answer" in
      destruct (endpoint w t u b) as [A|? A|A]
  end; unfold_flow.

Lemma main_ethereum_facts (wallet : EthereumScript.Wallet) (env : Env) (w : World) :
  ethereum_facts wallet env w (EthereumScript.main wallet env w []).
Proof.
  destruct (env_falsy (WALLET_PRIVATE_KEY env)) eqn:Ek;
    destruct (env_falsy (METAGRAPH_L1_DATA_URL env)) eqn:Eu;
    destruct (EthereumScript.wallet_signMessage wallet
                (utf8 (EthereumScript.wallet_address wallet
                         ++ address (createAccount w (env_value (WALLET_PRIVATE_KEY env)))
                         ++ "Owner1" ++ Number_toString 750))) as [e | sig] eqn:Ew;
    unfold_flow; repeat oneshot_step;
    (cbv beta iota zeta delta [ethereum_facts posts filter is_post fst snd signed_payloads flat_map app rejection last];
     rewrite ?Ek, ?Eu, ?Ew; repeat split; auto).
Qed.

Lemma main_solana_facts (lib : SolanaScript.Libraries) (wallet : SolanaScript.Wallet)
    (env : Env) (w : World) :
  solana_facts lib wallet env w (SolanaScript.main lib wallet env w []).
Proof.
  destruct (env_falsy (WALLET_PRIVATE_KEY env)) eqn:Ek;
    destruct (env_falsy (METAGRAPH_L1_DATA_URL env)) eqn:Eu;
    destruct (SolanaScript.nacl_sign_detached lib
                (utf8 ("QWERTYUIOPASDFGHJKLZXCVBNMQWERTY"
                         ++ address (createAccount w (env_value (WALLET_PRIVATE_KEY env)))
                         ++ "Owner1" ++ Number_toString 750))
                (SolanaScript.wallet_secretKey wallet)) as [e | sig] eqn:Ew;
    unfold_flow; repeat oneshot_step;
    (cbv beta iota zeta delta [solana_facts posts filter is_post fst snd signed_payloads flat_map app rejection last];
     rewrite ?Ek, ?Eu, ?Ew; repeat split; auto).
Qed.

Lemma main_basic_facts (parseInt : option string -> JsVal) (no_key_message : string)
    (env : Env) (senv : BasicScript.SessionEnv) (w : World) :
  basic_facts parseInt no_key_message env senv w
    (BasicScript.sendDataTransaction parseInt no_key_message env senv w []).
Proof.
  destruct (WALLET_PRIVATE_KEY env) as [key | ] eqn:Ek;
    unfold_flow; rewrite ?Ek; unfold_flow; repeat oneshot_step;
    (cbv beta iota zeta delta [basic_facts posts filter is_post fst snd rejection last];
     rewrite ?Ek; repeat split; auto).
Qed.

Lemma last_signature_app (acc : option (string * string * string)) (t1 t2 : Trace) :
  last_signature acc (t1 ++ t2)%list = last_signature (last_signature acc t1) t2.
Proof.
  revert acc. induction t1 as [|e t1 IH]; intro acc; [reflexivity | ].
  destruct e as [ | | | | | k p [x|s] | | ]; simpl; apply IH.
Qed.

Lemma submitted_as_signed_spec (key url pid : string) (pre post : Trace)
    (u : string) (body : JsVal) (a : Response) :
  forall acc,
    submitted_as_signed key url pid acc (pre ++ EPost u body a :: post)%list ->
    exists p s,
      last_signature acc pre = Some (key, p, s)
      /\ u = url
      /\ p = payload_of (body_value body)
      /\ body = envelope (body_value body) {| id := pid; signature := s |}.
Proof.
  induction pre as [|e pre IH]; intros acc H.
  - simpl in H. destruct H as [H _]. destruct acc as [[[k p] s]|]; [ | contradiction].
    destruct H as (-> & -> & -> & Hb). exists (payload_of (body_value body)), s.
    repeat split. exact Hb.
  - destruct e as [ | | | | | k p [x|s] | u' b' a' | ]; simpl in H |- *;
      try (now apply IH).
Qed.

Lemma no_wait_no_second_post (mid post : Trace) (e2 : Event) :
  is_post e2 = true ->
  waits_between false (mid ++ e2 :: post)%list = true ->
  exists ms, In (ESleep ms) mid.
Proof.
  intros H2. induction mid as [|m mid IH]; intro H.
  - destruct e2; try discriminate H2. simpl in H. discriminate H.
  - destruct m as [ | | | | | | u' b' a' | ms ]; simpl in H;
      try (destruct (IH H) as [ms' Hin]; exists ms'; now right).
    + discriminate H.
    + exists ms. now left.
Qed.

Lemma waits_between_spec (pre mid post : Trace) (e1 e2 : Event) :
  forall waited,
    waits_between waited (pre ++ e1 :: mid ++ e2 :: post)%list = true ->
    is_post e1 = true -> is_post e2 = true ->
    exists ms, In (ESleep ms) mid.
Proof.
  intros waited H H1 H2. revert waited H.
  induction pre as [|e pre IH]; intros waited H.
  - destruct e1; try discriminate H1. simpl in H. apply andb_prop in H as [_ H].
    now apply (no_wait_no_second_post mid post e2).
  - destruct e as [ | | | | | | u' b' a' | ms ]; simpl in H; try (now apply (IH _ H)).
    apply andb_prop in H as [_ H]. now apply (IH _ H).
Qed.

(** ** The lifecycle script, further *)

(** X8: in every run of the lifecycle script, each request goes to
    <METAGRAPH_L1_DATA_URL>/data and carries exactly what was signed: its
    body is a value with one proof, whose id is the normalised public key
    of the account and whose signature is the one the key store gave
    last, under WALLET_PRIVATE_KEY, for the payload of that very value. *)
Theorem lifecycle_submits_what_was_signed (w : World) (env : Env) (pre post : Trace)
    (u : string) (body : JsVal) (a : Response) :
  snd (Lifecycle.main env w []) = (pre ++ EPost u body a :: post)%list ->
  exists s,
    last_signature None pre
    = Some (env_value (WALLET_PRIVATE_KEY env), payload_of (body_value body), s)
    /\ u = env_value (METAGRAPH_L1_DATA_URL env) ++ "/data"
    /\ body = envelope (body_value body)
                {| id := proof_id_of (createAccount w (env_value (WALLET_PRIVATE_KEY env)));
                   signature := s |}.
Proof.
  intro Ht. destruct (main_lifecycle_facts w env) as (H & _).
  rewrite Ht in H.
  destruct (submitted_as_signed_spec _ _ _ pre post u body a None H) as (p & s & Hl & Hu & -> & Hb).
  exists s. now repeat split.
Qed.

Lemma lifecycle_submits_what_was_signed_witness :
  exists s,
    last_signature None (firstn 17 scenario_B_trace)
    = Some ("validator-private-key",
            payload_of (Lifecycle.buildExtendSessionMessage (VStr "abc123")
                          (VStr "DAG4validatorAddress") (VNum 24000)), s).
Proof.
  destruct (lifecycle_submits_what_was_signed scenario_B_world sample_env
              (firstn 17 scenario_B_trace) (skipn 18 scenario_B_trace)
              "http://localhost:9400/data"
              (envelope (Lifecycle.buildExtendSessionMessage (VStr "abc123")
                           (VStr "DAG4validatorAddress") (VNum 24000))
                 {| id := key128;
                    signature := "signed:" ++ payload_of
                      (Lifecycle.buildExtendSessionMessage (VStr "abc123")
                         (VStr "DAG4validatorAddress") (VNum 24000)) |})
              session_not_found) as (s & H & _).
  - vm_compute. reflexivity.
  - exists s. exact H.
Defined.

(** X9: a run of the lifecycle script ends normally exactly when it has
    posted three requests and all three were answered 2xx. It never
    posts a request straight after another: a wait lies in between, the
    first of 20000 ms and the second of 60000 ms. *)
Theorem lifecycle_normal_end (w : World) (env : Env) :
  (fst (Lifecycle.main env w []) = Normal tt <->
   List.length (posts (snd (Lifecycle.main env w []))) = 3
   /\ forallb answered_2xx (posts (snd (Lifecycle.main env w []))) = true)
  /\ (forall pre e1 mid e2 post,
         snd (Lifecycle.main env w []) = (pre ++ e1 :: mid ++ e2 :: post)%list ->
         is_post e1 = true -> is_post e2 = true ->
         exists ms, In (ESleep ms) mid)
  /\ (sleeps (snd (Lifecycle.main env w [])) = []
      \/ sleeps (snd (Lifecycle.main env w [])) = [20000%Z]
      \/ sleeps (snd (Lifecycle.main env w [])) = [20000%Z; 60000%Z]).
Proof.
  destruct (main_lifecycle_facts w env) as (_ & Hn & Hw & Hs & _).
  split; [ | split; [ | exact Hs]].
  - split.
    + intro E. rewrite E in Hn. simpl in Hn. symmetry in Hn.
      apply andb_prop in Hn as [H1 H2]. apply Nat.eqb_eq in H1. now split.
    + intros [H1 H2]. rewrite H1, H2 in Hn. simpl in Hn.
      destruct (fst (Lifecycle.main env w [])) as [[] | |]; [reflexivity | discriminate..].
  - intros pre e1 mid e2 post Ht H1 H2. rewrite Ht in Hw.
    now apply (waits_between_spec pre mid post e1 e2 true Hw).
Qed.

Lemma lifecycle_normal_end_witness :
  fst (Lifecycle.main sample_env no_hash_world []) = Normal tt.
Proof.
  apply (proj1 (lifecycle_normal_end no_hash_world sample_env)).
  vm_compute. split; reflexivity.
Defined.

Lemma starts_nth (l1 l2 : list JsVal) (n : nat) (x : JsVal) :
  starts l1 l2 -> nth_error l1 n = Some x -> nth_error l2 n = Some x.
Proof.
  revert l2 n. induction l1 as [|a l1 IH]; intros [|b l2] [|n]; simpl;
    try discriminate; try contradiction.
  - intros [-> _] [= ->]. reflexivity.
  - intros [_ H] E. now apply IH.
Qed.

(** X10: the session id is threaded through the run: when the create
    request was answered 2xx and reading [hash] off the answer gave an
    id, the second request of the run, if there is one, is the extend
    command with that id and ordinal 24000, and the third, if there is
    one, is the close command with that same id. *)
Theorem lifecycle_threads_session_id (w : World) (env : Env) (data sid : JsVal) :
  first_answer (snd (Lifecycle.main env w [])) = Some (Status2xx data) ->
  fst (get_prop data "hash" w []) = Normal sid ->
  (forall u body a,
      nth_error (posts (snd (Lifecycle.main env w []))) 1 = Some (EPost u body a) ->
      body_value body
      = Lifecycle.buildExtendSessionMessage sid
          (VStr (address (createAccount w (env_value (WALLET_PRIVATE_KEY env))))) (VNum 24000))
  /\ (forall u body a,
         nth_error (posts (snd (Lifecycle.main env w []))) 2 = Some (EPost u body a) ->
         body_value body
         = Lifecycle.buildCloseSessionMessage sid
             (VStr (address (createAccount w (env_value (WALLET_PRIVATE_KEY env)))))).
Proof.
  intros Ha Hs. destruct (main_lifecycle_facts w env) as (_ & _ & _ & _ & H & _).
  rewrite Ha, Hs in H. cbv zeta in H. unfold first_answer in Ha.
  destruct (posts (snd (Lifecycle.main env w []))) as [|p0 ps]; [discriminate Ha | ].
  simpl skipn in H.
  split; intros u body a E.
  - change (nth_error ps 0 = Some (EPost u body a)) in E.
    pose proof (starts_nth _ _ 0 _ H (map_nth_error _ _ _ E)) as K.
    simpl in K. now injection K.
  - change (nth_error ps 1 = Some (EPost u body a)) in E.
    pose proof (starts_nth _ _ 1 _ H (map_nth_error _ _ _ E)) as K.
    simpl in K. now injection K.
Qed.

Lemma lifecycle_threads_session_id_witness :
  body_value
    (envelope (Lifecycle.buildExtendSessionMessage (VStr "abc123")
                 (VStr "DAG4validatorAddress") (VNum 24000))
       {| id := key128;
          signature := "signed:" ++ payload_of
            (Lifecycle.buildExtendSessionMessage (VStr "abc123")
               (VStr "DAG4validatorAddress") (VNum 24000)) |})
  = Lifecycle.buildExtendSessionMessage (VStr "abc123") (VStr "DAG4validatorAddress")
      (VNum 24000).
Proof.
  apply (proj1 (lifecycle_threads_session_id scenario_B_world sample_env
                  (VObj [("hash", VStr "abc123")]) (VStr "abc123")
                  ltac:(vm_compute; reflexivity) ltac:(reflexivity))
           "http://localhost:9400/data" _ session_not_found).
  vm_compute. reflexivity.
Defined.

(** X11: the lifecycle script checks its configuration before anything
    else: with WALLET_PRIVATE_KEY or METAGRAPH_L1_DATA_URL unset or empty
    it prints one error and exits with status 1, without logging in,
    signing or posting; otherwise the first thing it does is log in with
    that key and connect. *)
Theorem lifecycle_checks_configuration_first (w : World) (env : Env) :
  (env_falsy (WALLET_PRIVATE_KEY env) || env_falsy (METAGRAPH_L1_DATA_URL env) = true ->
   Lifecycle.main env w []
   = (Exit 1, [EConsoleError [LText "Missing required environment variables"]]))
  /\ (env_falsy (WALLET_PRIVATE_KEY env) || env_falsy (METAGRAPH_L1_DATA_URL env) = false ->
      exists nv l0 tn rest,
        snd (Lifecycle.main env w [])
        = ELogin (env_value (WALLET_PRIVATE_KEY env)) :: EConnect nv l0 tn :: rest).
Proof.
  destruct (main_lifecycle_facts w env) as (_ & _ & _ & _ & _ & H).
  split; intro E; rewrite E in H; [exact H | ].
  destruct (snd (Lifecycle.main env w [])) as [|[ | | k | | | | | ] [|[ | | | nv l0 tn | | | | ] rest]];
    try contradiction.
  subst k. now exists nv, l0, tn, rest.
Qed.

Lemma lifecycle_checks_configuration_first_witness :
  Lifecycle.main {| WALLET_PRIVATE_KEY := Some "validator-private-key";
                    METAGRAPH_L1_DATA_URL := Some EmptyString;
                    NETWORK_VERSION := None; GLOBAL_L0_URL := None; TESTNET := None |}
    scenario_B_world []
  = (Exit 1, [EConsoleError [LText "Missing required environment variables"]]).
Proof.
  apply (proj1 (lifecycle_checks_configuration_first scenario_B_world
                  {| WALLET_PRIVATE_KEY := Some "validator-private-key";
                     METAGRAPH_L1_DATA_URL := Some EmptyString;
                     NETWORK_VERSION := None; GLOBAL_L0_URL := None; TESTNET := None |})).
  reflexivity.
Defined.

(** ** The one-shot scripts *)

Lemma sole_post (t pre post : Trace) (u : string) (body : JsVal) (a : Response) :
  t = (pre ++ EPost u body a :: post)%list ->
  Nat.leb (List.length (posts t)) 1 = true ->
  posts t = [EPost u body a].
Proof.
  intros -> H. rewrite posts_app in *. change (posts (EPost u body a :: post))
    with (EPost u body a :: posts post) in *.
  rewrite length_app in H. simpl in H. apply Nat.leb_le in H.
  destruct (posts pre); [ | simpl in H; lia].
  destruct (posts post); [reflexivity | simpl in H; lia].
Qed.

(** X12: the main flow of the Ethereum script submits what both keys
    signed. Whenever it posts, the wallet has signed the UTF-8 bytes of
    its own address, the account address, Owner1 and 750 put end to end;
    the value posted is the create command with that signature in hash;
    the one proof carries the signature the key store gave, under
    WALLET_PRIVATE_KEY, for the payload of that finished command; and the
    request goes to <METAGRAPH_L1_DATA_URL>/data. *)
Theorem ethereum_main_pipeline (wallet : EthereumScript.Wallet) (env : Env) (w : World)
    (pre post : Trace) (u : string) (body : JsVal) (a : Response) :
  snd (EthereumScript.main wallet env w []) = (pre ++ EPost u body a :: post)%list ->
  exists sig s,
    EthereumScript.wallet_signMessage wallet
      (utf8 (EthereumScript.wallet_address wallet
               ++ address (createAccount w (env_value (WALLET_PRIVATE_KEY env)))
               ++ "Owner1" ++ "750")) = inr sig
    /\ body = envelope
                (ethereum_finalized (createAccount w (env_value (WALLET_PRIVATE_KEY env)))
                   wallet sig)
                {| id := proof_id_of (createAccount w (env_value (WALLET_PRIVATE_KEY env)));
                   signature := s |}
    /\ last_signature None pre
       = Some (env_value (WALLET_PRIVATE_KEY env),
               payload_of (ethereum_finalized
                             (createAccount w (env_value (WALLET_PRIVATE_KEY env))) wallet sig),
               s)
    /\ u = env_value (METAGRAPH_L1_DATA_URL env) ++ "/data".
Proof.
  intro Ht.
  destruct (main_ethereum_facts wallet env w) as (_ & Hk & _ & Hs & Hn & Hle & _ & Hw & _).
  cbv zeta in Hs, Hw.
  pose proof (sole_post _ pre post u body a Ht Hle) as Hp.
  rewrite Ht in Hs.
  destruct (submitted_as_signed_spec _ _ _ pre post u body a None Hs)
    as (p & s & Hl & Hu & -> & Hb).
  change (Number_toString 750) with "750" in Hw.
  destruct (EthereumScript.wallet_signMessage wallet _) as [e | sig] eqn:Ew.
  - exfalso. destruct (env_falsy (WALLET_PRIVATE_KEY env)).
    + destruct Hk as [Hk _]. rewrite Hk, Hp in Hn. discriminate Hn.
    + destruct Hw as [_ Hw]. rewrite Ht in Hw.
      unfold signed_payloads in Hw. rewrite flat_map_app in Hw.
      clear - Hl Hw.
      apply app_eq_nil in Hw as [Hw _].
      assert (G : forall acc, last_signature acc pre = acc).
      { revert Hw. clear. induction pre as [|e pre IH]; intros Hw acc; [reflexivity | ].
        destruct e; simpl in Hw |- *; try (now apply IH). discriminate Hw. }
      rewrite G in Hl. discriminate Hl.
  - rewrite Hp in Hw. destruct Hw as [Hw _]. rewrite Hw in Hl, Hb.
    exists sig, s. now repeat split.
Qed.

Lemma ethereum_main_pipeline_witness :
  exists sig s,
    EthereumScript.wallet_signMessage sample_eth_wallet
      (utf8 ("0xETH" ++ "DAG4validatorAddress" ++ "Owner1" ++ "750")) = inr sig
    /\ last_signature None (firstn 11 ethereum_sample_trace)
       = Some ("validator-private-key",
               payload_of (ethereum_finalized (sample_account key130) sample_eth_wallet sig),
               s).
Proof.
  destruct (ethereum_main_pipeline sample_eth_wallet sample_env refusing_world
              (firstn 11 ethereum_sample_trace) (skipn 12 ethereum_sample_trace)
              "http://localhost:9400/data"
              (envelope
                 (ethereum_finalized (sample_account key130) sample_eth_wallet
                    ("0xsigned" ++ hex_of_bytes (utf8 "0xETHDAG4validatorAddressOwner1750")))
                 {| id := key128;
                    signature := "signed:" ++ payload_of
                      (ethereum_finalized (sample_account key130) sample_eth_wallet
                         ("0xsigned"
                            ++ hex_of_bytes (utf8 "0xETHDAG4validatorAddressOwner1750"))) |})
              session_not_found) as (sig & s & H1 & _ & H2 & _).
  - vm_compute. reflexivity.
  - exists sig, s. split; [exact H1 | exact H2].
Defined.

Lemma run_of_parts {A : Type} (run : Outcome A * Trace) (o : Outcome A) (l1 l2 : Trace) :
  fst run = o -> firstn 2 (snd run) = l1 -> skipn 2 (snd run) = l2 ->
  run = (o, (l1 ++ l2)%list).
Proof.
  destruct run as [o' t]. cbn [fst snd]. intros -> <- <-. now rewrite firstn_skipn.
Qed.

Lemma no_posts (t : Trace) (o : bool) :
  o = Nat.eqb (List.length (posts t)) 1 -> Nat.leb (List.length (posts t)) 1 = true ->
  o = false -> posts t = [].
Proof.
  intros -> Hle Hn. apply Nat.leb_le in Hle. apply Nat.eqb_neq in Hn.
  destruct (posts t); [reflexivity | simpl in *; lia].
Qed.

(** X13: configuration of the Ethereum script. Every run begins by
    printing the address and the private key of the wallet it generated,
    before any configuration is read. With WALLET_PRIVATE_KEY unset or
    empty the run is those two lines, one error line and exit status 1.
    With METAGRAPH_L1_DATA_URL unset or empty nothing is posted and the
    run does not end normally. The script exits only with status 1 and
    only for one of these two reasons. *)
Theorem ethereum_main_configuration (wallet : EthereumScript.Wallet) (env : Env) (w : World) :
  firstn 2 (snd (EthereumScript.main wallet env w []))
  = [EConsoleLog [LText ("Generated Ethereum Wallet Address: "
                           ++ EthereumScript.wallet_address wallet)];
     EConsoleLog [LText ("Ethereum Wallet Private Key: "
                           ++ EthereumScript.wallet_privateKey wallet)]]
  /\ (env_falsy (WALLET_PRIVATE_KEY env) = true ->
      EthereumScript.main wallet env w []
      = (Exit 1,
         [EConsoleLog [LText ("Generated Ethereum Wallet Address: "
                                ++ EthereumScript.wallet_address wallet)];
          EConsoleLog [LText ("Ethereum Wallet Private Key: "
                                ++ EthereumScript.wallet_privateKey wallet)];
          EConsoleError
            [LText "WALLET_PRIVATE_KEY is not set in the environment variables."]]))
  /\ (env_falsy (METAGRAPH_L1_DATA_URL env) = true ->
      posts (snd (EthereumScript.main wallet env w [])) = []
      /\ is_normal (fst (EthereumScript.main wallet env w [])) = false)
  /\ (forall c, fst (EthereumScript.main wallet env w []) = Exit c ->
      c = 1%Z
      /\ env_falsy (WALLET_PRIVATE_KEY env) || env_falsy (METAGRAPH_L1_DATA_URL env) = true).
Proof.
  destruct (main_ethereum_facts wallet env w) as (Hf & Hk & Hu & _ & _ & _ & Hx & _).
  split; [exact Hf | ]. split; [ | split].
  - intro E. rewrite E in Hk. destruct Hk as [H1 H2].
    exact (run_of_parts _ _ _ _ H1 Hf H2).
  - intro E. rewrite E in Hu. exact Hu.
  - intros c E. rewrite E in Hx. exact Hx.
Qed.

Lemma ethereum_main_configuration_witness :
  EthereumScript.main sample_eth_wallet env_without_key refusing_world []
  = (Exit 1,
     [EConsoleLog [LText "Generated Ethereum Wallet Address: 0xETH"];
      EConsoleLog [LText "Ethereum Wallet Private Key: 0xprivate"];
      EConsoleError [LText "WALLET_PRIVATE_KEY is not set in the environment variables."]])
  /\ posts (snd (EthereumScript.main sample_eth_wallet env_without_url refusing_world [])) = [].
Proof.
  split.
  - apply (proj1 (proj2 (ethereum_main_configuration sample_eth_wallet env_without_key
                           refusing_world))).
    reflexivity.
  - apply (proj1 (proj2 (proj2 (ethereum_main_configuration sample_eth_wallet env_without_url
                                  refusing_world)))).
    reflexivity.
Defined.

(** X14: how a run of the Ethereum script ends. It posts at most one
    request and ends normally exactly when it has posted one, whatever
    the answer was. With the key set, a wallet that refuses to sign ends
    the run with that error uncaught, the key store never asked and
    nothing posted; a wallet that signs has the key store asked exactly
    once, for the payload of the finished command, also when the URL is
    missing. A signing the key store rejects ends the run with that
    error uncaught and nothing posted. *)
Theorem ethereum_main_outcome (wallet : EthereumScript.Wallet) (env : Env) (w : World) :
  is_normal (fst (EthereumScript.main wallet env w []))
  = Nat.eqb (List.length (posts (snd (EthereumScript.main wallet env w [])))) 1
  /\ List.length (posts (snd (EthereumScript.main wallet env w []))) <= 1
  /\ (env_falsy (WALLET_PRIVATE_KEY env) = false ->
      match EthereumScript.wallet_signMessage wallet
              (utf8 (EthereumScript.wallet_address wallet
                       ++ address (createAccount w (env_value (WALLET_PRIVATE_KEY env)))
                       ++ "Owner1" ++ "750")) with
      | inl e =>
          fst (EthereumScript.main wallet env w []) = Throw e
          /\ signed_payloads (snd (EthereumScript.main wallet env w [])) = []
          /\ posts (snd (EthereumScript.main wallet env w [])) = []
      | inr sig =>
          signed_payloads (snd (EthereumScript.main wallet env w []))
          = [payload_of (ethereum_finalized
                           (createAccount w (env_value (WALLET_PRIVATE_KEY env))) wallet sig)]
      end)
  /\ (forall e, rejection (snd (EthereumScript.main wallet env w [])) = Some e ->
      fst (EthereumScript.main wallet env w []) = Throw e
      /\ posts (snd (EthereumScript.main wallet env w [])) = []).
Proof.
  destruct (main_ethereum_facts wallet env w) as (_ & _ & _ & _ & Hn & Hle & _ & Hw & Hr).
  cbv zeta in Hw. change (Number_toString 750) with "750" in Hw.
  split; [exact Hn | ]. split; [now apply Nat.leb_le | ]. split.
  - intro E. rewrite E in Hw.
    destruct (EthereumScript.wallet_signMessage wallet _) as [e | sig].
    + destruct Hw as [H1 H2]. repeat split; auto.
      apply (no_posts _ _ Hn Hle). now rewrite H1.
    + apply Hw.
  - intros e E. rewrite E in Hr. exact Hr.
Qed.

Lemma ethereum_main_outcome_witness :
  fst (EthereumScript.main refusing_eth_wallet sample_env refusing_world [])
  = Throw (TypeError "invalid private key")
  /\ signed_payloads (snd (EthereumScript.main refusing_eth_wallet sample_env
                             refusing_world [])) = []
  /\ posts (snd (EthereumScript.main refusing_eth_wallet sample_env refusing_world [])) = [].
Proof.
  apply (proj1 (proj2 (proj2 (ethereum_main_outcome refusing_eth_wallet sample_env
                                refusing_world)))).
  reflexivity.
Defined.

(** X15: the main flow of the Solana script submits what both keys
    signed. Whenever it posts, the Solana key has signed the UTF-8 bytes
    of the fixed address QWERTYUIOPASDFGHJKLZXCVBNMQWERTY (never the
    address of the wallet the run generated), the account address, Owner1
    and 750 put end to end; the value posted is the create command with
    the base58 text of that signature in solanaSignature; the one proof
    carries the signature the key store gave, under WALLET_PRIVATE_KEY,
    for the payload of that finished command; and the request goes to
    <METAGRAPH_L1_DATA_URL>/data. *)
Theorem solana_main_pipeline (lib : SolanaScript.Libraries) (wallet : SolanaScript.Wallet)
    (env : Env) (w : World) (pre post : Trace) (u : string) (body : JsVal) (a : Response) :
  snd (SolanaScript.main lib wallet env w []) = (pre ++ EPost u body a :: post)%list ->
  exists sig s,
    SolanaScript.nacl_sign_detached lib
      (utf8 ("QWERTYUIOPASDFGHJKLZXCVBNMQWERTY"
               ++ address (createAccount w (env_value (WALLET_PRIVATE_KEY env)))
               ++ "Owner1" ++ "750"))
      (SolanaScript.wallet_secretKey wallet) = inr sig
    /\ body = envelope
                (solana_finalized (createAccount w (env_value (WALLET_PRIVATE_KEY env)))
                   (SolanaScript.bs58_encode lib sig))
                {| id := proof_id_of (createAccount w (env_value (WALLET_PRIVATE_KEY env)));
                   signature := s |}
    /\ last_signature None pre
       = Some (env_value (WALLET_PRIVATE_KEY env),
               payload_of (solana_finalized
                             (createAccount w (env_value (WALLET_PRIVATE_KEY env)))
                             (SolanaScript.bs58_encode lib sig)),
               s)
    /\ u = env_value (METAGRAPH_L1_DATA_URL env) ++ "/data".
Proof.
  intro Ht.
  destruct (main_solana_facts lib wallet env w)
    as (_ & _ & _ & Hs & _ & Hle & _ & _ & Hw & _).
  cbv zeta in Hs, Hw.
  pose proof (sole_post _ pre post u body a Ht Hle) as Hp.
  rewrite Ht in Hs.
  destruct (submitted_as_signed_spec _ _ _ pre post u body a None Hs)
    as (p & s & Hl & Hu & -> & Hb).
  change (Number_toString 750) with "750" in Hw.
  destruct (SolanaScript.nacl_sign_detached lib _ _) as [e | sig].
  - destruct Hw as (_ & _ & Hw & _). rewrite Hp in Hw. discriminate Hw.
  - rewrite Hp in Hw. destruct Hw as [Hw _]. rewrite Hw in Hl, Hb.
    exists sig, s. now repeat split.
Qed.

Lemma solana_main_pipeline_witness :
  exists sig s,
    SolanaScript.nacl_sign_detached sample_sol_lib
      (utf8 ("QWERTYUIOPASDFGHJKLZXCVBNMQWERTY" ++ "DAG4validatorAddress" ++ "Owner1" ++ "750"))
      (SolanaScript.wallet_secretKey sample_sol_wallet) = inr sig
    /\ last_signature None (firstn 11 solana_sample_trace)
       = Some ("validator-private-key",
               payload_of (solana_finalized (sample_account key130)
                             (SolanaScript.bs58_encode sample_sol_lib sig)),
               s).
Proof.
  destruct (solana_main_pipeline sample_sol_lib sample_sol_wallet sample_env refusing_world
              (firstn 11 solana_sample_trace) (skipn 12 solana_sample_trace)
              "http://localhost:9400/data"
              (envelope
                 (solana_finalized (sample_account key130)
                    (hex_of_bytes
                       (utf8 "QWERTYUIOPASDFGHJKLZXCVBNMQWERTYDAG4validatorAddressOwner1750")))
                 {| id := key128;
                    signature := "signed:" ++ payload_of
                      (solana_finalized (sample_account key130)
                         (hex_of_bytes
                            (utf8 "QWERTYUIOPASDFGHJKLZXCVBNMQWERTYDAG4validatorAddressOwner1750"))) |})
              session_not_found) as (sig & s & H1 & _ & H2 & _).
  - vm_compute. reflexivity.
  - exists sig, s. split; [exact H1 | exact H2].
Defined.

(** X16: configuration of the Solana script. Every run begins by
    printing the address and the secret key of the wallet it generated.
    With WALLET_PRIVATE_KEY unset or empty the run is those two lines,
    one error line and exit status 1. With METAGRAPH_L1_DATA_URL unset or
    empty nothing is posted and the run exits with status 1. *)
Theorem solana_main_configuration (lib : SolanaScript.Libraries)
    (wallet : SolanaScript.Wallet) (env : Env) (w : World) :
  firstn 2 (snd (SolanaScript.main lib wallet env w []))
  = [EConsoleLog [LText ("Generated Solana Wallet Address: "
                           ++ SolanaScript.wallet_address wallet)];
     EConsoleLog [LText ("Solana Wallet Private Key: "
                           ++ SolanaScript.bs58_encode lib
                                (SolanaScript.wallet_secretKey wallet))]]
  /\ (env_falsy (WALLET_PRIVATE_KEY env) = true ->
      SolanaScript.main lib wallet env w []
      = (Exit 1,
         [EConsoleLog [LText ("Generated Solana Wallet Address: "
                                ++ SolanaScript.wallet_address wallet)];
          EConsoleLog [LText ("Solana Wallet Private Key: "
                                ++ SolanaScript.bs58_encode lib
                                     (SolanaScript.wallet_secretKey wallet))];
          EConsoleError
            [LText "WALLET_PRIVATE_KEY is not set in the environment variables."]]))
  /\ (env_falsy (METAGRAPH_L1_DATA_URL env) = true ->
      posts (snd (SolanaScript.main lib wallet env w [])) = []
      /\ fst (SolanaScript.main lib wallet env w []) = Exit 1).
Proof.
  destruct (main_solana_facts lib wallet env w) as (Hf & Hk & Hu & _).
  split; [exact Hf | ]. split.
  - intro E. rewrite E in Hk. destruct Hk as [H1 H2].
    exact (run_of_parts _ _ _ _ H1 Hf H2).
  - intro E. rewrite E in Hu. exact Hu.
Qed.

Lemma solana_main_configuration_witness :
  posts (snd (SolanaScript.main sample_sol_lib sample_sol_wallet env_without_url
                refusing_world [])) = []
  /\ fst (SolanaScript.main sample_sol_lib sample_sol_wallet env_without_url
            refusing_world []) = Exit 1.
Proof.
  apply (proj2 (proj2 (solana_main_configuration sample_sol_lib sample_sol_wallet
                         env_without_url refusing_world))).
  reflexivity.
Defined.

(** X17: how a run of the Solana script ends. No error leaves it
    uncaught: a run ends normally or exits with status 1. It posts at
    most one request and ends normally exactly when it has posted one,
    whatever the answer was. A Solana signing that throws, as with a
    malformed secret key, ends the run with exit status 1, the key store
    never asked and nothing posted, the error printed last when the key
    is set. A signing the key store rejects ends the run with exit status
    1, nothing posted and that error printed last. With the key set and
    the Solana signing done, the key store is asked exactly once, for the
    payload of the finished command. *)
Theorem solana_main_outcome (lib : SolanaScript.Libraries) (wallet : SolanaScript.Wallet)
    (env : Env) (w : World) :
  (fst (SolanaScript.main lib wallet env w []) = Normal tt
   \/ fst (SolanaScript.main lib wallet env w []) = Exit 1)
  /\ is_normal (fst (SolanaScript.main lib wallet env w []))
     = Nat.eqb (List.length (posts (snd (SolanaScript.main lib wallet env w [])))) 1
  /\ List.length (posts (snd (SolanaScript.main lib wallet env w []))) <= 1
  /\ match SolanaScript.nacl_sign_detached lib
             (utf8 ("QWERTYUIOPASDFGHJKLZXCVBNMQWERTY"
                      ++ address (createAccount w (env_value (WALLET_PRIVATE_KEY env)))
                      ++ "Owner1" ++ "750"))
             (SolanaScript.wallet_secretKey wallet) with
     | inl e =>
         fst (SolanaScript.main lib wallet env w []) = Exit 1
         /\ signed_payloads (snd (SolanaScript.main lib wallet env w [])) = []
         /\ posts (snd (SolanaScript.main lib wallet env w [])) = []
         /\ (env_falsy (WALLET_PRIVATE_KEY env) = false ->
             last (snd (SolanaScript.main lib wallet env w [])) (ESleep 0)
             = EConsoleError [LText "Error in main execution:"; LExn e])
     | inr sig =>
         env_falsy (WALLET_PRIVATE_KEY env) = false ->
         signed_payloads (snd (SolanaScript.main lib wallet env w []))
         = [payload_of (solana_finalized
                          (createAccount w (env_value (WALLET_PRIVATE_KEY env)))
                          (SolanaScript.bs58_encode lib sig))]
     end
  /\ (forall e, rejection (snd (SolanaScript.main lib wallet env w [])) = Some e ->
      fst (SolanaScript.main lib wallet env w []) = Exit 1
      /\ posts (snd (SolanaScript.main lib wallet env w [])) = []
      /\ last (snd (SolanaScript.main lib wallet env w [])) (ESleep 0)
         = EConsoleError [LText "Error in main execution:"; LExn e]).
Proof.
  destruct (main_solana_facts lib wallet env w)
    as (_ & _ & _ & _ & Hn & Hle & Hx & _ & Hw & Hr).
  cbv zeta in Hw. change (Number_toString 750) with "750" in Hw.
  split; [ | split; [exact Hn | split; [now apply Nat.leb_le | split]]].
  - destruct (fst (SolanaScript.main lib wallet env w [])) as [[] | e | c];
      [now left | contradiction | right; now subst c].
  - destruct (SolanaScript.nacl_sign_detached lib _ _) as [e | sig].
    + destruct Hw as (H1 & H2 & H3 & H4). repeat split; auto.
      intro E. now rewrite E in H4.
    + intro E. rewrite E in Hw. apply Hw.
  - intros e E. rewrite E in Hr. exact Hr.
Qed.

Lemma solana_main_outcome_witness :
  fst (SolanaScript.main sample_sol_lib sample_sol_wallet sample_env rejecting_world [])
  = Exit 1
  /\ posts (snd (SolanaScript.main sample_sol_lib sample_sol_wallet sample_env
                   rejecting_world [])) = []
  /\ last (snd (SolanaScript.main sample_sol_lib sample_sol_wallet sample_env
                  rejecting_world [])) (ESleep 0)
     = EConsoleError [LText "Error in main execution:";
                      LExn (KeyStoreError "account not authenticated")].
Proof.
  apply (proj2 (proj2 (proj2 (proj2 (solana_main_outcome sample_sol_lib sample_sol_wallet
                                       sample_env rejecting_world))))).
  vm_compute. reflexivity.
Defined.

(** X18: the flow of the first script submits what was signed. Whenever
    it posts, the value posted is the command built from CREATOR,
    SESSION_ID and END_SNAPSHOT_ORDINAL; the one proof carries the
    signature the key store gave, under WALLET_PRIVATE_KEY, for the
    payload of that command; and the request goes to
    <METAGRAPH_L1_DATA_URL>/data. *)
Theorem basic_flow_pipeline (parseInt : option string -> JsVal) (no_key_message : string)
    (env : Env)
    (senv : BasicScript.SessionEnv) (w : World)
    (pre post : Trace) (u : string) (body : JsVal) (a : Response) :
  snd (BasicScript.sendDataTransaction parseInt no_key_message env senv w [])
  = (pre ++ EPost u body a :: post)%list ->
  exists s,
    body = envelope (BasicScript.buildCreateSessionMessage parseInt senv)
             {| id := proof_id_of (createAccount w (env_value (WALLET_PRIVATE_KEY env)));
                signature := s |}
    /\ last_signature None pre
       = Some (env_value (WALLET_PRIVATE_KEY env),
               payload_of (BasicScript.buildCreateSessionMessage parseInt senv), s)
    /\ u = env_value (METAGRAPH_L1_DATA_URL env) ++ "/data".
Proof.
  intro Ht.
  destruct (main_basic_facts parseInt no_key_message env senv w)
    as (Hs & _ & Hle & _ & _ & Hw & _).
  cbv zeta in Hs.
  pose proof (sole_post _ pre post u body a Ht Hle) as Hp.
  rewrite Ht in Hs.
  destruct (submitted_as_signed_spec _ _ _ pre post u body a None Hs)
    as (p & s & Hl & Hu & -> & Hb).
  rewrite Hp in Hw. destruct Hw as [Hw _]. rewrite Hw in Hl, Hb.
  exists s. now repeat split.
Qed.

Lemma basic_flow_pipeline_witness :
  exists s,
    last_signature None (firstn 4 basic_sample_trace)
    = Some ("validator-private-key",
            payload_of (BasicScript.buildCreateSessionMessage sample_parseInt
                          sample_session_env), s).
Proof.
  destruct (basic_flow_pipeline sample_parseInt sample_no_key_message sample_env
              sample_session_env refusing_world
              (firstn 4 basic_sample_trace) (skipn 5 basic_sample_trace)
              "http://localhost:9400/data"
              (envelope (BasicScript.buildCreateSessionMessage sample_parseInt
                           sample_session_env)
                 {| id := key128;
                    signature := "signed:" ++ payload_of
                      (BasicScript.buildCreateSessionMessage sample_parseInt
                         sample_session_env) |})
              session_not_found) as (s & _ & H & _).
  - vm_compute. reflexivity.
  - exists s. exact H.
Defined.


